(** * Feedback application: OTP authentication, feedback access and sharing

    A shallow embedding of the request handlers of [api/v1/auth/routes.py]
    and of the service functions of [api/v1/auth/services.py], over the
    tables declared in [models/].

    Conventions of the embedding:
    - a table is the list of its rows in storage order; [Query.first()] is
      the first row of that order that passes the filter, and the row object
      it returns is identified by its position (primary keys that the code
      never reads are left out of the row records);
    - a handler is a function from the committed database to an outcome
      (return value or raised exception) and the database as it is committed
      when the handler leaves; changes that were not committed are dropped;
    - [datetime.utcnow()] is the argument [now], one reading per request,
      in whole seconds (the resolution of the DateTime columns);
    - [random.randint] and [bcrypt.gensalt] are inputs ([rnd], [salt]);
      [bcrypt] itself is an interface ([Bcrypt]);
    - the SMTP notifier is not part of the state: what a handler mails is
      part of its return value;
    - filters compare strings exactly. *)

From Stdlib Require Import ZArith List String Bool Lia DecimalString.
Import ListNotations.
Local Open Scope string_scope.
Local Open Scope Z_scope.
Local Open Scope list_scope.

(** ** Exceptions and outcomes *)

Inductive Exception : Type :=
| HTTPException (status_code : Z) (detail : string)
| IntegrityError
| StatementError.

Inductive Outcome (A : Type) : Type :=
| Ok (a : A)
| Raise (e : Exception).
Arguments Ok {A} a.
Arguments Raise {A} e.

Definition is_ok {A} (o : Outcome A) : bool :=
  match o with Ok _ => true | Raise _ => false end.

(** ** Queries on a table *)

Section Table.
Context {A : Type}.

(** [query.filter(p).first()] *)
Definition first (p : A -> bool) (rows : list A) : option A := find p rows.

(** assignment to attributes of the row returned by [first()], committed *)
Fixpoint update_first (p : A -> bool) (f : A -> A) (rows : list A) : list A :=
    match rows with
    | [] => []
    | r :: rs => if p r then f r :: rs else r :: update_first p f rs
    end.

(** [db.delete(row)] for the row returned by [first()], committed *)
Fixpoint delete_first (p : A -> bool) (rows : list A) : list A :=
    match rows with
    | [] => []
    | r :: rs => if p r then rs else r :: delete_first p rs
    end.

(** [query.filter(p).delete()] *)
Definition delete_all (p : A -> bool) (rows : list A) : list A :=
    filter (fun r => negb (p r)) rows.

(** [query.filter(p).all()] *)
Definition all (p : A -> bool) (rows : list A) : list A := filter p rows.
End Table.

(** autoincrement primary key *)
Definition fresh_id (ids : list Z) : Z := 1 + fold_right Z.max 0 ids.

(** Python [str] on an [int] *)
Definition str (z : Z) : string := NilZero.string_of_int (Z.to_int z).

(** [timedelta(minutes=m)], in seconds *)
Definition minutes (m : Z) : Z := m * 60.

(** ** Models *)

Module User.
Record t : Type := mk {
    id : Z;
    email : string;
    full_name : string;
    onboarded : bool
  }.
End User.

Module OTP_Tbl.
Record t : Type := mk {
    email : string;
    otp_code : string;
    full_name : option string;
    created_at : Z;
    attempts : Z;
    resend_count : Z;
    locked_until : option Z
  }.

Definition is_expired (self : t) (now : Z) : bool :=
    created_at self <? now - minutes 5.

Definition is_locked (self : t) (now : Z) : bool :=
    match locked_until self with
    | Some l => l >? now
    | None => false
    end.

Definition set_attempts (self : t) (v : Z) : t :=
    mk (email self) (otp_code self) (full_name self) (created_at self)
       v (resend_count self) (locked_until self).

Definition set_locked_until (self : t) (v : option Z) : t :=
    mk (email self) (otp_code self) (full_name self) (created_at self)
       (attempts self) (resend_count self) v.

Definition set_otp_code (self : t) (v : string) : t :=
    mk (email self) v (full_name self) (created_at self)
       (attempts self) (resend_count self) (locked_until self).

Definition set_resend_count (self : t) (v : Z) : t :=
    mk (email self) (otp_code self) (full_name self) (created_at self)
       (attempts self) v (locked_until self).

Definition set_created_at (self : t) (v : Z) : t :=
    mk (email self) (otp_code self) (full_name self) v
       (attempts self) (resend_count self) (locked_until self).

Definition set_full_name (self : t) (v : option string) : t :=
    mk (email self) (otp_code self) v (created_at self)
       (attempts self) (resend_count self) (locked_until self).
End OTP_Tbl.

(** [owner_id] is written by [create_workspace], with the id of the user. *)
Module Workspace.
Record t : Type := mk {
    id : Z;
    name : string;
    subdomain : string;
    owner_id : Z
  }.
End Workspace.

(** The column [feedback_id] is never written by the code and is left
    out. *)
Module Collaborator.
Record t : Type := mk {
    user_id : option Z;
    user_email : string;
    access_type : string;
    workspace_id : Z;
    invited_by_id : option Z
  }.

Definition set_user_id (self : t) (v : option Z) : t :=
    mk v (user_email self) (access_type self) (workspace_id self)
       (invited_by_id self).
End Collaborator.

Inductive FeedbackStatus : Type := draft | sent | edited.

Definition FeedbackStatus_eqb (a b : FeedbackStatus) : bool :=
  match a, b with
  | draft, draft | sent, sent | edited, edited => true
  | _, _ => false
  end.

(** [created_by] and [workspace_id] are written by [create_feedback], the
    only place that inserts a feedback, with the ids it has checked. *)
Module Feedback.
Record t : Type := mk {
    id : Z;
    name : string;
    created_by : Z;
    status : FeedbackStatus;
    url : option string;
    screenshot_url : option string;
    recording_url : option string;
    voice_recording_url : option string;
    message : option string;
    created_at : Z;
    developer_email : option string;
    workspace_id : Z
  }.

Definition set_status (self : t) (v : FeedbackStatus) : t :=
    mk (id self) (name self) (created_by self) v (url self)
       (screenshot_url self) (recording_url self) (voice_recording_url self)
       (message self) (created_at self) (developer_email self)
       (workspace_id self).

Definition set_developer_email (self : t) (v : option string) : t :=
    mk (id self) (name self) (created_by self) (status self) (url self)
       (screenshot_url self) (recording_url self) (voice_recording_url self)
       (message self) (created_at self) v (workspace_id self).
End Feedback.

Module FeedbackAccess.
Record t : Type := mk {
    feedback_id : Z;
    user_id : option Z;
    user_email : string;
    access_type : string
  }.
End FeedbackAccess.

Module Developer.
Record t : Type := mk {
    id : Z;
    email : string;
    workspace_id : option Z;
    invited_by_workspace_id : option Z
  }.

Definition set_invited_by_workspace_id (self : t) (v : option Z) : t :=
    mk (id self) (email self) (workspace_id self) v.
End Developer.

Inductive FeedbackDeveloperStatus : Type := pending | acknowledged | unclear.

Module FeedbackDeveloper.
Record t : Type := mk {
    feedback_id : Z;
    developer_id : Z;
    status : FeedbackDeveloperStatus;
    action_time : option Z
  }.

Definition set_action (self : t) (s : FeedbackDeveloperStatus)
      (at_time : option Z) : t :=
    mk (feedback_id self) (developer_id self) s at_time.
End FeedbackDeveloper.

(** ** The database: one list of rows per table *)

Record DB : Type := mkDB {
  Users : list User.t;
  OTPs : list OTP_Tbl.t;
  Collaborators : list Collaborator.t;
  Workspaces : list Workspace.t;
  Feedbacks : list Feedback.t;
  FeedbackAccesses : list FeedbackAccess.t;
  Developers : list Developer.t;
  FeedbackDevelopers : list FeedbackDeveloper.t
}.

Definition empty_db : DB := mkDB [] [] [] [] [] [] [] [].

Definition set_Users (db : DB) (v : list User.t) : DB :=
  mkDB v (OTPs db) (Collaborators db) (Workspaces db) (Feedbacks db)
       (FeedbackAccesses db) (Developers db) (FeedbackDevelopers db).

Definition set_OTPs (db : DB) (v : list OTP_Tbl.t) : DB :=
  mkDB (Users db) v (Collaborators db) (Workspaces db) (Feedbacks db)
       (FeedbackAccesses db) (Developers db) (FeedbackDevelopers db).

Definition set_Collaborators (db : DB) (v : list Collaborator.t) : DB :=
  mkDB (Users db) (OTPs db) v (Workspaces db) (Feedbacks db)
       (FeedbackAccesses db) (Developers db) (FeedbackDevelopers db).

Definition set_Feedbacks (db : DB) (v : list Feedback.t) : DB :=
  mkDB (Users db) (OTPs db) (Collaborators db) (Workspaces db) v
       (FeedbackAccesses db) (Developers db) (FeedbackDevelopers db).

Definition set_Developers (db : DB) (v : list Developer.t) : DB :=
  mkDB (Users db) (OTPs db) (Collaborators db) (Workspaces db) (Feedbacks db)
       (FeedbackAccesses db) v (FeedbackDevelopers db).

Definition set_FeedbackAccesses (db : DB) (v : list FeedbackAccess.t) : DB :=
  mkDB (Users db) (OTPs db) (Collaborators db) (Workspaces db) (Feedbacks db)
       v (Developers db) (FeedbackDevelopers db).

Definition set_FeedbackDevelopers (db : DB) (v : list FeedbackDeveloper.t) : DB :=
  mkDB (Users db) (OTPs db) (Collaborators db) (Workspaces db) (Feedbacks db)
       (FeedbackAccesses db) (Developers db) v.

(** Filters used by the handlers. *)

Definition user_by_email (e : string) (u : User.t) : bool :=
  String.eqb (User.email u) e.
Definition otp_by_email (e : string) (r : OTP_Tbl.t) : bool :=
  String.eqb (OTP_Tbl.email r) e.
Definition collaborator_by_email (e : string) (c : Collaborator.t) : bool :=
  String.eqb (Collaborator.user_email c) e.

(** [db.add(User(...)); db.commit()]: the insert is refused when
    [full_name] (nullable=False) is missing or [email] (unique=True) is
    already present; otherwise the row gets the next primary key. *)
Definition add_user (email : string) (full_name : option string)
    (onboarded : bool) (db : DB) : option (User.t * DB) :=
  match full_name with
  | None => None
  | Some n =>
      match first (user_by_email email) (Users db) with
      | Some _ => None
      | None =>
          let user := User.mk (fresh_id (map User.id (Users db))) email n onboarded in
          Some (user, set_Users db (Users db ++ [user]))
      end
  end.

(** ** Tokens ([utils.py]) *)

Record Token : Type := mkToken { sub : string; exp : Z }.

Definition ACCESS_TOKEN_EXPIRE_MINUTES : Z := 360.

(** [jwt.encode] is kept symbolic: a token is the claims it signs.
    [expires_delta or timedelta(minutes=ACCESS_TOKEN_EXPIRE_MINUTES)]: a
    [timedelta] of zero is falsy and gives the default, like [None]. *)
Definition create_access_token (sub : string) (expires_delta : option Z)
    (now : Z) : Token :=
  mkToken sub
    (now + match expires_delta with
           | Some d => if d =? 0 then minutes ACCESS_TOKEN_EXPIRE_MINUTES else d
           | None => minutes ACCESS_TOKEN_EXPIRE_MINUTES
           end).

(** ** bcrypt

    [hashpw password salt] and [checkpw password hashed], on byte strings;
    [str.encode()] is the identity of the embedding. *)

Class Bcrypt : Type := {
  hashpw : string -> string -> string;
  checkpw : string -> string -> bool
}.

(** ** Request bodies ([schemas.py]) *)

Module SignupRequest.
Record t : Type := mk { full_name : string; email : string }.
End SignupRequest.

Module OTPVerifyRequest.
Record t : Type := mk { email : string; otp : string }.
End OTPVerifyRequest.

Module SigninRequest.
Record t : Type := mk { email : string }.
End SigninRequest.

(** What [send_email_otp(to_email, otp)] puts in the mail, together with the
    message of the JSON answer. *)
Record OtpSent : Type := mkOtpSent {
  sent_message : string;
  to_email : string;
  mailed_otp : string
}.

Record TokenResponse : Type := mkTokenResponse {
  message : string;
  access_token : Token;
  token_type : string
}.

(** ** Authentication routes ([routes.py]) *)

Definition MAX_OTP_RESEND : Z := 3.
Definition MAX_OTP_ATTEMPTS : Z := 5.
Definition OTP_VALIDITY_MINUTES : Z := 5.
Definition LOCK_DURATION_MINUTES : Z := 30.

(** [str(random.randint(100000, 999999))], [rnd] being the draw *)
Definition generate_otp (rnd : Z) : string := str rnd.

Section Auth.
Context {bc : Bcrypt}.

Definition signup_request (data : SignupRequest.t) (rnd : Z) (salt : string)
    (now : Z) (db : DB) : Outcome OtpSent * DB :=
  match first (user_by_email (SignupRequest.email data)) (Users db) with
  | Some _ => (Raise (HTTPException 400 "User already exists"), db)
  | None =>
      let otp := generate_otp rnd in
      let hashed_otp := hashpw otp salt in
      let db := set_OTPs db (delete_all (otp_by_email (SignupRequest.email data)) (OTPs db)) in
      let db := set_OTPs db (OTPs db ++
        [OTP_Tbl.mk (SignupRequest.email data) hashed_otp
                    (Some (SignupRequest.full_name data)) now 0 1 None]) in
      (Ok (mkOtpSent "OTP sent to your email" (SignupRequest.email data) otp), db)
  end.

(** The failed-attempt branch shared by the two verify routes:
    [record.attempts += 1], then the lock once the limit is reached. *)
Definition count_failed_attempt (now : Z) (record : OTP_Tbl.t) : OTP_Tbl.t :=
  let record := OTP_Tbl.set_attempts record (OTP_Tbl.attempts record + 1) in
  if OTP_Tbl.attempts record >=? MAX_OTP_ATTEMPTS
  then OTP_Tbl.set_locked_until record (Some (now + minutes LOCK_DURATION_MINUTES))
  else record.

Definition signup_verify (data : OTPVerifyRequest.t) (now : Z) (db : DB)
    : Outcome TokenResponse * DB :=
  let this := otp_by_email (OTPVerifyRequest.email data) in
  match first this (OTPs db) with
  | None => (Raise (HTTPException 400 "No OTP request found for this email"), db)
  | Some otp_record =>
      if match OTP_Tbl.locked_until otp_record with
         | Some l => l >? now
         | None => false
         end
      then (Raise (HTTPException 403 "Too many incorrect attempts. Try again later."), db)
      else if now >? OTP_Tbl.created_at otp_record + minutes OTP_VALIDITY_MINUTES
      then (Raise (HTTPException 400 "OTP has expired. Please request again."),
            set_OTPs db (delete_first this (OTPs db)))
      else if negb (checkpw (OTPVerifyRequest.otp data) (OTP_Tbl.otp_code otp_record))
      then (Raise (HTTPException 400 "Incorrect OTP."),
            set_OTPs db (update_first this (count_failed_attempt now) (OTPs db)))
      else
        match first (user_by_email (OTPVerifyRequest.email data)) (Users db) with
        | Some existing_user =>
            let db := set_OTPs db (delete_first this (OTPs db)) in
            (Ok (mkTokenResponse "User already registered"
                   (create_access_token (str (User.id existing_user)) None now)
                   "bearer"), db)
        | None =>
            match add_user (OTPVerifyRequest.email data)
                           (OTP_Tbl.full_name otp_record) false db with
            | None => (Raise IntegrityError, db)
            | Some (user, db) =>
                let db := set_OTPs db (delete_first this (OTPs db)) in
                (Ok (mkTokenResponse "Signup successful"
                       (create_access_token (str (User.id user)) None now)
                       "bearer"), db)
            end
        end
  end.

Definition signin_request (data : SigninRequest.t) (rnd : Z) (salt : string)
    (now : Z) (db : DB) : Outcome OtpSent * DB :=
  let email := SigninRequest.email data in
  let provisioned : Outcome unit * DB :=
    match first (user_by_email email) (Users db) with
    | Some _ => (Ok tt, db)
    | None =>
        match first (collaborator_by_email email) (Collaborators db) with
        | None => (Raise (HTTPException 404 "User not found or not invited."), db)
        | Some _ =>
            match add_user email (Some "Invited User") true db with
            | None => (Raise IntegrityError, db)
            | Some (user, db) =>
                (Ok tt,
                 set_Collaborators db
                   (update_first (collaborator_by_email email)
                      (fun c => Collaborator.set_user_id c (Some (User.id user)))
                      (Collaborators db)))
            end
        end
    end in
  match provisioned with
  | (Raise e, db) => (Raise e, db)
  | (Ok _, db) =>
      let otp := generate_otp rnd in
      let hashed_otp := hashpw otp salt in
      match first (otp_by_email email) (OTPs db) with
      | Some otp_record =>
          if OTP_Tbl.resend_count otp_record >=? MAX_OTP_RESEND
          then (Raise (HTTPException 429 "OTP resend limit reached."), db)
          else
            let refresh r :=
              OTP_Tbl.set_created_at
                (OTP_Tbl.set_resend_count
                   (OTP_Tbl.set_otp_code r hashed_otp)
                   (OTP_Tbl.resend_count r + 1))
                now in
            (Ok (mkOtpSent "OTP sent to your email" email otp),
             set_OTPs db (update_first (otp_by_email email) refresh (OTPs db)))
      | None =>
          (Ok (mkOtpSent "OTP sent to your email" email otp),
           set_OTPs db (OTPs db ++ [OTP_Tbl.mk email hashed_otp None now 0 1 None]))
      end
  end.

Definition signin_verify (data : OTPVerifyRequest.t) (now : Z) (db : DB)
    : Outcome TokenResponse * DB :=
  let this := otp_by_email (OTPVerifyRequest.email data) in
  match first this (OTPs db) with
  | None => (Raise (HTTPException 400 "No OTP request found for this email"), db)
  | Some record =>
      if match OTP_Tbl.locked_until record with
         | Some l => l >? now
         | None => false
         end
      then (Raise (HTTPException 403 "Too many incorrect attempts. Try again later."), db)
      else if now >? OTP_Tbl.created_at record + minutes OTP_VALIDITY_MINUTES
      then (Raise (HTTPException 400 "OTP has expired"),
            set_OTPs db (delete_first this (OTPs db)))
      else if negb (checkpw (OTPVerifyRequest.otp data) (OTP_Tbl.otp_code record))
      then (Raise (HTTPException 400 "Incorrect OTP"),
            set_OTPs db (update_first this (count_failed_attempt now) (OTPs db)))
      else
        match first (user_by_email (OTPVerifyRequest.email data)) (Users db) with
        | None => (Raise (HTTPException 404 "User does not exist"), db)
        | Some user =>
            let db := set_OTPs db (delete_first this (OTPs db)) in
            (Ok (mkTokenResponse "Login successful"
                   (create_access_token (str (User.id user)) None now)
                   "bearer"), db)
        end
  end.

End Auth.

(** ** Authentication services ([services.py])

    These functions treat [otp_code] as a [str], but the column is a
    LargeBinary ([models/otp.py]): it takes [bytes] and gives [bytes].

    - Writing: [record.otp_code = generate_otp()] puts a [str] in the row;
      the [db.commit()] that follows cannot bind it ([bytes(str)] is a
      TypeError, raised as a StatementError), the flush is rolled back, and
      [send_email_otp] after the commit is not reached. No route catches the
      error.
    - Reading: [record.otp_code != otp] compares the [bytes] of the column
      with the [str] of the request, which Python never finds equal. *)

(** [stored != submitted], [stored] being [bytes] and [submitted] a [str] *)
Definition bytes_ne_str (stored submitted : string) : bool := true.

Definition request_signup_otp (email full_name : string) (rnd : Z) (now : Z)
    (db : DB) : Outcome OtpSent * DB :=
  match first (user_by_email email) (Users db) with
  | Some _ => (Raise (HTTPException 400 "User already exists"), db)
  | None =>
      match first (otp_by_email email) (OTPs db) with
      | Some record =>
          if OTP_Tbl.resend_count record >=? 3
          then (Raise (HTTPException 429 "Maximum OTP resend limit reached"), db)
          else
            (* otp_code, created_at, full_name and resend_count are assigned;
               the commit refuses the str in otp_code *)
            (Raise StatementError, db)
      | None =>
          (* OTP_Tbl(email, otp_code=generate_otp(), ...) is added; the
             commit refuses the str in otp_code *)
          (Raise StatementError, db)
      end
  end.

Definition verify_signup_otp (email otp : string) (now : Z) (db : DB)
    : Outcome User.t * DB :=
  let this := otp_by_email email in
  match first this (OTPs db) with
  | None => (Raise (HTTPException 400 "No OTP found. Please request a new one."), db)
  | Some record =>
      if match OTP_Tbl.locked_until record with
         | Some l => now <? l
         | None => false
         end
      then (Raise (HTTPException 403 "Too many failed attempts. Try again later."), db)
      else if now >? OTP_Tbl.created_at record + minutes 5
      then (Raise (HTTPException 400 "OTP expired. Please request a new one."),
            set_OTPs db (delete_first this (OTPs db)))
      else if bytes_ne_str (OTP_Tbl.otp_code record) otp
      then
        let fail r :=
          let r := OTP_Tbl.set_attempts r (OTP_Tbl.attempts r + 1) in
          if OTP_Tbl.attempts r >=? 5
          then OTP_Tbl.set_locked_until r (Some (now + minutes 30))
          else r in
        (Raise (HTTPException 400 "Invalid OTP"),
         set_OTPs db (update_first this fail (OTPs db)))
      else
        match add_user email (OTP_Tbl.full_name record) false db with
        | None => (Raise IntegrityError, db)
        | Some (user, db) =>
            (Ok user, set_OTPs db (delete_first this (OTPs db)))
        end
  end.

Definition request_signin_otp (email : string) (rnd : Z) (now : Z) (db : DB)
    : Outcome OtpSent * DB :=
  let provisioned : Outcome unit * DB :=
    match first (user_by_email email) (Users db) with
    | Some _ => (Ok tt, db)
    | None =>
        match first (collaborator_by_email email) (Collaborators db) with
        | None => (Raise (HTTPException 404 "User not found or not invited"), db)
        | Some _ =>
            match add_user email (Some "Invited User") true db with
            | None => (Raise IntegrityError, db)
            | Some (user, db) =>
                (Ok tt,
                 set_Collaborators db
                   (update_first (collaborator_by_email email)
                      (fun c => Collaborator.set_user_id c (Some (User.id user)))
                      (Collaborators db)))
            end
        end
    end in
  match provisioned with
  | (Raise e, db) => (Raise e, db)
  | (Ok _, db) =>
      match first (otp_by_email email) (OTPs db) with
      | Some otp_record =>
          if OTP_Tbl.resend_count otp_record >=? 3
          then (Raise (HTTPException 429 "Maximum OTP resend limit reached"), db)
          else
            (* otp_code, created_at and resend_count are assigned; the
               commit refuses the str in otp_code *)
            (Raise StatementError, db)
      | None =>
          (* OTP_Tbl(email, otp_code=otp, ...) is added; the commit refuses
             the str in otp_code *)
          (Raise StatementError, db)
      end
  end.

(** ** Feedback services ([services.py]) *)

Module FeedbackUpdate.
(** [data.dict(exclude_unset=True)]: [Some v] for a field the request sets. *)
Record t : Type := mk {
  name : option string;
  url : option string;
  message : option string;
  status : option FeedbackStatus;
  voice_recording_url : option string;
  screenshot_url : option string;
  recording_url : option string
}.
End FeedbackUpdate.

Definition feedback_by_id (i : Z) (f : Feedback.t) : bool := Feedback.id f =? i.
Definition workspace_by_id (i : Z) (w : Workspace.t) : bool := Workspace.id w =? i.
Definition developer_by_email (e : string) (d : Developer.t) : bool :=
  String.eqb (Developer.email d) e.

Definition collaborator_in (workspace_id user_id : Z) (c : Collaborator.t) : bool :=
  (Collaborator.workspace_id c =? workspace_id)
  && match Collaborator.user_id c with
     | Some u => u =? user_id
     | None => false
     end.

Definition link_of (feedback_id developer_id : Z) (l : FeedbackDeveloper.t) : bool :=
  (FeedbackDeveloper.feedback_id l =? feedback_id)
  && (FeedbackDeveloper.developer_id l =? developer_id).

Definition get_all_feedbacks_by_workspace (db : DB) (workspace_id : Z)
    (user_id : option Z) : Outcome (list Feedback.t) :=
  match first (workspace_by_id workspace_id) (Workspaces db) with
  | None => Raise (HTTPException 404 "Workspace not found")
  | Some workspace =>
      let feedbacks :=
        all (fun f => Feedback.workspace_id f =? workspace_id) (Feedbacks db) in
      match user_id with
      | None => Ok feedbacks
      | Some user_id =>
          if negb (Workspace.owner_id workspace =? user_id)
          then
            match first (collaborator_in workspace_id user_id) (Collaborators db) with
            | None => Raise (HTTPException 403 "No access to workspace")
            | Some _ =>
                let accessible_feedback_ids :=
                  map FeedbackAccess.feedback_id
                    (all (fun a => match FeedbackAccess.user_id a with
                                   | Some u => u =? user_id
                                   | None => false
                                   end)
                         (FeedbackAccesses db)) in
                Ok (filter (fun f => existsb (Z.eqb (Feedback.id f))
                                             accessible_feedback_ids)
                           feedbacks)
            end
          else Ok feedbacks
      end
  end.

(** [setattr(feedback, attr, value)] for every field the request sets *)
Definition setattrs (data : FeedbackUpdate.t) (f : Feedback.t) : Feedback.t :=
  let pick {A} (new : option A) (old : option A) : option A :=
    match new with Some v => Some v | None => old end in
  Feedback.mk (Feedback.id f)
    (match FeedbackUpdate.name data with Some v => v | None => Feedback.name f end)
    (Feedback.created_by f)
    (match FeedbackUpdate.status data with Some v => v | None => Feedback.status f end)
    (pick (FeedbackUpdate.url data) (Feedback.url f))
    (pick (FeedbackUpdate.screenshot_url data) (Feedback.screenshot_url f))
    (pick (FeedbackUpdate.recording_url data) (Feedback.recording_url f))
    (pick (FeedbackUpdate.voice_recording_url data) (Feedback.voice_recording_url f))
    (pick (FeedbackUpdate.message data) (Feedback.message f))
    (Feedback.created_at f)
    (Feedback.developer_email f)
    (Feedback.workspace_id f).

Definition update_feedback (feedback_id : Z) (data : FeedbackUpdate.t) (db : DB)
    (user_id : Z) : Outcome Feedback.t * DB :=
  match first (feedback_by_id feedback_id) (Feedbacks db) with
  | None => (Raise (HTTPException 404 "Feedback not found"), db)
  | Some feedback =>
      match first (workspace_by_id (Feedback.workspace_id feedback)) (Workspaces db) with
      | None => (Raise (HTTPException 404 "Workspace not found"), db)
      | Some workspace =>
          if negb (Workspace.owner_id workspace =? user_id)
             && match first (collaborator_in (Feedback.workspace_id feedback) user_id)
                            (Collaborators db) with
                | None => true
                | Some _ => false
                end
          then (Raise (HTTPException 403 "No access to feedback"), db)
          else if FeedbackStatus_eqb (Feedback.status feedback) sent
          then (Raise (HTTPException 400 "Cannot update sent feedback"), db)
          else
            (Ok (setattrs data feedback),
             set_Feedbacks db
               (update_first (feedback_by_id feedback_id) (setattrs data) (Feedbacks db)))
      end
  end.

(** [db.delete(feedback)] takes the links and the access grants of the
    feedback with it (cascade="all, delete-orphan"). *)
Definition delete_feedback (db : DB) (feedback_id : Z) (user_id : Z)
    : Outcome string * DB :=
  match first (feedback_by_id feedback_id) (Feedbacks db) with
  | None => (Raise (HTTPException 404 "Feedback not found"), db)
  | Some feedback =>
      if negb (Feedback.created_by feedback =? user_id)
      then (Raise (HTTPException 403 "Only creator can delete feedback"), db)
      else if FeedbackStatus_eqb (Feedback.status feedback) sent
      then (Raise (HTTPException 400 "Cannot delete sent feedback"), db)
      else
        let db := set_Feedbacks db (delete_first (feedback_by_id feedback_id) (Feedbacks db)) in
        let db := set_FeedbackDevelopers db
          (delete_all (fun l => FeedbackDeveloper.feedback_id l =? Feedback.id feedback)
                      (FeedbackDevelopers db)) in
        let db := set_FeedbackAccesses db
          (delete_all (fun a => FeedbackAccess.feedback_id a =? Feedback.id feedback)
                      (FeedbackAccesses db)) in
        (Ok "Feedback deleted successfully", db)
  end.

(** ** Developer services ([services.py], [utils.py]) *)

(** The link built by [send_feedback_email]: the feedback it opens, the
    token issued for the developer's email and the developer parameter. *)
Record FeedbackUrl : Type := mkFeedbackUrl {
  view_feedback : Z;
  token : Token;
  developer : string
}.

Definition send_feedback_email (to_email : string) (feedback_id : Z) (now : Z)
    : FeedbackUrl :=
  mkFeedbackUrl feedback_id
    (create_access_token to_email (Some (minutes ACCESS_TOKEN_EXPIRE_MINUTES)) now)
    to_email.

(** The loop of [share_feedback_with_developers], step by step.
    [feedback] is the row object the function holds. *)

(** Create developer if not exists; if it exists but
    [invited_by_workspace_id] is empty, update it. *)
Definition find_or_create_developer (email : string) (feedback : Feedback.t)
    (db : DB) : Developer.t * DB :=
  match first (developer_by_email email) (Developers db) with
  | None =>
      let developer :=
        Developer.mk (fresh_id (map Developer.id (Developers db))) email None
                     (Some (Feedback.workspace_id feedback)) in
      (developer, set_Developers db (Developers db ++ [developer]))
  | Some developer =>
      match Developer.invited_by_workspace_id developer with
      | None =>
          let backfill d :=
            Developer.set_invited_by_workspace_id d
              (Some (Feedback.workspace_id feedback)) in
          (backfill developer,
           set_Developers db
             (update_first (developer_by_email email) backfill (Developers db)))
      | Some _ => (developer, db)
      end
  end.

(** Save developer email in feedback (only the first one or if not already
    set). *)
Definition save_developer_email (idx : nat) (email : string)
    (feedback : Feedback.t) (db : DB) : Feedback.t * DB :=
  if Nat.eqb idx 0
     || match Feedback.developer_email feedback with
        | None => true
        | Some _ => false
        end
  then
    (Feedback.set_developer_email feedback (Some email),
     set_Feedbacks db
       (update_first (feedback_by_id (Feedback.id feedback))
          (fun f => Feedback.set_developer_email f (Some email))
          (Feedbacks db)))
  else (feedback, db).

(** Create feedback-developer link if not exists. *)
Definition find_or_create_link (feedback : Feedback.t) (developer : Developer.t)
    (db : DB) : DB :=
  match first (link_of (Feedback.id feedback) (Developer.id developer))
              (FeedbackDevelopers db) with
  | None =>
      set_FeedbackDevelopers db
        (FeedbackDevelopers db ++
         [FeedbackDeveloper.mk (Feedback.id feedback) (Developer.id developer)
                               pending None])
  | Some _ => db
  end.

(** [for idx, email in enumerate(emails)], from index [idx] on *)
Fixpoint share_loop (idx : nat) (emails : list string) (feedback : Feedback.t)
    (now : Z) (db : DB) : list (string * FeedbackUrl) * DB :=
  match emails with
  | [] => ([], db)
  | email :: rest =>
      let '(developer, db) := find_or_create_developer email feedback db in
      let '(feedback, db) := save_developer_email idx email feedback db in
      let db := find_or_create_link feedback developer db in
      let feedback_url := send_feedback_email email (Feedback.id feedback) now in
      let '(developer_urls, db) := share_loop (S idx) rest feedback now db in
      ((email, feedback_url) :: developer_urls, db)
  end.

Definition share_feedback_with_developers (db : DB) (feedback_id : Z)
    (emails : list string) (user_id : Z) (now : Z)
    : Outcome (list (string * FeedbackUrl)) * DB :=
  match first (feedback_by_id feedback_id) (Feedbacks db) with
  | None => (Raise (HTTPException 404 "Feedback not found"), db)
  | Some feedback =>
      if negb (Feedback.created_by feedback =? user_id)
      then (Raise (HTTPException 403 "Only creator can share feedback"), db)
      else
        let db := set_Feedbacks db
          (update_first (feedback_by_id feedback_id)
             (fun f => Feedback.set_status f sent) (Feedbacks db)) in
        let '(developer_urls, db) :=
          share_loop 0 emails (Feedback.set_status feedback sent) now db in
        (Ok developer_urls, db)
  end.

(** [FeedbackDeveloperStatus(action)]: the member with that value, [None]
    where Python raises ValueError. *)
Definition FeedbackDeveloperStatus_of_value (action : string)
    : option FeedbackDeveloperStatus :=
  if String.eqb action "pending" then Some pending
  else if String.eqb action "acknowledged" then Some acknowledged
  else if String.eqb action "unclear" then Some unclear
  else None.

(** [datetime.now(pytz.timezone('Asia/Kolkata'))]: the wall clock at
    UTC+05:30. *)
Definition now_in_Asia_Kolkata (now : Z) : Z := now + minutes 330.

Definition handle_developer_action (db : DB) (feedback_id : Z) (email : string)
    (action : string) (now : Z) : Outcome string * DB :=
  match first (developer_by_email email) (Developers db) with
  | None => (Raise (HTTPException 404 "Developer not found"), db)
  | Some developer =>
      let this := link_of feedback_id (Developer.id developer) in
      match first this (FeedbackDevelopers db) with
      | None => (Raise (HTTPException 404 "Developer not linked to this feedback"), db)
      | Some link =>
          match FeedbackDeveloperStatus_of_value action with
          | None => (Raise (HTTPException 400 "Invalid action"), db)
          | Some s =>
              (Ok ("Feedback marked as '" ++ action ++ "' by " ++ email)%string,
               set_FeedbackDevelopers db
                 (update_first this
                    (fun l => FeedbackDeveloper.set_action l s
                                (Some (now_in_Asia_Kolkata now)))
                    (FeedbackDevelopers db)))
          end
      end
  end.

(** ** Feedback routes ([routes.py]); [current_user] is what
    [get_current_user] extracted from the bearer token. *)

Definition update_feedback_route (feedback_id : Z) (data : FeedbackUpdate.t)
    (db : DB) (current_user : Z) : Outcome Feedback.t * DB :=
  match first (feedback_by_id feedback_id) (Feedbacks db) with
  | None => (Raise (HTTPException 404 "Feedback not found"), db)
  | Some feedback =>
      if negb (Feedback.created_by feedback =? current_user)
      then (Raise (HTTPException 403 "Not authorized to update this feedback"), db)
      else update_feedback feedback_id data db current_user
  end.

Definition delete_feedback_route (feedback_id : Z) (db : DB) (current_user : Z)
    : Outcome string * DB :=
  match first (feedback_by_id feedback_id) (Feedbacks db) with
  | None => (Raise (HTTPException 404 "Feedback not found"), db)
  | Some feedback =>
      if negb (Feedback.created_by feedback =? current_user)
      then (Raise (HTTPException 403 "Not authorized to delete this feedback"), db)
      else delete_feedback db feedback_id current_user
  end.

Definition share_feedback (feedback_id : Z) (developer_emails : list string)
    (db : DB) (current_user : Z) (now : Z)
    : Outcome (list (string * FeedbackUrl)) * DB :=
  match first (feedback_by_id feedback_id) (Feedbacks db) with
  | None => (Raise (HTTPException 404 "Feedback not found"), db)
  | Some feedback =>
      if negb (Feedback.created_by feedback =? current_user)
      then (Raise (HTTPException 403 "Not authorized to share this feedback"), db)
      else share_feedback_with_developers db feedback_id developer_emails current_user now
  end.

Definition developer_action (feedback_id : Z) (action developer_email : string)
    (db : DB) (now : Z) : Outcome string * DB :=
  handle_developer_action db feedback_id developer_email action now.

Definition list_all_feedbacks_by_workspace (workspace_id : Z) (db : DB)
    : Outcome (list Feedback.t) :=
  match first (workspace_by_id workspace_id) (Workspaces db) with
  | None => Raise (HTTPException 404 "Workspace not found")
  | Some _ => get_all_feedbacks_by_workspace db workspace_id None
  end.

(** ** Vocabulary of the properties *)

(** A stand-in for bcrypt on which the examples below are run: the digest is
    the salt followed by the password, and [checkpw] re-hashes with the salt
    it reads off the digest, as [bcrypt.checkpw] does. *)
Definition demo_bcrypt : Bcrypt := {|
  hashpw pw salt := (salt ++ pw)%string;
  checkpw pw hashed :=
    String.eqb
      (substring 0 (String.length hashed - String.length pw) hashed ++ pw)%string
      hashed
|}.

Section Vocabulary.
Context {bc : Bcrypt}.

(** the submitted code matches the stored hash *)
Definition code_matches (data : OTPVerifyRequest.t) (r : OTP_Tbl.t) : Prop :=
  checkpw (OTPVerifyRequest.otp data) (OTP_Tbl.otp_code r) = true.

(** [now <= created_at + 5 minutes] *)
Definition within_validity (now : Z) (r : OTP_Tbl.t) : Prop :=
  now <= OTP_Tbl.created_at r + minutes 5.

(** [locked_until] unset or not in the future *)
Definition not_locked (now : Z) (r : OTP_Tbl.t) : Prop :=
  match OTP_Tbl.locked_until r with
  | None => True
  | Some l => l <= now
  end.

Definition known_user (email : string) (db : DB) : Prop :=
  first (user_by_email email) (Users db) <> None.

(** every OTP record can be turned into a user by the sign-up route: it
    carries a name, or its address has a user already *)
Definition records_can_sign_up (db : DB) : Prop :=
  forall r, In r (OTPs db) ->
    OTP_Tbl.full_name r <> None \/ known_user (OTP_Tbl.email r) db.

End Vocabulary.

Definition no_otp_request : Exception :=
  HTTPException 400 "No OTP request found for this email".
Definition too_many_attempts : Exception :=
  HTTPException 403 "Too many incorrect attempts. Try again later.".


(** Sequences of requests against the same address. *)

Inductive Flow : Type := Signup | Signin.

Record Attempt : Type := mkAttempt {
  flow : Flow;
  code : string;
  at_time : Z
}.

Definition incorrect_otp (f : Flow) : Exception :=
  match f with
  | Signup => HTTPException 400 "Incorrect OTP."
  | Signin => HTTPException 400 "Incorrect OTP"
  end.

Section Sequences.
Context {bc : Bcrypt}.

Definition verify (email : string) (a : Attempt) (db : DB)
    : Outcome TokenResponse * DB :=
  match flow a with
  | Signup => signup_verify (OTPVerifyRequest.mk email (code a)) (at_time a) db
  | Signin => signin_verify (OTPVerifyRequest.mk email (code a)) (at_time a) db
  end.

Fixpoint verify_each (email : string) (l : list Attempt) (db : DB)
    : list (Outcome TokenResponse) * DB :=
  match l with
  | [] => ([], db)
  | a :: l =>
      let '(o, db) := verify email a db in
      let '(os, db) := verify_each email l db in
      (o :: os, db)
  end.

(** One sign-up request per draw [(rnd, salt, now)]. *)
Fixpoint signup_request_each (data : SignupRequest.t)
    (draws : list (Z * string * Z)) (db : DB) : list (Outcome OtpSent) * DB :=
  match draws with
  | [] => ([], db)
  | (rnd, salt, now) :: draws =>
      let '(o, db) := signup_request data rnd salt now db in
      let '(os, db) := signup_request_each data draws db in
      (o :: os, db)
  end.

(** an attempt that reaches the comparison and fails it: the record is
    not locked, still valid, and the code does not match *)
Definition wrong_attempt (r : OTP_Tbl.t) (a : Attempt) : Prop :=
  not_locked (at_time a) r /\ within_validity (at_time a) r /\
  checkpw (code a) (OTP_Tbl.otp_code r) = false.

End Sequences.

(** Concrete requests and databases for the examples. *)

Definition ann : string := "ann@example.com".

Definition ann_signs_up : SignupRequest.t := SignupRequest.mk "Ann" ann.

(** the database after Ann's first sign-up request at second 1000 *)
Definition ann_pending : DB :=
  snd (@signup_request demo_bcrypt ann_signs_up 481516 "salt" 1000 empty_db).

Definition ann_record : OTP_Tbl.t :=
  OTP_Tbl.mk ann "salt481516" (Some "Ann") 1000 0 1 None.

(** the same record after five failed attempts, the last at second 1050 *)
Definition ann_locked : DB :=
  set_OTPs empty_db
    [OTP_Tbl.mk ann "salt481516" (Some "Ann") 1000 5 1 (Some (1050 + minutes 30))].

Definition ann_guesses : list Attempt :=
  [mkAttempt Signup "000000" 1010; mkAttempt Signup "111111" 1020;
   mkAttempt Signin "222222" 1030; mkAttempt Signup "333333" 1040;
   mkAttempt Signup "444444" 1050].

(** Ann is registered (user 1) and has no pending code. *)
Definition ann_registered : DB := set_Users empty_db [User.mk 1 ann "Ann" false].

(** Ann has been invited to workspace 7 but has no account yet. *)
Definition ann_invited : DB :=
  set_Collaborators empty_db [Collaborator.mk None ann "comment" 7 (Some 1)].

(** Ann asks for a sign-up code, then for a sign-in code, which provisions
    her account from the invitation while the sign-up record is pending. *)
Definition ann_raced_routes : DB :=
  snd (@signin_request demo_bcrypt (SigninRequest.mk ann) 222222 "salt" 1010
         (snd (@signup_request demo_bcrypt ann_signs_up 111111 "salt" 1000 ann_invited))).

(** Ann, registered, asks for a sign-in code at second 1000, submits three
    wrong codes and asks for a new code at second 1040. *)
Definition ann_resent : DB :=
  snd (@signin_request demo_bcrypt (SigninRequest.mk ann) 162342 "pepper" 1040
         (snd (@verify_each demo_bcrypt ann
                 [mkAttempt Signin "000000" 1010; mkAttempt Signin "111111" 1020;
                  mkAttempt Signin "222222" 1030]
                 (snd (@signin_request demo_bcrypt (SigninRequest.mk ann) 481516 "salt"
                         1000 ann_registered))))).

(** ... and then five more wrong codes, all while the new code is valid. *)
Definition ann_more_guesses : list Attempt :=
  [mkAttempt Signin "333333" 1050; mkAttempt Signin "444444" 1060;
   mkAttempt Signin "555555" 1070; mkAttempt Signin "666666" 1080;
   mkAttempt Signin "777777" 1090].

Definition ann_relocked : DB :=
  snd (@verify_each demo_bcrypt ann ann_more_guesses ann_resent).

(** Feedback vocabulary. *)

(** the number of FeedbackDeveloper rows for a (feedback, developer) pair *)
Definition count_links (feedback_id developer_id : Z) (db : DB) : nat :=
  List.length (all (link_of feedback_id developer_id) (FeedbackDevelopers db)).

(** the caller passes the workspace check of [update_feedback]: the
    workspace of the feedback exists and the caller owns it or is one of its
    collaborators *)
Definition passes_workspace_check (f : Feedback.t) (caller : Z) (db : DB) : bool :=
  match first (workspace_by_id (Feedback.workspace_id f)) (Workspaces db) with
  | None => false
  | Some w =>
      (Workspace.owner_id w =? caller)
      || match first (collaborator_in (Feedback.workspace_id f) caller)
                     (Collaborators db) with
         | Some _ => true
         | None => false
         end
  end.

Definition dev : string := "dev@example.com".
Definition bob : string := "bob@example.com".

(** User 1 owns workspace 7 and has drafted feedback 11 in it; user 2 is a
    stranger to the workspace. *)
Definition drafted : DB :=
  mkDB [User.mk 1 ann "Ann" true; User.mk 2 "cat@example.com" "Cat" true]
       [] []
       [Workspace.mk 7 "Acme" "acme.feedback.com" 1]
       [Feedback.mk 11 "Login button" 1 draft None None None None None 900 None 7]
       [] [] [].

(** ... and has shared it at second 2000 with two developers, naming the
    first one twice. *)
Definition shared : DB :=
  snd (share_feedback_with_developers drafted 11 [dev; bob; dev] 1 2000).

(** The developer has acknowledged it at second 5000. *)
Definition acknowledged_by_dev : DB :=
  snd (handle_developer_action shared 11 dev "acknowledged" 5000).

(** a request that only renames the feedback *)
Definition rename : FeedbackUpdate.t :=
  FeedbackUpdate.mk (Some "Sign-in button") None None None None None None.

(** * The rest of the services and routes

    Python builtins that work on text by Unicode tables are taken as they
    are: [lower] is [str.lower], [strip] is [str.strip], and [int] is [int]
    on a string, [None] where Python raises ValueError. *)

From Stdlib Require DecimalPos DecimalZ.

Definition set_Workspaces (db : DB) (v : list Workspace.t) : DB :=
  mkDB (Users db) (OTPs db) (Collaborators db) v (Feedbacks db)
       (FeedbackAccesses db) (Developers db) (FeedbackDevelopers db).

Definition user_by_id (i : Z) (u : User.t) : bool := User.id u =? i.
Definition developer_by_id (i : Z) (d : Developer.t) : bool := Developer.id d =? i.
Definition workspace_by_name (n : string) (w : Workspace.t) : bool :=
  String.eqb (Workspace.name w) n.
Definition workspace_by_subdomain (s : string) (w : Workspace.t) : bool :=
  String.eqb (Workspace.subdomain w) s.

(** ** [verify_signin_otp] ([services.py]) *)

Definition verify_signin_otp (email otp : string) (now : Z) (db : DB)
    : Outcome User.t * DB :=
  let this := otp_by_email email in
  match first this (OTPs db) with
  | None => (Raise (HTTPException 400 "No OTP found. Please request a new one."), db)
  | Some record =>
      if match OTP_Tbl.locked_until record with
         | Some l => now <? l
         | None => false
         end
      then (Raise (HTTPException 403 "Too many failed attempts. Try again later."), db)
      else if now >? OTP_Tbl.created_at record + minutes 5
      then (Raise (HTTPException 400 "OTP expired. Please request a new one."),
            set_OTPs db (delete_first this (OTPs db)))
      else if bytes_ne_str (OTP_Tbl.otp_code record) otp
      then
        let fail r :=
          let r := OTP_Tbl.set_attempts r (OTP_Tbl.attempts r + 1) in
          if OTP_Tbl.attempts r >=? 5
          then OTP_Tbl.set_locked_until r (Some (now + minutes 30))
          else r in
        (Raise (HTTPException 400 "Incorrect OTP"),
         set_OTPs db (update_first this fail (OTPs db)))
      else
        match first (user_by_email email) (Users db) with
        | None => (Raise (HTTPException 404 "User does not exist"), db)
        | Some user => (Ok user, set_OTPs db (delete_first this (OTPs db)))
        end
  end.

(** the HTTP status of an outcome: 200 for a return, 500 for an exception
    that no handler catches *)
Definition status_code_of {A} (o : Outcome A) : Z :=
  match o with
  | Ok _ => 200
  | Raise (HTTPException c _) => c
  | Raise IntegrityError => 500
  | Raise StatementError => 500
  end.

(** ** Bearer tokens ([utils.py]) *)

(** [jwt.decode]: a token stands for its signed claims, so decoding fails
    only on the expiry check of python-jose, [exp < now]. *)
Definition jwt_decode (token : Token) (now : Z) : option Token :=
  if exp token <? now then None else Some token.

(** What a dependency hands to the route: a value, an HTTPException, or an
    exception that nothing catches (the ValueError of [int]). *)
Inductive Resolution (A : Type) : Type :=
| Resolved (a : A)
| Refused (e : Exception)
| Uncaught_ValueError.
Arguments Resolved {A} a.
Arguments Refused {A} e.
Arguments Uncaught_ValueError {A}.

(** ** Request bodies of the other routes ([schemas.py]) *)

Module WorkspaceCreate.
Record t : Type := mk {
  workspace_name : string;
  collaborators : option (list string)
}.
End WorkspaceCreate.

Inductive AccessLevel : Type := comment | edit.

(** the string a member of [AccessLevel] stands for *)
Definition AccessLevel_value (a : AccessLevel) : string :=
  match a with
  | comment => "comment"
  | edit => "edit"
  end.

Module FeedbackCollaborator.
Record t : Type := mk {
  email : string;
  access : AccessLevel;
  user_id : option Z
}.
End FeedbackCollaborator.

Module FeedbackCreate.
Record t : Type := mk {
  name : string;
  workspace_id : Z;
  url : option string;
  message : option string;
  collaborators : list FeedbackCollaborator.t;
  screenshot_url : option string;
  recording_url : option string
}.
End FeedbackCreate.

Section Tokens.
Variable int : string -> option Z.

Definition get_current_user (token : Token) (now : Z) (db : DB) : Resolution Z :=
  match jwt_decode token now with
  | None => Refused (HTTPException 401 "Token error")
  | Some payload =>
      match int (sub payload) with
      | None => Uncaught_ValueError
      | Some user_id =>
          match first (user_by_id user_id) (Users db) with
          | None => Refused (HTTPException 401 "User not found")
          | Some user => Resolved (User.id user)
          end
      end
  end.

Definition credentials_exception : Exception :=
  HTTPException 401 "Invalid token or developer not found".

Definition get_current_developer (token : Token) (now : Z) (db : DB)
    : Resolution Developer.t :=
  match jwt_decode token now with
  | None => Refused credentials_exception
  | Some payload =>
      if String.eqb (sub payload) ""
      then Refused credentials_exception
      else
        let developer :=
          match int (sub payload) with
          | Some dev_id => first (developer_by_id dev_id) (Developers db)
          | None => first (developer_by_email (sub payload)) (Developers db)
          end in
        match developer with
        | None => Refused credentials_exception
        | Some developer => Resolved developer
        end
  end.

Definition resolve_logged_in_user_as_developer (token : Token) (now : Z) (db : DB)
    : Outcome Developer.t :=
  match jwt_decode token now with
  | None => Raise (HTTPException 401 "Invalid token or sub")
  | Some payload =>
      match int (sub payload) with
      | None => Raise (HTTPException 401 "Invalid token or sub")
      | Some user_id =>
          match first (user_by_id user_id) (Users db) with
          | None => Raise (HTTPException 404 "User not found")
          | Some user =>
              match first (developer_by_email (User.email user)) (Developers db) with
              | None =>
                  Raise (HTTPException 403
                           "You are not a developer with shared feedback")
              | Some developer => Ok developer
              end
          end
      end
  end.

End Tokens.

(** ** Workspaces ([services.py], [routes.py])

    A workspace row carries the columns the code reads: [id], [name],
    [subdomain], [owner_id]. [create_workspace] also stores [type],
    [purpose], [role], [icon_url] and [invite_emails], which nothing reads. *)

Definition space : Ascii.ascii := Ascii.ascii_of_nat 32.

(** [s.replace(" ", "")] *)
Fixpoint remove_spaces (s : string) : string :=
  match s with
  | EmptyString => EmptyString
  | String c s => if Ascii.eqb c space then remove_spaces s
                  else String c (remove_spaces s)
  end.

Section Naming.
Variable lower : string -> string.

(** The loop of [generate_subdomain], for at most [fuel] tests of the
    condition; [None] when the loop is still running after them. *)
Fixpoint next_free_subdomain (fuel : nat) (base subdomain : string) (counter : Z)
    (db : DB) : option string :=
  match fuel with
  | O => None
  | S fuel =>
      match first (workspace_by_subdomain subdomain) (Workspaces db) with
      | None => Some subdomain
      | Some _ =>
          next_free_subdomain fuel base
            (base ++ str counter ++ ".feedback.com")%string (counter + 1) db
      end
  end.

Definition generate_subdomain_within (fuel : nat) (name : string) (db : DB)
    : option string :=
  let base := remove_spaces (lower name) in
  next_free_subdomain fuel base (base ++ ".feedback.com")%string 1 db.

(** One test more than there are workspaces always suffices: the loop has
    ended by then. *)
Definition generate_subdomain (name : string) (db : DB) : string :=
  match generate_subdomain_within (S (List.length (Workspaces db))) name db with
  | Some subdomain => subdomain
  | None => EmptyString
  end.

End Naming.

Definition FRIENDLY_SUFFIXES : list string :=
  ["hub"; "space"; "team"; "studio"; "hq"; "zone"; "lab"; "base"; "deck"; "works"].

Definition mem (x : string) (l : list string) : bool := existsb (String.eqb x) l.

Definition name_taken (name : string) (db : DB) : bool :=
  match first (workspace_by_name name) (Workspaces db) with
  | Some _ => true
  | None => false
  end.

(** [for suffix in FRIENDLY_SUFFIXES], from the given suffix on *)
Fixpoint suffix_suggestions (suffixes : list string) (name : string) (db : DB)
    (count : nat) (suggestions used_suffixes : list string)
    : list string * list string :=
  match suffixes with
  | [] => (suggestions, used_suffixes)
  | suffix :: suffixes =>
      let alt_name := (name ++ "_" ++ suffix)%string in
      let '(suggestions, used_suffixes) :=
        if negb (mem alt_name used_suffixes) && negb (name_taken alt_name db)
        then (suggestions ++ [alt_name], suffix :: used_suffixes)
        else (suggestions, used_suffixes) in
      if Nat.leb count (List.length suggestions)
      then (suggestions, used_suffixes)
      else suffix_suggestions suffixes name db count suggestions used_suffixes
  end.

(** [while len(suggestions) < count], one element of [draws] for each
    [random.choices(string.ascii_lowercase, k=4)]; [None] when the loop is
    still running after the last draw. *)
Fixpoint random_suggestions (draws : list string) (name : string) (db : DB)
    (count : nat) (suggestions : list string) : option (list string) :=
  if Nat.leb count (List.length suggestions) then Some suggestions
  else
    match draws with
    | [] => None
    | rand_suffix :: draws =>
        let alt_name := (name ++ "_" ++ rand_suffix)%string in
        if negb (mem alt_name suggestions) && negb (name_taken alt_name db)
        then random_suggestions draws name db count (suggestions ++ [alt_name])
        else random_suggestions draws name db count suggestions
    end.

Definition suggest_alternate_names (name : string) (db : DB) (count : nat)
    (draws : list string) : option (list string) :=
  let '(suggestions, _) := suffix_suggestions FRIENDLY_SUFFIXES name db count [] [] in
  random_suggestions draws name db count suggestions.

(** what [send_invite_email] is called with *)
Record InviteMail : Type := mkInviteMail {
  invite_to : string;
  invite_workspace : string;
  invite_from : string;
  invite_url : string
}.

(** A return of [onboard_user], an HTTPException, or the 409 of
    [create_workspace]. *)
Inductive OnboardOutcome : Type :=
| Onboarded (id : Z) (name subdomain : string)
| OnboardRefused (e : Exception)
| OnboardNameTaken (message : string) (suggestions : list string).

Definition set_onboarded (u : User.t) (v : bool) : User.t :=
  User.mk (User.id u) (User.email u) (User.full_name u) v.

(** A return of [create_workspace], or its 409 with the suggestions. *)
Inductive WorkspaceOutcome : Type :=
| Created (workspace : Workspace.t) (subdomain : string) (invites : list InviteMail)
| NameTaken (message : string) (suggestions : list string).

Section Onboarding.
Variable lower : string -> string.

Definition create_workspace (data : WorkspaceCreate.t) (user : User.t)
    (draws : list string) (db : DB) : option (WorkspaceOutcome * DB) :=
  let name := WorkspaceCreate.workspace_name data in
  match first (workspace_by_name name) (Workspaces db) with
  | Some _ =>
      match suggest_alternate_names name db 5 draws with
      | None => None
      | Some suggestions =>
          Some (NameTaken ("Workspace name '" ++ name ++ "' already exists.")%string
                          suggestions, db)
      end
  | None =>
      let subdomain := generate_subdomain lower name db in
      let workspace :=
        Workspace.mk (fresh_id (map Workspace.id (Workspaces db))) name subdomain
                     (User.id user) in
      let db := set_Workspaces db (Workspaces db ++ [workspace]) in
      let emails :=
        match WorkspaceCreate.collaborators data with
        | Some l => l
        | None => []
        end in
      let db := set_Collaborators db
        (Collaborators db ++
         map (fun email =>
                Collaborator.mk
                  (option_map User.id (first (user_by_email email) (Users db)))
                  email "comment" (Workspace.id workspace) (Some (User.id user)))
             emails) in
      Some (Created workspace subdomain
              (map (fun email => mkInviteMail email name (User.full_name user) subdomain)
                   emails),
            db)
  end.

Definition onboard_user (data : WorkspaceCreate.t) (draws : list string) (db : DB)
    (current_user_id : Z) : option (OnboardOutcome * DB) :=
  match first (user_by_id current_user_id) (Users db) with
  | None => Some (OnboardRefused (HTTPException 404 "User not found"), db)
  | Some user =>
      if User.onboarded user
      then Some (OnboardRefused (HTTPException 400 "User already onboarded"), db)
      else
        match create_workspace data user draws db with
        | None => None
        | Some (NameTaken message suggestions, db) =>
            Some (OnboardNameTaken message suggestions, db)
        | Some (Created workspace subdomain _, db) =>
            Some (Onboarded (Workspace.id workspace) (Workspace.name workspace)
                            subdomain,
                  set_Users db
                    (update_first (user_by_id current_user_id)
                       (fun u => set_onboarded u true) (Users db)))
        end
  end.

End Onboarding.

(** [dashboard], on the [request.state.subdomain] the middleware has set *)
Definition dashboard (subdomain : option string) (db : DB)
    : Outcome (Z * string * string) :=
  match subdomain with
  | None | Some EmptyString =>
      Raise (HTTPException 400 "Subdomain not found in request")
  | Some subdomain =>
      match first (workspace_by_subdomain (subdomain ++ ".feedback.com")%string)
                  (Workspaces db) with
      | None => Raise (HTTPException 404 "Workspace not found")
      | Some workspace =>
          Ok (Workspace.id workspace, Workspace.name workspace, subdomain)
      end
  end.

(** ** Feedback: drafts, creation ([services.py], [routes.py]) *)

Definition get_draft_feedbacks_by_workspace (db : DB) (workspace_id : Z)
    (user_id : option Z) : Outcome (list Feedback.t) :=
  match first (workspace_by_id workspace_id) (Workspaces db) with
  | None => Raise (HTTPException 404 "Workspace not found")
  | Some workspace =>
      let feedbacks :=
        all (fun f => (Feedback.workspace_id f =? workspace_id)
                      && FeedbackStatus_eqb (Feedback.status f) draft)
            (Feedbacks db) in
      match user_id with
      | None => Ok feedbacks
      | Some user_id =>
          if negb (Workspace.owner_id workspace =? user_id)
          then
            match first (collaborator_in workspace_id user_id) (Collaborators db) with
            | None => Raise (HTTPException 403 "No access to workspace")
            | Some _ =>
                Ok (filter (fun f => Feedback.created_by f =? user_id) feedbacks)
            end
          else Ok feedbacks
      end
  end.

Definition list_workspace_draft_feedbacks (workspace_id : Z) (db : DB)
    : Outcome (list Feedback.t) :=
  match first (workspace_by_id workspace_id) (Workspaces db) with
  | None => Raise (HTTPException 404 "Workspace not found")
  | Some _ => get_draft_feedbacks_by_workspace db workspace_id None
  end.

Definition collaborator_invited (workspace_id : Z) (email : string)
    (c : Collaborator.t) : bool :=
  String.eqb (Collaborator.user_email c) email
  && (Collaborator.workspace_id c =? workspace_id).

Section Creation.
Variable strip : string -> string.

(** The queries inside the loop run on a session with autoflush off
    ([core/db/session.py]): they see the database as committed after the
    feedback was added, not the rows the loop has added so far. *)
Definition create_feedback (db : DB) (data : FeedbackCreate.t)
    (user_id workspace_id : Z) (now : Z) : Outcome Feedback.t * DB :=
  match first (workspace_by_id workspace_id) (Workspaces db) with
  | None => (Raise (HTTPException 404 "Workspace not found"), db)
  | Some workspace =>
      if negb (Workspace.owner_id workspace =? user_id)
         && match first (collaborator_in workspace_id user_id) (Collaborators db) with
            | None => true
            | Some _ => false
            end
      then (Raise (HTTPException 403 "No access to workspace"), db)
      else
        let feedback :=
          Feedback.mk (fresh_id (map Feedback.id (Feedbacks db)))
            (strip (FeedbackCreate.name data)) user_id draft
            (FeedbackCreate.url data) (FeedbackCreate.screenshot_url data)
            (FeedbackCreate.recording_url data) None
            (FeedbackCreate.message data) now None workspace_id in
        let db := set_Feedbacks db (Feedbacks db ++ [feedback]) in
        let new_collaborators :=
          flat_map
            (fun collab =>
               match first (collaborator_invited workspace_id
                              (FeedbackCollaborator.email collab))
                           (Collaborators db) with
               | Some _ => []
               | None =>
                   [Collaborator.mk None (FeedbackCollaborator.email collab)
                      (AccessLevel_value (FeedbackCollaborator.access collab))
                      workspace_id (Some user_id)]
               end)
            (FeedbackCreate.collaborators data) in
        let accesses :=
          map (fun collab =>
                 FeedbackAccess.mk (Feedback.id feedback)
                   (FeedbackCollaborator.user_id collab)
                   (FeedbackCollaborator.email collab)
                   (AccessLevel_value (FeedbackCollaborator.access collab)))
              (FeedbackCreate.collaborators data) in
        (Ok feedback,
         set_FeedbackAccesses
           (set_Collaborators db (Collaborators db ++ new_collaborators))
           (FeedbackAccesses db ++ accesses))
  end.

Definition create_feedback_route (data : FeedbackCreate.t) (db : DB)
    (current_user : Z) (now : Z) : Outcome Feedback.t * DB :=
  match first (workspace_by_id (FeedbackCreate.workspace_id data)) (Workspaces db) with
  | None => (Raise (HTTPException 404 "Workspace not found"), db)
  | Some workspace =>
      if negb (Workspace.owner_id workspace =? current_user)
         && match first (collaborator_in (FeedbackCreate.workspace_id data) current_user)
                        (Collaborators db) with
            | None => true
            | Some _ => false
            end
      then (Raise (HTTPException 403 "No access to workspace"), db)
      else create_feedback db data current_user (FeedbackCreate.workspace_id data) now
  end.

End Creation.

(** ** Collaborators and members ([services.py], [routes.py]) *)

Definition invite_collaborator (db : DB) (workspace_id : Z) (email : string)
    (access_type : string) (invited_by_id : Z)
    : Outcome (string * option InviteMail) * DB :=
  match first (workspace_by_id workspace_id) (Workspaces db) with
  | None => (Raise (HTTPException 404 "Workspace not found"), db)
  | Some workspace =>
      if negb (Workspace.owner_id workspace =? invited_by_id)
      then (Raise (HTTPException 403 "Only workspace owner can invite collaborators"), db)
      else
        match first (fun c => (Collaborator.workspace_id c =? workspace_id)
                              && String.eqb (Collaborator.user_email c) email)
                    (Collaborators db) with
        | Some _ => (Raise (HTTPException 400 "Collaborator already invited"), db)
        | None =>
            let collaborator :=
              Collaborator.mk None email access_type workspace_id (Some invited_by_id) in
            let db := set_Collaborators db (Collaborators db ++ [collaborator]) in
            let mail :=
              match first (user_by_id invited_by_id) (Users db) with
              | None => None
              | Some inviter =>
                  Some (mkInviteMail email (Workspace.name workspace)
                          (User.full_name inviter)
                          ("https://yourapp.com/workspace/" ++ str workspace_id
                           ++ "/dashboard")%string)
              end in
            (Ok (("Collaborator " ++ email ++ " invited with " ++ access_type
                  ++ " access and email sent.")%string, mail), db)
        end
  end.

Definition invite_collaborator_api (workspace_id : Z) (email access_type : string)
    (db : DB) (current_user_id : Z) : Outcome (string * option InviteMail) * DB :=
  invite_collaborator db workspace_id email access_type current_user_id.

Record Member : Type := mkMember {
  member_name : string;
  member_access_type : string;
  member_status : string
}.

(** ["active" if user and user.onboarded else "inactive"] *)
Definition member_status_of (user : option User.t) : string :=
  match user with
  | Some u => if User.onboarded u then "active" else "inactive"
  | None => "inactive"
  end.

(** [get_workspace_members] raises plain exceptions; [inl] is the text of
    the exception. *)
Definition get_workspace_members (db : DB) (workspace_id user_id : Z)
    : string + list Member :=
  match first (workspace_by_id workspace_id) (Workspaces db) with
  | None => inl "Workspace not found"
  | Some workspace =>
      if negb (Workspace.owner_id workspace =? user_id)
      then inl "Only the workspace owner can view members"
      else
        let owner :=
          match first (user_by_id (Workspace.owner_id workspace)) (Users db) with
          | Some owner => [mkMember (User.full_name owner) "admin" "active"]
          | None => []
          end in
        let collaborators :=
          map (fun collab =>
                 let user := first (user_by_email (Collaborator.user_email collab))
                                   (Users db) in
                 mkMember
                   (match user with
                    | Some u => User.full_name u
                    | None => Collaborator.user_email collab
                    end)
                   "collaborator" (member_status_of user))
              (all (fun c => Collaborator.workspace_id c =? workspace_id)
                   (Collaborators db)) in
        let developers :=
          map (fun dev =>
                 let user := first (user_by_email (Developer.email dev)) (Users db) in
                 mkMember
                   (match user with
                    | Some u => User.full_name u
                    | None => Developer.email dev
                    end)
                   "developer" (member_status_of user))
              (all (fun d => match Developer.invited_by_workspace_id d with
                             | Some w => w =? workspace_id
                             | None => false
                             end)
                   (Developers db)) in
        inr (owner ++ collaborators ++ developers)
  end.

Definition list_workspace_members (workspace_id : Z) (db : DB) (current_user_id : Z)
    : Outcome (list Member) :=
  match get_workspace_members db workspace_id current_user_id with
  | inl e => Raise (HTTPException 400 e)
  | inr members => Ok members
  end.

(** ** Developers and their feedback ([services.py], [routes.py]) *)

Definition assigned_by_email (email : string) (f : Feedback.t) : bool :=
  match Feedback.developer_email f with
  | Some e => String.eqb e email
  | None => false
  end.

(** the two assignments of the loop body: [workspace_id] when
    [developer.workspace_id] is truthy, then [developer_email = None] *)
Definition take_over (developer : Developer.t) (f : Feedback.t) : Feedback.t :=
  Feedback.mk (Feedback.id f) (Feedback.name f) (Feedback.created_by f)
    (Feedback.status f) (Feedback.url f) (Feedback.screenshot_url f)
    (Feedback.recording_url f) (Feedback.voice_recording_url f)
    (Feedback.message f) (Feedback.created_at f) None
    (match Developer.workspace_id developer with
     | Some w => if w =? 0 then Feedback.workspace_id f else w
     | None => Feedback.workspace_id f
     end).

(** One commit at the end, autoflush off: the link queries see the links
    as they were before the call. *)
Definition assign_pending_feedbacks_to_developer (db : DB) (developer : Developer.t)
    : DB :=
  let feedbacks := all (assigned_by_email (Developer.email developer)) (Feedbacks db) in
  let links :=
    flat_map
      (fun feedback =>
         match first (link_of (Feedback.id feedback) (Developer.id developer))
                     (FeedbackDevelopers db) with
         | Some _ => []
         | None =>
             [FeedbackDeveloper.mk (Feedback.id feedback) (Developer.id developer)
                                   pending None]
         end)
      feedbacks in
  set_FeedbackDevelopers
    (set_Feedbacks db
       (map (fun f => if assigned_by_email (Developer.email developer) f
                      then take_over developer f else f)
            (Feedbacks db)))
    (FeedbackDevelopers db ++ links).

(** [link.feedback] is the feedback row the link points to, if any. *)
Definition get_assigned_feedbacks (db : DB) (current_developer : Developer.t)
    : list Feedback.t :=
  flat_map
    (fun link =>
       match first (feedback_by_id (FeedbackDeveloper.feedback_id link))
                   (Feedbacks db) with
       | Some feedback => [feedback]
       | None => []
       end)
    (all (fun l => FeedbackDeveloper.developer_id l =? Developer.id current_developer)
         (FeedbackDevelopers db)).

(** ** Vocabulary of the further properties *)

(** One sign-in request per draw [(rnd, salt, now)]. *)
Fixpoint signin_request_each {bc : Bcrypt} (data : SigninRequest.t)
    (draws : list (Z * string * Z)) (db : DB) : list (Outcome OtpSent) * DB :=
  match draws with
  | [] => ([], db)
  | (rnd, salt, now) :: draws =>
      let '(o, db) := signin_request data rnd salt now db in
      let '(os, db) := signin_request_each data draws db in
      (o :: os, db)
  end.

(** the record a refreshing sign-in request leaves for [r] *)
Definition refreshed {bc : Bcrypt} (rnd : Z) (salt : string) (now : Z)
    (r : OTP_Tbl.t) : OTP_Tbl.t :=
  OTP_Tbl.mk (OTP_Tbl.email r) (hashpw (generate_otp rnd) salt) (OTP_Tbl.full_name r)
             now (OTP_Tbl.attempts r) (OTP_Tbl.resend_count r + 1)
             (OTP_Tbl.locked_until r).

(** [int] on the decimal strings that [str] produces *)
Definition decimal_int (s : string) : option Z :=
  option_map Z.of_int (NilZero.int_of_string s).

(** [str.lower] on ASCII letters *)
Fixpoint ascii_lower (s : string) : string :=
  match s with
  | EmptyString => EmptyString
  | String c s =>
      let n := Ascii.nat_of_ascii c in
      String (if (Nat.leb 65 n && Nat.leb n 90)%bool
              then Ascii.ascii_of_nat (n + 32) else c)
             (ascii_lower s)
  end.

(** the subdomains [generate_subdomain] tries, in order: the base alone,
    then the base with 1, 2, ... *)
Definition subdomain_candidate (base : string) (k : Z) : string :=
  if k =? 0 then (base ++ ".feedback.com")%string
  else (base ++ str k ++ ".feedback.com")%string.

Definition subdomain_taken (subdomain : string) (db : DB) : bool :=
  match first (workspace_by_subdomain subdomain) (Workspaces db) with
  | Some _ => true
  | None => false
  end.

(** what [suggest_alternate_names] promises of a list: alternatives of the
    form name_suffix, all different, none of them a workspace name *)
Definition good_suggestions (name : string) (db : DB) (l : list string) : Prop :=
  NoDup l /\
  forall s, In s l ->
    name_taken s db = false /\ exists suffix, s = (name ++ "_" ++ suffix)%string.

(** Ann is registered and her pending code is locked until second 2850. *)
Definition ann_locked_out : DB :=
  set_OTPs ann_registered
    [OTP_Tbl.mk ann "salt481516" None 1000 5 1 (Some (1050 + minutes 30))].

(** User 1 reports a crash in workspace 7 at second 3000 and names Bob
    twice as a collaborator of the feedback. *)
Definition report : FeedbackCreate.t :=
  FeedbackCreate.mk "Crash" 7 None (Some "It crashes")
    [FeedbackCollaborator.mk bob edit None; FeedbackCollaborator.mk bob comment None]
    None None.

Definition report_row : Feedback.t :=
  Feedback.mk 12 "Crash" 1 draft None None None None (Some "It crashes") 3000 None 7.

Definition reported : DB :=
  snd (create_feedback (fun name => name) drafted report 1 7 3000).

(** a request that only sets the status to sent *)
Definition freeze : FeedbackUpdate.t :=
  FeedbackUpdate.mk None None None (Some sent) None None None.

Definition frozen_row : Feedback.t :=
  Feedback.mk 11 "Login button" 1 sent None None None None None 900 None 7.

Definition frozen : DB := snd (update_feedback 11 freeze drafted 1).

(** [drafted] without its feedback *)
Definition emptied : DB := snd (delete_feedback drafted 11 1).

(** User 1 has invited Bob to workspace 7. *)
Definition bob_invited : DB := snd (invite_collaborator_api 7 bob "edit" drafted 1).

(** User 1 shares feedback 11 with her own address and with a developer. *)
Definition shared_with_self : DB :=
  snd (share_feedback_with_developers drafted 11 [ann; dev] 1 2000).
(** * Properties *)

(** ** Tables *)

Section TableFacts.
Context {A : Type}.
Implicit Types (p : A -> bool) (f : A -> A) (rows : list A).

Lemma first_update_first p f rows :
  (forall r, p r = true -> p (f r) = true) ->
  first p (update_first p f rows) = option_map f (first p rows).
Proof.
  intros Hp. unfold first. induction rows as [|r rs IH]; simpl; [reflexivity|].
  destruct (p r) eqn:E; simpl.
  - now rewrite (Hp _ E).
  - now rewrite E.
Qed.

Lemma update_first_fixed p f rows :
  (forall r, first p rows = Some r -> f r = r) ->
  update_first p f rows = rows.
Proof.
  unfold first. induction rows as [|r rs IH]; simpl; intros H; [reflexivity|].
  destruct (p r) eqn:E.
  - now rewrite H.
  - now rewrite IH.
Qed.

Lemma first_app_l p rows more r :
  first p rows = Some r -> first p (rows ++ more) = Some r.
Proof.
  unfold first. induction rows as [|x xs IH]; simpl; [discriminate|].
  destruct (p x); auto.
Qed.

Lemma first_app_r p rows more :
  first p rows = None -> first p (rows ++ more) = first p more.
Proof.
  unfold first. induction rows as [|x xs IH]; simpl; [reflexivity|].
  destruct (p x); [discriminate|auto].
Qed.

Lemma first_delete_all p rows : first p (delete_all p rows) = None.
Proof.
  unfold first, delete_all. induction rows as [|x xs IH]; simpl; [reflexivity|].
  destruct (p x) eqn:E; simpl; [assumption|now rewrite E].
Qed.

Lemma first_holds p rows r : first p rows = Some r -> p r = true.
Proof. unfold first. intros H. now apply find_some in H. Qed.

End TableFacts.

(** ** OTP verification *)

Section Verification.
Context {bc : Bcrypt}.

Lemma gtb_false_le a b : (a >? b) = false <-> a <= b.
Proof. rewrite Z.gtb_ltb, Z.ltb_ge. reflexivity. Qed.

Lemma gtb_true_gt a b : (a >? b) = true <-> b < a.
Proof. rewrite Z.gtb_ltb, Z.ltb_lt. reflexivity. Qed.

Lemma not_locked_iff now r :
  not_locked now r <-> OTP_Tbl.is_locked r now = false.
Proof.
  unfold not_locked, OTP_Tbl.is_locked.
  destruct (OTP_Tbl.locked_until r); [|tauto].
  now rewrite gtb_false_le.
Qed.

(** C1, as amended. With no record both verify routes answer 400 "No OTP
    request found" and change nothing. With a record, the sign-in route
    succeeds exactly when the code matches, the record is within its five
    minutes, it is not locked and a user with the email exists; the sign-up
    route succeeds exactly when the first three hold (for a record that
    can become a user: a user exists already or the record has a name).
    A record that is not locked and past its five minutes makes both routes
    answer "expired" and is deleted. *)
Theorem verify_succeeds_iff (data : OTPVerifyRequest.t) (now : Z) (db : DB) :
  let email := OTPVerifyRequest.email data in
  match first (otp_by_email email) (OTPs db) with
  | None =>
      signup_verify data now db = (Raise no_otp_request, db) /\
      signin_verify data now db = (Raise no_otp_request, db)
  | Some r =>
      (is_ok (fst (signin_verify data now db)) = true <->
       code_matches data r /\ within_validity now r /\ not_locked now r /\
       known_user email db) /\
      (known_user email db \/ OTP_Tbl.full_name r <> None ->
       (is_ok (fst (signup_verify data now db)) = true <->
        code_matches data r /\ within_validity now r /\ not_locked now r)) /\
      (not_locked now r -> ~ within_validity now r ->
       let db' := set_OTPs db (delete_first (otp_by_email email) (OTPs db)) in
       signup_verify data now db =
         (Raise (HTTPException 400 "OTP has expired. Please request again."), db') /\
       signin_verify data now db =
         (Raise (HTTPException 400 "OTP has expired"), db'))
  end.
Proof.
  intros email. unfold signup_verify, signin_verify. fold email.
  destruct (first (otp_by_email email) (OTPs db)) as [r|] eqn:Hr;
    [|split; reflexivity].
  unfold code_matches, within_validity, known_user.
  rewrite not_locked_iff. unfold OTP_Tbl.is_locked, OTP_VALIDITY_MINUTES.
  destruct (match OTP_Tbl.locked_until r with Some l => l >? now | None => false end)
    eqn:Hl.
  { simpl. split; [|split]; [intuition discriminate | intros _; intuition discriminate
                            | intros; discriminate]. }
  destruct (now >? OTP_Tbl.created_at r + minutes 5) eqn:He.
  { apply gtb_true_gt in He. simpl. unfold minutes in *.
    split; [|split]; [ intuition (discriminate || lia)
                     | intros _; intuition (discriminate || lia)
                     | intros _ _; split; reflexivity]. }
  apply gtb_false_le in He.
  destruct (checkpw (OTPVerifyRequest.otp data) (OTP_Tbl.otp_code r)) eqn:Hc; simpl.
  2:{ split; [|split]; [ intuition discriminate
                       | intros _; intuition discriminate
                       | intros _ H; contradiction ]. }
  unfold add_user.
  destruct (first (user_by_email email) (Users db)) as [u|] eqn:Hu; simpl.
  { split; [|split]; [ intuition congruence
                     | intros _; intuition congruence
                     | intros _ H; contradiction ]. }
  split; [|split].
  - intuition congruence.
  - intros [H|H]; [congruence|].
    destruct (OTP_Tbl.full_name r); [simpl; intuition congruence | congruence].
  - intros _ H; contradiction.
Qed.

End Verification.

Example ann_pending_holds_one_record :
  OTPs ann_pending = [ann_record] /\ Users ann_pending = [].
Proof. split; reflexivity. Qed.

(** C1 as stated fails on the sign-in route: Ann's record is live, her code
    matches, it is within its five minutes and not locked, yet sign-in
    verification answers 404 because no user exists; and a locked record
    past its five minutes is answered "locked" and kept, not "expired". *)
Lemma verify_needs_more_than_the_code :
  first (otp_by_email ann) (OTPs ann_pending) = Some ann_record /\
  @code_matches demo_bcrypt (OTPVerifyRequest.mk ann "481516") ann_record /\
  within_validity 1060 ann_record /\
  not_locked 1060 ann_record /\
  @signin_verify demo_bcrypt (OTPVerifyRequest.mk ann "481516") 1060 ann_pending
    = (Raise (HTTPException 404 "User does not exist"), ann_pending) /\
  ~ within_validity 1400
      (OTP_Tbl.mk ann "salt481516" (Some "Ann") 1000 5 1 (Some (1050 + minutes 30))) /\
  @signup_verify demo_bcrypt (OTPVerifyRequest.mk ann "481516") 1400 ann_locked
    = (Raise too_many_attempts, ann_locked).
Proof.
  repeat split; try reflexivity.
  - unfold within_validity; simpl; lia.
  - unfold within_validity; simpl; lia.
Qed.

Lemma verify_succeeds_iff_witness :
  is_ok (fst (@signup_verify demo_bcrypt (OTPVerifyRequest.mk ann "481516") 1060
                ann_pending)) = true /\
  is_ok (fst (@signin_verify demo_bcrypt (OTPVerifyRequest.mk ann "481516") 1060
                ann_pending)) = false.
Proof.
  pose proof (@verify_succeeds_iff demo_bcrypt (OTPVerifyRequest.mk ann "481516")
                1060 ann_pending) as H.
  cbv zeta in H.
  change (first (otp_by_email (OTPVerifyRequest.email (OTPVerifyRequest.mk ann "481516")))
                (OTPs ann_pending)) with (Some ann_record) in H.
  cbv iota in H. destruct H as (_ & Hup & _).
  split; [|reflexivity].
  apply Hup.
  - right. discriminate.
  - repeat split. unfold within_validity. simpl. lia.
Defined.

(** ** Lock-out after five wrong codes *)

Section Lockout.
Context {bc : Bcrypt}.
Implicit Types (r : OTP_Tbl.t) (a : Attempt) (db : DB).

Lemma count_failed_attempt_email now r :
  OTP_Tbl.email (count_failed_attempt now r) = OTP_Tbl.email r.
Proof. unfold count_failed_attempt. now destruct (_ >=? _). Qed.

Lemma count_failed_attempt_below now r :
  OTP_Tbl.attempts r + 1 < MAX_OTP_ATTEMPTS ->
  count_failed_attempt now r = OTP_Tbl.set_attempts r (OTP_Tbl.attempts r + 1).
Proof.
  intros H. unfold count_failed_attempt. simpl.
  destruct (OTP_Tbl.attempts r + 1 >=? MAX_OTP_ATTEMPTS) eqn:E; [|reflexivity].
  rewrite Z.geb_le in E. lia.
Qed.

Lemma count_failed_attempt_reaches now r :
  MAX_OTP_ATTEMPTS <= OTP_Tbl.attempts r + 1 ->
  count_failed_attempt now r =
  OTP_Tbl.set_locked_until
    (OTP_Tbl.set_attempts r (OTP_Tbl.attempts r + 1))
    (Some (now + minutes LOCK_DURATION_MINUTES)).
Proof.
  intros H. unfold count_failed_attempt. simpl.
  destruct (OTP_Tbl.attempts r + 1 >=? MAX_OTP_ATTEMPTS) eqn:E; [reflexivity|].
  rewrite Z.geb_leb, Z.leb_gt in E. lia.
Qed.

(** A locked record answers 403 to any code, on both routes, and is left
    as it is. *)
Lemma verify_locked email a db r :
  first (otp_by_email email) (OTPs db) = Some r ->
  OTP_Tbl.is_locked r (at_time a) = true ->
  verify email a db = (Raise too_many_attempts, db).
Proof.
  intros Hr Hl. unfold OTP_Tbl.is_locked in Hl.
  unfold verify, signup_verify, signin_verify.
  cbn [OTPVerifyRequest.email OTPVerifyRequest.otp].
  destruct (flow a); rewrite Hr, Hl; reflexivity.
Qed.

(** A wrong code on a live record is counted. *)
Lemma verify_wrong email a db r :
  first (otp_by_email email) (OTPs db) = Some r ->
  wrong_attempt r a ->
  verify email a db =
    (Raise (incorrect_otp (flow a)),
     set_OTPs db (update_first (otp_by_email email)
                    (count_failed_attempt (at_time a)) (OTPs db))).
Proof.
  intros Hr (Hl & Hv & Hc).
  apply not_locked_iff in Hl. unfold OTP_Tbl.is_locked in Hl.
  unfold within_validity in Hv. apply gtb_false_le in Hv.
  unfold verify, signup_verify, signin_verify, OTP_VALIDITY_MINUTES.
  cbn [OTPVerifyRequest.email OTPVerifyRequest.otp].
  destruct (flow a); rewrite Hr, Hl, Hv, Hc; reflexivity.
Qed.

Lemma first_after_failed_attempt email now db r :
  first (otp_by_email email) (OTPs db) = Some r ->
  first (otp_by_email email)
        (update_first (otp_by_email email) (count_failed_attempt now) (OTPs db))
  = Some (count_failed_attempt now r).
Proof.
  intros Hr. rewrite first_update_first, Hr; [reflexivity|].
  intros x. unfold otp_by_email. now rewrite count_failed_attempt_email.
Qed.

Lemma wrong_attempt_set_attempts r n a :
  wrong_attempt (OTP_Tbl.set_attempts r n) a <-> wrong_attempt r a.
Proof. reflexivity. Qed.

(** Fewer than five wrong codes only move the counter. *)
Lemma wrong_codes_counted (email : string) (l : list Attempt) : forall db r,
  first (otp_by_email email) (OTPs db) = Some r ->
  OTP_Tbl.attempts r + Z.of_nat (List.length l) < MAX_OTP_ATTEMPTS ->
  Forall (wrong_attempt r) l ->
  exists db',
    verify_each email l db = (map (fun a => Raise (incorrect_otp (flow a))) l, db') /\
    first (otp_by_email email) (OTPs db') =
      Some (OTP_Tbl.set_attempts r (OTP_Tbl.attempts r + Z.of_nat (List.length l))).
Proof.
  induction l as [|a l IH]; intros db r Hr Hn Hw.
  - exists db. split; [reflexivity|]. rewrite Hr. f_equal.
    destruct r; unfold OTP_Tbl.set_attempts; simpl. f_equal. lia.
  - inversion Hw as [|? ? Ha Hl]; subst.
    simpl List.length in Hn. rewrite Nat2Z.inj_succ in Hn.
    pose proof (first_after_failed_attempt email (at_time a) db r Hr) as Hr1.
    rewrite count_failed_attempt_below in Hr1 by lia.
    destruct (IH (set_OTPs db (update_first (otp_by_email email)
                                 (count_failed_attempt (at_time a)) (OTPs db)))
                 _ Hr1) as (db' & Hrun & Hfirst).
    + simpl. lia.
    + eapply Forall_impl; [|exact Hl]. intros x Hx. exact Hx.
    + exists db'. simpl verify_each. rewrite (verify_wrong _ _ _ _ Hr Ha).
      simpl in Hrun. rewrite Hrun. split; [reflexivity|].
      rewrite Hfirst. f_equal. destruct r; unfold OTP_Tbl.set_attempts; simpl.
      f_equal. lia.
Qed.

Lemma locked_stays_locked (email : string) (later : list Attempt) : forall db r,
  first (otp_by_email email) (OTPs db) = Some r ->
  Forall (fun a => OTP_Tbl.is_locked r (at_time a) = true) later ->
  verify_each email later db = (map (fun _ => Raise too_many_attempts) later, db).
Proof.
  induction later as [|a l IH]; intros db r Hr Hl; [reflexivity|].
  inversion Hl; subst. simpl.
  rewrite (verify_locked _ _ _ _ Hr) by assumption.
  now rewrite (IH _ _ Hr).
Qed.

Lemma verify_each_app (email : string) (l1 l2 : list Attempt) : forall db,
  verify_each email (l1 ++ l2) db =
    (fst (verify_each email l1 db)
       ++ fst (verify_each email l2 (snd (verify_each email l1 db))),
     snd (verify_each email l2 (snd (verify_each email l1 db)))).
Proof.
  induction l1 as [|a l1 IH]; intros db.
  - simpl. now destruct (verify_each email l2 db).
  - simpl. destruct (verify email a db) as [o d]. rewrite IH.
    destruct (verify_each email l1 d) as [os d1]. simpl.
    now destruct (verify_each email l2 d1).
Qed.

(** C2. Wrong codes are counted on the record, and the counter is what
    locks it. On a record with counter [c], the wrong codes submitted while
    it is valid are each answered "Incorrect OTP"; the first [4 - c] of them
    (none when [c >= 4]) only move the counter, the next one brings it to 5
    or more and sets [locked_until] to its own time plus 30 minutes; from
    then on every verify attempt made before that instant is answered 403,
    whatever code it submits, and changes nothing. For [c = 0] the locking
    code is the fifth. *)
Theorem wrong_codes_lock_at_five email db r before a :
  first (otp_by_email email) (OTPs db) = Some r ->
  Z.of_nat (List.length before) = Z.max 0 (MAX_OTP_ATTEMPTS - 1 - OTP_Tbl.attempts r) ->
  Forall (wrong_attempt r) (before ++ [a]) ->
  exists db4 db5,
    verify_each email before db =
      (map (fun a => Raise (incorrect_otp (flow a))) before, db4) /\
    first (otp_by_email email) (OTPs db4) =
      Some (OTP_Tbl.set_attempts r
              (OTP_Tbl.attempts r + Z.of_nat (List.length before))) /\
    verify_each email (before ++ [a]) db =
      (map (fun a => Raise (incorrect_otp (flow a))) (before ++ [a]), db5) /\
    first (otp_by_email email) (OTPs db5) =
      Some (OTP_Tbl.set_locked_until
              (OTP_Tbl.set_attempts r
                 (OTP_Tbl.attempts r + Z.of_nat (List.length before) + 1))
              (Some (at_time a + minutes 30))) /\
    forall later,
      Forall (fun x => at_time x < at_time a + minutes 30) later ->
      verify_each email later db5 =
        (map (fun _ => Raise too_many_attempts) later, db5).
Proof.
  intros Hr Hlen Hw.
  assert (Hwb : Forall (wrong_attempt r) before).
  { rewrite Forall_forall in *. intros x Hx. apply Hw. apply in_or_app. now left. }
  assert (Hwa : wrong_attempt r a).
  { rewrite Forall_forall in Hw. apply Hw. apply in_or_app. right. now left. }
  assert (Hcounted : exists db4,
            verify_each email before db =
              (map (fun a => Raise (incorrect_otp (flow a))) before, db4) /\
            first (otp_by_email email) (OTPs db4) =
              Some (OTP_Tbl.set_attempts r
                      (OTP_Tbl.attempts r + Z.of_nat (List.length before)))).
  { destruct before as [|b before'].
    - exists db. split; [reflexivity|]. rewrite Hr. f_equal.
      destruct r; unfold OTP_Tbl.set_attempts; simpl. f_equal. lia.
    - apply (wrong_codes_counted email (b :: before') db r Hr); [|exact Hwb].
      unfold MAX_OTP_ATTEMPTS in *. simpl List.length in *. lia. }
  destruct Hcounted as (db4 & Hrun4 & Hr4).
  pose proof (first_after_failed_attempt email (at_time a) db4 _ Hr4) as Hr5.
  rewrite count_failed_attempt_reaches in Hr5
    by (simpl; unfold MAX_OTP_ATTEMPTS in *; lia).
  set (db5 := set_OTPs db4 (update_first (otp_by_email email)
                              (count_failed_attempt (at_time a)) (OTPs db4))).
  change (first (otp_by_email email) (OTPs db5) =
          Some (OTP_Tbl.set_locked_until
                  (OTP_Tbl.set_attempts r
                     (OTP_Tbl.attempts r + Z.of_nat (List.length before) + 1))
                  (Some (at_time a + minutes 30)))) in Hr5.
  exists db4, db5. split; [exact Hrun4|]. split; [exact Hr4|]. split; [|split].
  - rewrite verify_each_app, Hrun4. cbn [fst snd verify_each].
    rewrite (verify_wrong email a db4 _ Hr4) by exact Hwa.
    rewrite map_app. reflexivity.
  - exact Hr5.
  - intros later Hlater.
    apply (locked_stays_locked email later _ _ Hr5).
    eapply Forall_impl; [|exact Hlater].
    intros x Hx. unfold OTP_Tbl.is_locked. simpl.
    apply gtb_true_gt. exact Hx.
Qed.

End Lockout.

Lemma wrong_codes_lock_at_five_witness :
  exists db4 db5,
    @verify_each demo_bcrypt ann
      [mkAttempt Signup "000000" 1010; mkAttempt Signup "111111" 1020;
       mkAttempt Signin "222222" 1030; mkAttempt Signup "333333" 1040] ann_pending =
      (map (fun a => Raise (incorrect_otp (flow a)))
           [mkAttempt Signup "000000" 1010; mkAttempt Signup "111111" 1020;
            mkAttempt Signin "222222" 1030; mkAttempt Signup "333333" 1040], db4) /\
    first (otp_by_email ann) (OTPs db4) =
      Some (OTP_Tbl.set_attempts ann_record (0 + 4)) /\
    @verify_each demo_bcrypt ann ann_guesses ann_pending =
      (map (fun a => Raise (incorrect_otp (flow a))) ann_guesses, db5) /\
    first (otp_by_email ann) (OTPs db5) =
      Some (OTP_Tbl.set_locked_until (OTP_Tbl.set_attempts ann_record (0 + 4 + 1))
              (Some (1050 + minutes 30))) /\
    forall later,
      Forall (fun x => at_time x < 1050 + minutes 30) later ->
      @verify_each demo_bcrypt ann later db5 =
        (map (fun _ => Raise too_many_attempts) later, db5).
Proof.
  apply (@wrong_codes_lock_at_five demo_bcrypt ann ann_pending ann_record
           [mkAttempt Signup "000000" 1010; mkAttempt Signup "111111" 1020;
            mkAttempt Signin "222222" 1030; mkAttempt Signup "333333" 1040]
           (mkAttempt Signup "444444" 1050)).
  - reflexivity.
  - reflexivity.
  - repeat constructor; unfold within_validity; simpl; lia.
Defined.

(** C2 on a record whose counter is not zero: five wrong codes do not
    all count, and the lock does not run from the fifth. Ann's record has
    three failures when a sign-in resend refreshes it; of
    the five wrong codes that follow, the second locks the record until
    second 1060 + 1800, the last three are answered 403, and a verify at
    second 2870, within 30 minutes of the fifth wrong code, is no longer
    answered 403: the record has expired and is deleted. *)
Lemma resend_keeps_the_failure_counter :
  first (otp_by_email ann) (OTPs ann_resent)
    = Some (OTP_Tbl.mk ann "pepper162342" None 1040 3 2 None) /\
  Forall (fun a => within_validity (at_time a)
                     (OTP_Tbl.mk ann "pepper162342" None 1040 3 2 None) /\
                   @checkpw demo_bcrypt (code a) "pepper162342" = false)
         ann_more_guesses /\
  @verify_each demo_bcrypt ann ann_more_guesses ann_resent
    = ([Raise (incorrect_otp Signin); Raise (incorrect_otp Signin);
        Raise too_many_attempts; Raise too_many_attempts; Raise too_many_attempts],
       ann_relocked) /\
  first (otp_by_email ann) (OTPs ann_relocked)
    = Some (OTP_Tbl.mk ann "pepper162342" None 1040 5 2 (Some (1060 + minutes 30))) /\
  2870 < 1090 + minutes 30 /\
  @verify demo_bcrypt ann (mkAttempt Signin "162342" 2870) ann_relocked
    = (Raise (HTTPException 400 "OTP has expired"), set_OTPs ann_relocked []).
Proof.
  split; [reflexivity|]. split.
  - repeat constructor; unfold within_validity; simpl; lia.
  - split; [reflexivity|]. split; [reflexivity|]. split; [unfold minutes; lia|].
    reflexivity.
Qed.

(** ** OTP requests *)

Section Requests.
Context {bc : Bcrypt}.

Lemma signup_request_existing_user data rnd salt now db u :
  first (user_by_email (SignupRequest.email data)) (Users db) = Some u ->
  signup_request data rnd salt now db =
    (Raise (HTTPException 400 "User already exists"), db).
Proof. intros H. unfold signup_request. now rewrite H. Qed.

(** The sign-up route never looks at the resend counter: without a user
    for the address it always issues a code. *)
Lemma signup_request_always_served data rnd salt now db :
  first (user_by_email (SignupRequest.email data)) (Users db) = None ->
  exists db',
    signup_request data rnd salt now db =
      (Ok (mkOtpSent "OTP sent to your email" (SignupRequest.email data)
             (generate_otp rnd)), db').
Proof. intros H. unfold signup_request. rewrite H. eexists. reflexivity. Qed.

(** The sign-in route refuses once the record has been issued three
    times. *)
Lemma signin_request_rate_limited data rnd salt now db u r :
  first (user_by_email (SigninRequest.email data)) (Users db) = Some u ->
  first (otp_by_email (SigninRequest.email data)) (OTPs db) = Some r ->
  MAX_OTP_RESEND <= OTP_Tbl.resend_count r ->
  signin_request data rnd salt now db =
    (Raise (HTTPException 429 "OTP resend limit reached."), db).
Proof.
  intros Hu Hr Hn. unfold signin_request. rewrite Hu, Hr.
  destruct (OTP_Tbl.resend_count r >=? MAX_OTP_RESEND) eqn:E; [reflexivity|].
  rewrite Z.geb_leb, Z.leb_gt in E. lia.
Qed.

(** C9. A sign-up request that succeeds has removed every OTP record of the
    address and added one record with the hash of the new code, the time of
    the request, [attempts = 0], [resend_count = 1] and no [locked_until];
    no other table changes. Whatever the previous record held, the record
    now found for the address is not locked at any time and its resend
    counter is below the limit. *)
Theorem signup_request_starts_afresh data rnd salt now db sent db' :
  signup_request data rnd salt now db = (Ok sent, db') ->
  let email := SignupRequest.email data in
  let fresh :=
    OTP_Tbl.mk email (hashpw (generate_otp rnd) salt)
               (Some (SignupRequest.full_name data)) now 0 1 None in
  db' = set_OTPs db (delete_all (otp_by_email email) (OTPs db) ++ [fresh]) /\
  first (otp_by_email email) (OTPs db') = Some fresh /\
  (forall r, In r (OTPs db') -> OTP_Tbl.email r = email -> r = fresh) /\
  (forall t, OTP_Tbl.is_locked fresh t = false) /\
  OTP_Tbl.resend_count fresh < MAX_OTP_RESEND.
Proof.
  intros H email fresh. unfold signup_request in H. fold email in H.
  destruct (first (user_by_email email) (Users db)); [discriminate|].
  injection H as _ <-. simpl OTPs.
  split; [reflexivity|]. split; [|split; [|split]].
  - rewrite first_app_r by apply first_delete_all.
    unfold first; simpl. unfold otp_by_email; simpl. now rewrite String.eqb_refl.
  - intros r Hin He. apply in_app_or in Hin. destruct Hin as [Hin|[<-|[]]]; [|reflexivity].
    unfold delete_all in Hin. apply filter_In in Hin. destruct Hin as [_ Hn].
    unfold otp_by_email in Hn. rewrite He, String.eqb_refl in Hn. discriminate.
  - reflexivity.
  - reflexivity.
Qed.

(** What the two request routes store is the bcrypt hash of the code they
    mail. *)
Lemma signup_request_stores_hash data rnd salt now db sent db' :
  signup_request data rnd salt now db = (Ok sent, db') ->
  mailed_otp sent = generate_otp rnd /\
  option_map OTP_Tbl.otp_code
    (first (otp_by_email (SignupRequest.email data)) (OTPs db'))
  = Some (hashpw (generate_otp rnd) salt).
Proof.
  unfold signup_request.
  destruct (first _ (Users db)); [discriminate|].
  intros [= <- <-]. split; [reflexivity|]. simpl OTPs.
  rewrite first_app_r by apply first_delete_all.
  unfold first; simpl. unfold otp_by_email; simpl. now rewrite String.eqb_refl.
Qed.

Lemma signin_request_stores_hash data rnd salt now db sent db' :
  signin_request data rnd salt now db = (Ok sent, db') ->
  mailed_otp sent = generate_otp rnd /\
  option_map OTP_Tbl.otp_code
    (first (otp_by_email (SigninRequest.email data)) (OTPs db'))
  = Some (hashpw (generate_otp rnd) salt).
Proof.
  unfold signin_request.
  set (email := SigninRequest.email data).
  destruct (first (user_by_email email) (Users db)) as [u|];
    [|destruct (first (collaborator_by_email email) (Collaborators db));
      [destruct (add_user email (Some "Invited User") true db) as [[user db1]|]|]];
    try discriminate;
    match goal with
    | |- context [match first (otp_by_email _) (OTPs ?d) with _ => _ end] =>
        destruct (first (otp_by_email email) (OTPs d)) as [r|] eqn:Hr
    end;
    try (destruct (_ >=? _); [discriminate|]);
    intros H; injection H as <- <-; (split; [reflexivity|]);
    simpl OTPs in Hr |- *;
    [ rewrite first_update_first; [rewrite Hr; reflexivity | intros x Hx; exact Hx]
    | rewrite first_app_r by exact Hr;
      unfold first; simpl; unfold otp_by_email; simpl; now rewrite String.eqb_refl
    | rewrite first_update_first; [rewrite Hr; reflexivity | intros x Hx; exact Hx]
    | rewrite first_app_r by exact Hr;
      unfold first; simpl; unfold otp_by_email; simpl; now rewrite String.eqb_refl ].
Qed.

End Requests.

Lemma signup_request_starts_afresh_witness :
  @signup_request demo_bcrypt ann_signs_up 777777 "salt" 1100 ann_locked
    = (Ok (mkOtpSent "OTP sent to your email" ann "777777"),
       set_OTPs empty_db [OTP_Tbl.mk ann "salt777777" (Some "Ann") 1100 0 1 None]) /\
  first (otp_by_email ann)
        (OTPs (set_OTPs empty_db
                 [OTP_Tbl.mk ann "salt777777" (Some "Ann") 1100 0 1 None]))
    = Some (OTP_Tbl.mk ann "salt777777" (Some "Ann") 1100 0 1 None).
Proof.
  split; [reflexivity|].
  exact (proj1 (proj2 (@signup_request_starts_afresh demo_bcrypt ann_signs_up
                         777777 "salt" 1100 ann_locked _ _ eq_refl))).
Defined.

(** C3 on the sign-up route: four requests in a row for the same address
    are all served; the fourth replaces the record by one whose resend
    counter is 1 again. *)
Theorem fourth_signup_request_is_served (bc : Bcrypt) :
  signup_request_each ann_signs_up
    [(111111, "s1", 1000); (222222, "s2", 1010);
     (333333, "s3", 1020); (444444, "s4", 1030)] empty_db
  = ([Ok (mkOtpSent "OTP sent to your email" ann "111111");
      Ok (mkOtpSent "OTP sent to your email" ann "222222");
      Ok (mkOtpSent "OTP sent to your email" ann "333333");
      Ok (mkOtpSent "OTP sent to your email" ann "444444")],
     set_OTPs empty_db
       [OTP_Tbl.mk ann (hashpw "444444" "s4") (Some "Ann") 1030 0 1 None]).
Proof. reflexivity. Qed.

(** ** The records the routes leave behind *)

Section Records.
Context {bc : Bcrypt}.

Lemma In_update_first {A} (p : A -> bool) f rows x :
  In x (update_first p f rows) -> In x rows \/ exists y, In y rows /\ x = f y.
Proof.
  induction rows as [|r rs IH]; simpl; [tauto|].
  destruct (p r); simpl.
  - intros [<-|H]; [right; eauto | auto].
  - intros [<-|H]; [auto|]. destruct (IH H) as [|(y & ? & ?)]; [auto|right; eauto].
Qed.

Lemma In_delete_first {A} (p : A -> bool) rows x :
  In x (delete_first p rows) -> In x rows.
Proof.
  induction rows as [|r rs IH]; simpl; [tauto|].
  destruct (p r); simpl; [auto | intros [<-|H]; auto].
Qed.

Lemma known_user_add db (u : User.t) (e : string) :
  known_user e db -> known_user e (set_Users db (Users db ++ [u])).
Proof.
  unfold known_user. simpl.
  destruct (first (user_by_email e) (Users db)) as [x|] eqn:H; [|congruence].
  intros _. now rewrite (first_app_l _ _ _ _ H).
Qed.

Lemma add_user_known email name onboarded db u db' :
  add_user email name onboarded db = Some (u, db') ->
  OTPs db' = OTPs db /\ known_user email db' /\
  forall e, known_user e db -> known_user e db'.
Proof.
  unfold add_user. destruct name as [n|]; [|discriminate].
  destruct (first (user_by_email email) (Users db)) eqn:Hu; [discriminate|].
  intros [= <- <-]. split; [reflexivity|]. split.
  - unfold known_user. simpl. rewrite first_app_r by exact Hu.
    unfold first; simpl. unfold user_by_email; simpl.
    rewrite String.eqb_refl. discriminate.
  - intros e. apply known_user_add.
Qed.

Lemma count_failed_attempt_name now r :
  OTP_Tbl.full_name (count_failed_attempt now r) = OTP_Tbl.full_name r.
Proof. unfold count_failed_attempt. now destruct (_ >=? _). Qed.

(** The four authentication routes keep [records_can_sign_up]: a record
    without a name is only ever written by the sign-in request, for an
    address that has a user, and users are never removed. *)
Lemma signup_request_keeps_records data rnd salt now db :
  records_can_sign_up db ->
  records_can_sign_up (snd (signup_request data rnd salt now db)).
Proof.
  intros H. unfold signup_request.
  destruct (first _ (Users db)); [exact H|].
  intros r Hin. simpl in Hin. apply in_app_or in Hin.
  destruct Hin as [Hin|[<-|[]]].
  - apply filter_In in Hin. exact (H r (proj1 Hin)).
  - left. discriminate.
Qed.

Lemma verify_keeps_records email a db :
  records_can_sign_up db -> records_can_sign_up (snd (verify email a db)).
Proof.
  intros H.
  assert (Hdel : records_can_sign_up
                   (set_OTPs db (delete_first (otp_by_email email) (OTPs db)))).
  { intros r Hin. apply In_delete_first in Hin. exact (H r Hin). }
  assert (Hupd : records_can_sign_up
                   (set_OTPs db (update_first (otp_by_email email)
                                   (count_failed_attempt (at_time a)) (OTPs db)))).
  { intros r Hin. apply In_update_first in Hin.
    destruct Hin as [Hin|(y & Hin & ->)]; [exact (H r Hin)|].
    rewrite count_failed_attempt_name, count_failed_attempt_email. exact (H y Hin). }
  unfold verify, signup_verify, signin_verify.
  cbn [OTPVerifyRequest.email OTPVerifyRequest.otp].
  destruct (flow a);
    (destruct (first (otp_by_email email) (OTPs db)) as [r0|]; [|exact H]);
    (destruct (match OTP_Tbl.locked_until r0 with Some _ => _ | None => _ end);
       [exact H|]);
    (destruct (_ >? _); [exact Hdel|]);
    (destruct (negb _); [exact Hupd|]);
    (destruct (first (user_by_email email) (Users db)) as [u|] eqn:Hu;
       try exact Hdel; try exact H).
  destruct (add_user email (OTP_Tbl.full_name r0) false db) as [[user db1]|] eqn:Hadd;
    [|exact H].
  destruct (add_user_known _ _ _ _ _ _ Hadd) as (Hotp & _ & Hmono).
  intros r Hin. simpl in Hin. apply In_delete_first in Hin. rewrite Hotp in Hin.
  destruct (H r Hin) as [Hn|Hk]; [now left | right; now apply Hmono].
Qed.

Lemma signin_request_keeps_records data rnd salt now db :
  records_can_sign_up db ->
  records_can_sign_up (snd (signin_request data rnd salt now db)).
Proof.
  intros H. unfold signin_request.
  set (email := SigninRequest.email data).
  assert (Hissue : forall db1,
            records_can_sign_up db1 -> known_user email db1 ->
            records_can_sign_up
              (snd (match first (otp_by_email email) (OTPs db1) with
                    | Some otp_record =>
                        if OTP_Tbl.resend_count otp_record >=? MAX_OTP_RESEND
                        then (Raise (HTTPException 429 "OTP resend limit reached."), db1)
                        else
                          (Ok (mkOtpSent "OTP sent to your email" email (generate_otp rnd)),
                           set_OTPs db1
                             (update_first (otp_by_email email)
                                (fun r =>
                                   OTP_Tbl.set_created_at
                                     (OTP_Tbl.set_resend_count
                                        (OTP_Tbl.set_otp_code r
                                           (hashpw (generate_otp rnd) salt))
                                        (OTP_Tbl.resend_count r + 1)) now)
                                (OTPs db1)))
                    | None =>
                        (Ok (mkOtpSent "OTP sent to your email" email (generate_otp rnd)),
                         set_OTPs db1
                           (OTPs db1 ++
                            [OTP_Tbl.mk email (hashpw (generate_otp rnd) salt)
                                        None now 0 1 None]))
                    end))).
  { intros db1 H1 Hk.
    destruct (first (otp_by_email email) (OTPs db1)) as [r0|].
    - destruct (_ >=? _); [exact H1|].
      intros r Hin. simpl in Hin. apply In_update_first in Hin.
      destruct Hin as [Hin|(y & Hin & ->)]; [exact (H1 r Hin) | exact (H1 y Hin)].
    - intros r Hin. simpl in Hin. apply in_app_or in Hin.
      destruct Hin as [Hin|[<-|[]]]; [exact (H1 r Hin) | right; exact Hk]. }
  destruct (first (user_by_email email) (Users db)) as [u|] eqn:Hu.
  { apply Hissue; [exact H|]. unfold known_user. now rewrite Hu. }
  destruct (first (collaborator_by_email email) (Collaborators db)); [|exact H].
  destruct (add_user email (Some "Invited User") true db) as [[user db1]|] eqn:Hadd;
    [|exact H].
  destruct (add_user_known _ _ _ _ _ _ Hadd) as (Hotp & Hk & Hmono).
  apply Hissue.
  - intros r Hin. simpl in Hin. rewrite Hotp in Hin.
    destruct (H r Hin) as [Hn|Hk']; [now left | right; now apply Hmono].
  - exact Hk.
Qed.

Lemma empty_db_records : records_can_sign_up empty_db.
Proof. intros r []. Qed.

(** Under [records_can_sign_up] the record found for an address satisfies
    the side condition of the sign-up equivalence. *)
Lemma found_record_can_sign_up email db r :
  records_can_sign_up db ->
  first (otp_by_email email) (OTPs db) = Some r ->
  known_user email db \/ OTP_Tbl.full_name r <> None.
Proof.
  intros H Hr. pose proof (first_holds _ _ _ Hr) as He.
  unfold otp_by_email in He. apply String.eqb_eq in He. subst email.
  unfold first in Hr. apply find_some in Hr.
  destruct (H r (proj1 Hr)); auto.
Qed.

(** A wrong code on a record that has four or more failures locks it,
    whatever the counter was. *)
Lemma wrong_code_at_limit_locks email a db r :
  first (otp_by_email email) (OTPs db) = Some r ->
  wrong_attempt r a ->
  MAX_OTP_ATTEMPTS - 1 <= OTP_Tbl.attempts r ->
  exists db',
    verify email a db = (Raise (incorrect_otp (flow a)), db') /\
    option_map OTP_Tbl.locked_until (first (otp_by_email email) (OTPs db'))
      = Some (Some (at_time a + minutes LOCK_DURATION_MINUTES)).
Proof.
  intros Hr Hw Hn. eexists. split; [exact (verify_wrong email a db r Hr Hw)|].
  simpl OTPs. rewrite (first_after_failed_attempt email (at_time a) db r Hr).
  rewrite count_failed_attempt_reaches by lia. reflexivity.
Qed.

End Records.

(** ** What the request operations persist *)

Section Persisted.
Context {bc : Bcrypt}.

Lemma signin_request_otps data rnd salt now db :
  let email := SigninRequest.email data in
  let hashed_otp := hashpw (generate_otp rnd) salt in
  let db' := snd (signin_request data rnd salt now db) in
  match fst (signin_request data rnd salt now db) with
  | Raise _ => OTPs db' = OTPs db
  | Ok mail =>
      mailed_otp mail = generate_otp rnd /\
      (OTPs db' = OTPs db ++ [OTP_Tbl.mk email hashed_otp None now 0 1 None] \/
       OTPs db'
       = update_first (otp_by_email email)
           (fun r => OTP_Tbl.set_created_at
                       (OTP_Tbl.set_resend_count (OTP_Tbl.set_otp_code r hashed_otp)
                          (OTP_Tbl.resend_count r + 1)) now)
           (OTPs db))
  end.
Proof.
  cbv zeta. unfold signin_request. set (email := SigninRequest.email data).
  assert (Hadd : forall u db1, add_user email (Some "Invited User") true db = Some (u, db1) ->
                               OTPs db1 = OTPs db).
  { unfold add_user. intros u db1.
    destruct (first (user_by_email email) (Users db)); [discriminate|].
    now intros [= <- <-]. }
  destruct (first (user_by_email email) (Users db)) as [u|].
  - destruct (first (otp_by_email email) (OTPs db)) as [r|];
      [destruct (_ >=? _)|]; simpl; auto.
  - destruct (first (collaborator_by_email email) (Collaborators db)); [|reflexivity].
    destruct (add_user email (Some "Invited User") true db) as [[user db1]|] eqn:Hu;
      [|reflexivity].
    specialize (Hadd _ _ eq_refl). simpl OTPs. rewrite Hadd.
    destruct (first (otp_by_email email) (OTPs db)) as [r|];
      [destruct (_ >=? _)|]; simpl; rewrite ?Hadd; auto.
Qed.

(** C4. No request operation leaves a plaintext code in the table. A
    request route that answers has mailed the generated code and stored its
    bcrypt hash: the record found for the address holds
    [hashpw code salt], and every other stored record is one that was
    there before; a request route that raises stores nothing. The two
    service functions never store a code at all: every call raises, the
    sign-up one with the database unchanged, the sign-in one with the OTP
    table unchanged, because the plaintext they assign to [otp_code] is
    refused at the commit. *)
Theorem otp_codes_are_stored_hashed :
  (forall data rnd salt now db sent db',
     signup_request data rnd salt now db = (Ok sent, db') ->
     mailed_otp sent = generate_otp rnd /\
     option_map OTP_Tbl.otp_code
       (first (otp_by_email (SignupRequest.email data)) (OTPs db'))
     = Some (hashpw (generate_otp rnd) salt) /\
     forall r, In r (OTPs db') ->
       In r (OTPs db) \/ OTP_Tbl.otp_code r = hashpw (generate_otp rnd) salt) /\
  (forall data rnd salt now db sent db',
     signin_request data rnd salt now db = (Ok sent, db') ->
     mailed_otp sent = generate_otp rnd /\
     option_map OTP_Tbl.otp_code
       (first (otp_by_email (SigninRequest.email data)) (OTPs db'))
     = Some (hashpw (generate_otp rnd) salt) /\
     forall r, In r (OTPs db') ->
       In r (OTPs db) \/ OTP_Tbl.otp_code r = hashpw (generate_otp rnd) salt) /\
  (forall data rnd salt now db exc db',
     signup_request data rnd salt now db = (Raise exc, db') -> OTPs db' = OTPs db) /\
  (forall data rnd salt now db exc db',
     signin_request data rnd salt now db = (Raise exc, db') -> OTPs db' = OTPs db) /\
  (forall email full_name rnd now db,
     exists exc, request_signup_otp email full_name rnd now db = (Raise exc, db)) /\
  (forall email rnd now db,
     exists exc db',
       request_signin_otp email rnd now db = (Raise exc, db') /\ OTPs db' = OTPs db).
Proof.
  split; [|split; [|split; [|split; [|split]]]].
  - intros data rnd salt now db sent db' H.
    destruct (signup_request_stores_hash _ _ _ _ _ _ _ H) as [Hm Hs].
    split; [exact Hm|]. split; [exact Hs|].
    unfold signup_request in H.
    destruct (first _ (Users db)); [discriminate|].
    injection H as _ <-. simpl OTPs. intros r Hin.
    apply in_app_or in Hin. destruct Hin as [Hin|[<-|[]]]; [|now right].
    left. unfold delete_all in Hin. apply filter_In in Hin. tauto.
  - intros data rnd salt now db sent db' H.
    destruct (signin_request_stores_hash _ _ _ _ _ _ _ H) as [Hm Hs].
    split; [exact Hm|]. split; [exact Hs|].
    pose proof (signin_request_otps data rnd salt now db) as Ho. cbv zeta in Ho.
    rewrite H in Ho. cbn [fst snd] in Ho. destruct Ho as [_ [Ho|Ho]]; rewrite Ho.
    + intros r Hin. apply in_app_or in Hin. destruct Hin as [Hin|[<-|[]]]; auto.
    + intros r Hin. apply In_update_first in Hin.
      destruct Hin as [Hin|(y & _ & ->)]; [now left | now right].
  - intros data rnd salt now db exc db'. unfold signup_request.
    destruct (first _ (Users db)); [|discriminate]. now intros [= _ <-].
  - intros data rnd salt now db exc db' H.
    pose proof (signin_request_otps data rnd salt now db) as Ho. cbv zeta in Ho.
    rewrite H in Ho. exact Ho.
  - intros email full_name rnd now db. unfold request_signup_otp.
    destruct (first (user_by_email email) (Users db)); [eauto|].
    destruct (first (otp_by_email email) (OTPs db)) as [r|];
      [destruct (_ >=? _)|]; eauto.
  - intros email rnd now db. unfold request_signin_otp, add_user.
    destruct (first (user_by_email email) (Users db)) as [u|].
    + destruct (first (otp_by_email email) (OTPs db)) as [r|];
        [destruct (_ >=? _)|]; eauto.
    + destruct (first (collaborator_by_email email) (Collaborators db)); [|eauto].
      simpl OTPs.
      destruct (first (otp_by_email email) (OTPs db)) as [r|];
        [destruct (_ >=? _)|]; eauto.
Qed.

End Persisted.

(** On Ann's address: the route stores the hash of the code it mails, the
    service functions raise and store nothing, when they would create a
    record and when they would refresh one. *)
Example request_operations_on_ann :
  @signup_request demo_bcrypt ann_signs_up 481516 "salt" 1000 empty_db
    = (Ok (mkOtpSent "OTP sent to your email" ann "481516"),
       set_OTPs empty_db [OTP_Tbl.mk ann "salt481516" (Some "Ann") 1000 0 1 None]) /\
  request_signup_otp ann "Ann" 481516 1000 empty_db = (Raise StatementError, empty_db) /\
  request_signup_otp ann "Ann" 162342 1010 ann_pending = (Raise StatementError, ann_pending) /\
  request_signin_otp ann 481516 1000 ann_registered
    = (Raise StatementError, ann_registered) /\
  request_signin_otp ann 481516 1000 ann_invited
    = (Raise StatementError,
       mkDB [User.mk 1 ann "Invited User" true] []
            [Collaborator.mk (Some 1) ann "comment" 7 (Some 1)] [] [] [] [] []).
Proof. repeat split. Qed.

(** ** Sign-up verification and existing users *)

Section Signup.
Context {bc : Bcrypt}.

(** The route: once the code is accepted and a user with the address
    exists, the record is deleted, the users are left alone and the token
    carries the existing user's id. *)
Lemma signup_verify_existing_user data now db r u :
  first (otp_by_email (OTPVerifyRequest.email data)) (OTPs db) = Some r ->
  code_matches data r -> within_validity now r -> not_locked now r ->
  first (user_by_email (OTPVerifyRequest.email data)) (Users db) = Some u ->
  signup_verify data now db =
    (Ok (mkTokenResponse "User already registered"
           (create_access_token (str (User.id u)) None now) "bearer"),
     set_OTPs db (delete_first (otp_by_email (OTPVerifyRequest.email data)) (OTPs db))).
Proof.
  intros Hr Hc Hv Hl Hu.
  apply not_locked_iff in Hl. unfold OTP_Tbl.is_locked in Hl.
  apply gtb_false_le in Hv. unfold code_matches in Hc.
  unfold signup_verify, OTP_VALIDITY_MINUTES. now rewrite Hr, Hl, Hv, Hc, Hu.
Qed.


End Signup.



(** On Ann's pending record: the service function answers 400 to the very
    code the record was made for and counts a failed attempt. *)
Example verify_signup_otp_rejects_the_code :
  verify_signup_otp ann "481516" 1060 ann_pending
  = (Raise (HTTPException 400 "Invalid OTP"),
     set_OTPs empty_db [OTP_Tbl.mk ann "salt481516" (Some "Ann") 1000 1 1 None]).
Proof. reflexivity. Qed.

(** The route in the same situation answers for the existing user. *)
Example signup_verify_is_idempotent_on_ann :
  @signup_verify demo_bcrypt (OTPVerifyRequest.mk ann "222222") 1020 ann_raced_routes
  = (Ok (mkTokenResponse "User already registered" (mkToken "1" (1020 + 21600)) "bearer"),
     set_OTPs ann_raced_routes []).
Proof. reflexivity. Qed.

(** ** Listing feedback *)

(** C10. The public listing route calls [get_all_feedbacks_by_workspace]
    without a user; for an existing workspace that call returns exactly the
    feedback rows of the workspace, whatever the users, collaborators and
    access grants are. With a user who is neither the owner nor a
    collaborator the same function refuses. *)
Theorem listing_without_user_is_unchecked (db : DB) (workspace_id : Z) :
  list_all_feedbacks_by_workspace workspace_id db
    = get_all_feedbacks_by_workspace db workspace_id None /\
  get_all_feedbacks_by_workspace db workspace_id None
    = match first (workspace_by_id workspace_id) (Workspaces db) with
      | None => Raise (HTTPException 404 "Workspace not found")
      | Some _ =>
          Ok (filter (fun f => Feedback.workspace_id f =? workspace_id) (Feedbacks db))
      end /\
  (forall f, In f (filter (fun f => Feedback.workspace_id f =? workspace_id) (Feedbacks db))
             <-> In f (Feedbacks db) /\ Feedback.workspace_id f = workspace_id) /\
  (forall users collaborators accesses,
     get_all_feedbacks_by_workspace
       (set_Users (set_Collaborators (set_FeedbackAccesses db accesses) collaborators)
                  users)
       workspace_id None
     = get_all_feedbacks_by_workspace db workspace_id None) /\
  (forall w user_id,
     first (workspace_by_id workspace_id) (Workspaces db) = Some w ->
     Workspace.owner_id w <> user_id ->
     first (collaborator_in workspace_id user_id) (Collaborators db) = None ->
     get_all_feedbacks_by_workspace db workspace_id (Some user_id)
     = Raise (HTTPException 403 "No access to workspace")).
Proof.
  repeat apply conj.
  - unfold list_all_feedbacks_by_workspace, get_all_feedbacks_by_workspace.
    now destruct (first _ (Workspaces db)).
  - reflexivity.
  - intros f. rewrite filter_In, Z.eqb_eq. reflexivity.
  - reflexivity.
  - intros w u Hw Ho Hc. unfold get_all_feedbacks_by_workspace.
    rewrite Hw, Hc. apply Z.eqb_neq in Ho. now rewrite Ho.
Qed.

(** ** Developer actions *)

Lemma FeedbackDeveloperStatus_values action s :
  FeedbackDeveloperStatus_of_value action = Some s <->
  (action = "pending" /\ s = pending) \/
  (action = "acknowledged" /\ s = acknowledged) \/
  (action = "unclear" /\ s = unclear).
Proof.
  unfold FeedbackDeveloperStatus_of_value.
  destruct (String.eqb_spec action "pending") as [->|H1].
  { split; [intros [= <-]; auto | intros [[_ ->]|[[[=] _]|[[=] _]]]; reflexivity]. }
  destruct (String.eqb_spec action "acknowledged") as [->|H2].
  { split; [intros [= <-]; auto | intros [[[=] _]|[[_ ->]|[[=] _]]]; reflexivity]. }
  destruct (String.eqb_spec action "unclear") as [->|H3].
  { split; [intros [= <-]; auto | intros [[[=] _]|[[[=] _]|[_ ->]]]; reflexivity]. }
  split; [discriminate | intros [[-> _]|[[-> _]|[-> _]]]; congruence].
Qed.

Lemma handle_developer_action_no_developer db feedback_id email action now :
  first (developer_by_email email) (Developers db) = None ->
  handle_developer_action db feedback_id email action now
    = (Raise (HTTPException 404 "Developer not found"), db).
Proof. intros H. unfold handle_developer_action. now rewrite H. Qed.

Lemma handle_developer_action_no_link db feedback_id email action now d :
  first (developer_by_email email) (Developers db) = Some d ->
  first (link_of feedback_id (Developer.id d)) (FeedbackDevelopers db) = None ->
  handle_developer_action db feedback_id email action now
    = (Raise (HTTPException 404 "Developer not linked to this feedback"), db).
Proof. intros H1 H2. unfold handle_developer_action. now rewrite H1, H2. Qed.

Lemma handle_developer_action_invalid db feedback_id email action now d l :
  first (developer_by_email email) (Developers db) = Some d ->
  first (link_of feedback_id (Developer.id d)) (FeedbackDevelopers db) = Some l ->
  FeedbackDeveloperStatus_of_value action = None ->
  handle_developer_action db feedback_id email action now
    = (Raise (HTTPException 400 "Invalid action"), db).
Proof. intros H1 H2 H3. unfold handle_developer_action. now rewrite H1, H2, H3. Qed.

Lemma handle_developer_action_valid db feedback_id email action now d l s :
  first (developer_by_email email) (Developers db) = Some d ->
  first (link_of feedback_id (Developer.id d)) (FeedbackDevelopers db) = Some l ->
  FeedbackDeveloperStatus_of_value action = Some s ->
  exists msg db',
    handle_developer_action db feedback_id email action now = (Ok msg, db') /\
    first (link_of feedback_id (Developer.id d)) (FeedbackDevelopers db')
      = Some (FeedbackDeveloper.mk (FeedbackDeveloper.feedback_id l)
                (FeedbackDeveloper.developer_id l) s (Some (now + 19800))).
Proof.
  intros H1 H2 H3. unfold handle_developer_action. rewrite H1, H2, H3.
  do 2 eexists. split; [reflexivity|]. simpl FeedbackDevelopers.
  rewrite first_update_first, H2; [reflexivity|].
  intros r Hr. exact Hr.
Qed.

Example dev_has_acknowledged :
  FeedbackDevelopers acknowledged_by_dev
    = [FeedbackDeveloper.mk 11 1 acknowledged (Some (5000 + 19800));
       FeedbackDeveloper.mk 11 2 pending None].
Proof. reflexivity. Qed.

(** C8 on the value "pending": the action is not one of the two the claim
    allows, yet it is accepted; the acknowledged link goes back to pending
    and is stamped. *)
Theorem pending_is_accepted_as_action :
  developer_action 11 "pending" dev acknowledged_by_dev 6000
  = (Ok "Feedback marked as 'pending' by dev@example.com",
     set_FeedbackDevelopers acknowledged_by_dev
       [FeedbackDeveloper.mk 11 1 pending (Some (6000 + 19800));
        FeedbackDeveloper.mk 11 2 pending None]).
Proof. reflexivity. Qed.

(** ** Sharing a feedback with developers *)

Section Sharing.
Implicit Types (db : DB) (fb : Feedback.t) (d : Developer.t) (e email : string).

Lemma first_none_count {A} (p : A -> bool) rows :
  first p rows = None <-> List.length (filter p rows) = 0%nat.
Proof.
  unfold first. induction rows as [|x xs IH]; simpl; [tauto|].
  destruct (p x); simpl; [split; discriminate | exact IH].
Qed.

Lemma first_update_other {A} (p q : A -> bool) f rows r :
  (forall x, p (f x) = p x) ->
  first p rows = Some r ->
  first p (update_first q f rows) = Some r \/
  first q rows = Some r /\ first p (update_first q f rows) = Some (f r).
Proof.
  intros Hp. unfold first. induction rows as [|x xs IH]; simpl; [discriminate|].
  destruct (q x) eqn:Hq; simpl.
  - rewrite Hp. destruct (p x); [intros [= <-]; auto | auto].
  - destruct (p x); [intros [= <-]; auto | exact IH].
Qed.

(** *** The developer step *)

Lemma find_or_create_developer_frame email fb db d db1 :
  find_or_create_developer email fb db = (d, db1) ->
  Feedbacks db1 = Feedbacks db /\ FeedbackDevelopers db1 = FeedbackDevelopers db.
Proof.
  unfold find_or_create_developer.
  destruct (first _ (Developers db)) as [d0|];
    [destruct (Developer.invited_by_workspace_id d0)|];
    intros [= <- <-]; split; reflexivity.
Qed.

Lemma find_or_create_developer_found email fb db d db1 :
  find_or_create_developer email fb db = (d, db1) ->
  first (developer_by_email email) (Developers db1) = Some d /\
  Developer.invited_by_workspace_id d <> None.
Proof.
  unfold find_or_create_developer.
  destruct (first _ (Developers db)) as [d0|] eqn:Hd;
    [destruct (Developer.invited_by_workspace_id d0) eqn:Hi|];
    intros [= <- <-]; simpl Developers.
  - split; [exact Hd | congruence].
  - split; [|discriminate].
    rewrite first_update_first, Hd; [reflexivity|]. intros x Hx; exact Hx.
  - split; [|discriminate].
    rewrite first_app_r by exact Hd.
    unfold first; simpl. unfold developer_by_email; simpl.
    now rewrite String.eqb_refl.
Qed.

(** A developer row that is already complete is not touched by the step
    for any address. *)
Lemma find_or_create_developer_stable email fb db d db1 e d0 :
  find_or_create_developer email fb db = (d, db1) ->
  first (developer_by_email e) (Developers db) = Some d0 ->
  Developer.invited_by_workspace_id d0 <> None ->
  first (developer_by_email e) (Developers db1) = Some d0.
Proof.
  unfold find_or_create_developer. intros H He Hi.
  destruct (first (developer_by_email email) (Developers db)) as [d1|] eqn:Hd;
    [destruct (Developer.invited_by_workspace_id d1) eqn:Hi1|];
    injection H as <- <-; simpl Developers.
  - exact He.
  - destruct (first_update_other (developer_by_email e) (developer_by_email email)
                (fun d => Developer.set_invited_by_workspace_id d
                            (Some (Feedback.workspace_id fb)))
                (Developers db) d0) as [Hr'|[Hq _]]; auto.
    congruence.
  - now apply first_app_l.
Qed.

(** *** The developer-email step *)

Lemma save_developer_email_frame idx email fb db fb1 db1 :
  save_developer_email idx email fb db = (fb1, db1) ->
  Developers db1 = Developers db /\ FeedbackDevelopers db1 = FeedbackDevelopers db /\
  Feedback.id fb1 = Feedback.id fb /\ Feedback.status fb1 = Feedback.status fb /\
  Feedback.created_by fb1 = Feedback.created_by fb /\
  Feedback.developer_email fb1 <> None.
Proof.
  unfold save_developer_email.
  destruct (Nat.eqb idx 0); simpl.
  - intros [= <- <-]. repeat split; discriminate.
  - destruct (Feedback.developer_email fb) eqn:He; intros [= <- <-];
      repeat split; try discriminate. congruence.
Qed.

Lemma save_developer_email_row idx email fb db fb1 db1 :
  save_developer_email idx email fb db = (fb1, db1) ->
  first (feedback_by_id (Feedback.id fb)) (Feedbacks db) = Some fb ->
  first (feedback_by_id (Feedback.id fb)) (Feedbacks db1) = Some fb1.
Proof.
  unfold save_developer_email. intros H Hrow.
  destruct (Nat.eqb idx 0 || _); injection H as <- <-; [|exact Hrow].
  simpl Feedbacks. rewrite first_update_first, Hrow; [reflexivity|].
  intros x Hx; exact Hx.
Qed.

(** The first address of a call is written to [developer_email]; a later
    address is written only when the field is still empty. *)
Lemma save_developer_email_first email fb db :
  fst (save_developer_email 0 email fb db)
  = Feedback.set_developer_email fb (Some email).
Proof. reflexivity. Qed.

Lemma save_developer_email_later idx email fb db :
  Feedback.developer_email fb <> None ->
  save_developer_email (S idx) email fb db = (fb, db).
Proof.
  unfold save_developer_email. simpl.
  destruct (Feedback.developer_email fb); [reflexivity|congruence].
Qed.

Lemma set_developer_email_same fb email :
  Feedback.developer_email fb = Some email ->
  Feedback.set_developer_email fb (Some email) = fb.
Proof. destruct fb; simpl. now intros ->. Qed.

Lemma set_status_same fb s :
  Feedback.status fb = s -> Feedback.set_status fb s = fb.
Proof. destruct fb; simpl. now intros ->. Qed.

Lemma save_developer_email_again email fb db :
  first (feedback_by_id (Feedback.id fb)) (Feedbacks db) = Some fb ->
  Feedback.developer_email fb = Some email ->
  save_developer_email 0 email fb db = (fb, db).
Proof.
  intros Hrow He. unfold save_developer_email. simpl.
  rewrite set_developer_email_same by exact He. f_equal.
  rewrite update_first_fixed; [now destruct db|].
  intros r Hr. rewrite Hrow in Hr. injection Hr as <-.
  now apply set_developer_email_same.
Qed.

(** *** The link step *)

Lemma find_or_create_link_frame fb d db :
  Developers (find_or_create_link fb d db) = Developers db /\
  Feedbacks (find_or_create_link fb d db) = Feedbacks db.
Proof.
  unfold find_or_create_link.
  now destruct (first _ (FeedbackDevelopers db)).
Qed.

Lemma find_or_create_link_appends fb d db :
  exists added,
    FeedbackDevelopers (find_or_create_link fb d db)
      = FeedbackDevelopers db ++ added /\
    Forall (fun l => FeedbackDeveloper.feedback_id l = Feedback.id fb /\
                     FeedbackDeveloper.status l = pending) added.
Proof.
  unfold find_or_create_link.
  destruct (first _ (FeedbackDevelopers db)).
  - exists []. now rewrite app_nil_r.
  - eexists. split; [reflexivity|]. repeat constructor.
Qed.

Lemma count_links_app feedback_id k db more :
  count_links feedback_id k (set_FeedbackDevelopers db (FeedbackDevelopers db ++ more))
  = (count_links feedback_id k db
     + List.length (filter (link_of feedback_id k) more))%nat.
Proof.
  unfold count_links, all. simpl. now rewrite filter_app, length_app.
Qed.

Lemma link_of_pair feedback_id k l :
  link_of feedback_id k l = true <->
  FeedbackDeveloper.feedback_id l = feedback_id /\
  FeedbackDeveloper.developer_id l = k.
Proof. unfold link_of. now rewrite andb_true_iff, !Z.eqb_eq. Qed.

(** The step leaves one link for its pair where there was none, and
    changes the number of links of no pair that had one. *)
Lemma find_or_create_link_count fb d db k :
  let before := count_links (Feedback.id fb) k db in
  let after := count_links (Feedback.id fb) k (find_or_create_link fb d db) in
  (k = Developer.id d -> after = Nat.max 1 before) /\
  (after = before \/ before = 0%nat /\ after = 1%nat).
Proof.
  unfold find_or_create_link.
  destruct (first (link_of (Feedback.id fb) (Developer.id d)) (FeedbackDevelopers db))
    as [l|] eqn:Hl; cbv zeta.
  - split; [|now left]. intros ->.
    destruct (count_links (Feedback.id fb) (Developer.id d) db) eqn:Hc; [|reflexivity].
    apply first_none_count in Hc. congruence.
  - rewrite count_links_app. simpl.
    apply first_none_count in Hl. fold (all (link_of (Feedback.id fb) (Developer.id d))
                                           (FeedbackDevelopers db)) in Hl.
    fold (count_links (Feedback.id fb) (Developer.id d) db) in Hl.
    destruct (Z.eqb_spec (Developer.id d) k) as [<-|Hk].
    + unfold link_of; simpl. rewrite Z.eqb_refl, Z.eqb_refl, Hl. simpl.
      split; [reflexivity|now right].
    + unfold link_of; simpl. rewrite Z.eqb_refl.
      replace (Developer.id d =? k) with false by (symmetry; now apply Z.eqb_neq).
      simpl. rewrite Nat.add_0_r. split; [congruence|now left].
Qed.

(** *** The loop *)

Lemma share_loop_cons idx email rest fb now db :
  share_loop idx (email :: rest) fb now db =
    let p1 := find_or_create_developer email fb db in
    let p2 := save_developer_email idx email fb (snd p1) in
    let db3 := find_or_create_link (fst p2) (fst p1) (snd p2) in
    let p4 := share_loop (S idx) rest (fst p2) now db3 in
    ((email, send_feedback_email email (Feedback.id (fst p2)) now) :: fst p4, snd p4).
Proof.
  cbn [share_loop]. cbv zeta.
  destruct (find_or_create_developer email fb db) as [d db1]. cbn [fst snd].
  destruct (save_developer_email idx email fb db1) as [fb2 db2]. cbn [fst snd].
  now destruct (share_loop (S idx) rest fb2 now (find_or_create_link fb2 d db2)).
Qed.

(** Unpacks one round of the loop into its three steps. *)
Ltac share_round e fb db :=
  rewrite share_loop_cons; cbv zeta;
  let d := fresh "d" in let db1 := fresh "db1" in
  let fb2 := fresh "fb2" in let db2 := fresh "db2" in
  let Hdev := fresh "Hdev" in let Hsave := fresh "Hsave" in
  destruct (find_or_create_developer e fb db) as [d db1] eqn:Hdev;
  cbn [fst snd];
  match goal with
  | |- context [save_developer_email ?i e fb db1] =>
      destruct (save_developer_email i e fb db1) as [fb2 db2] eqn:Hsave
  end;
  cbn [fst snd].

Lemma share_loop_count emails : forall idx fb now db k,
  let after := count_links (Feedback.id fb) k (snd (share_loop idx emails fb now db)) in
  let before := count_links (Feedback.id fb) k db in
  after = before \/ before = 0%nat /\ after = 1%nat.
Proof.
  induction emails as [|e rest IH]; intros idx fb now db k; cbv zeta; [now left|].
  share_round e fb db.
  destruct (find_or_create_developer_frame _ _ _ _ _ Hdev) as (_ & Hl1).
  destruct (save_developer_email_frame _ _ _ _ _ _ Hsave) as (_ & Hl2 & Hid & _).
  specialize (IH (S idx) fb2 now (find_or_create_link fb2 d db2) k). cbv zeta in IH.
  destruct (find_or_create_link_count fb2 d db2 k) as (_ & Hstep).
  rewrite Hid in *.
  assert (Hsame : count_links (Feedback.id fb) k db2 = count_links (Feedback.id fb) k db).
  { unfold count_links. now rewrite Hl2, Hl1. }
  rewrite Hsame in Hstep. lia.
Qed.

Lemma share_loop_appends emails : forall idx fb now db,
  exists added,
    FeedbackDevelopers (snd (share_loop idx emails fb now db))
      = FeedbackDevelopers db ++ added /\
    Forall (fun l => FeedbackDeveloper.feedback_id l = Feedback.id fb /\
                     FeedbackDeveloper.status l = pending) added.
Proof.
  induction emails as [|e rest IH]; intros idx fb now db.
  { exists []. now rewrite app_nil_r. }
  share_round e fb db.
  destruct (find_or_create_developer_frame _ _ _ _ _ Hdev) as (_ & Hl1).
  destruct (save_developer_email_frame _ _ _ _ _ _ Hsave) as (_ & Hl2 & Hid & _).
  destruct (IH (S idx) fb2 now (find_or_create_link fb2 d db2)) as (more & -> & Hmore).
  destruct (find_or_create_link_appends fb2 d db2) as (one & -> & Hone).
  rewrite Hid in *. rewrite Hl2, Hl1.
  exists (one ++ more). rewrite app_assoc. split; [reflexivity|].
  apply Forall_app. now split.
Qed.

Lemma share_loop_developer_stable emails : forall idx fb now db e d0,
  first (developer_by_email e) (Developers db) = Some d0 ->
  Developer.invited_by_workspace_id d0 <> None ->
  first (developer_by_email e) (Developers (snd (share_loop idx emails fb now db)))
  = Some d0.
Proof.
  induction emails as [|e' rest IH]; intros idx fb now db e d0 He Hi; [exact He|].
  share_round e' fb db.
  apply IH; [|exact Hi].
  rewrite (proj1 (find_or_create_link_frame fb2 d db2)).
  rewrite (proj1 (save_developer_email_frame _ _ _ _ _ _ Hsave)).
  eapply find_or_create_developer_stable; eauto.
Qed.

(** After the loop every address of the list has a developer row with an
    inviting workspace, and the pair (feedback, developer) has one link if
    it had none, and as many as before otherwise. *)
Lemma share_loop_established emails : forall idx fb now db e,
  In e emails ->
  let db' := snd (share_loop idx emails fb now db) in
  exists d,
    first (developer_by_email e) (Developers db') = Some d /\
    Developer.invited_by_workspace_id d <> None /\
    count_links (Feedback.id fb) (Developer.id d) db'
      = Nat.max 1 (count_links (Feedback.id fb) (Developer.id d) db).
Proof.
  induction emails as [|e' rest IH]; intros idx fb now db e Hin; [destruct Hin|].
  cbv zeta. share_round e' fb db.
  destruct (find_or_create_developer_frame _ _ _ _ _ Hdev) as (_ & Hl1).
  destruct (save_developer_email_frame _ _ _ _ _ _ Hsave) as (Hd2 & Hl2 & Hid & _).
  assert (Hsame : forall k, count_links (Feedback.id fb) k db2
                            = count_links (Feedback.id fb) k db).
  { intros k. unfold count_links. now rewrite Hl2, Hl1. }
  set (db3 := find_or_create_link fb2 d db2).
  destruct (in_dec string_dec e rest) as [Hrest|Hrest].
  - destruct (IH (S idx) fb2 now db3 e Hrest) as (d' & Hfirst & Hinv & Hcount).
    exists d'. repeat split; [exact Hfirst | exact Hinv |].
    rewrite Hid in Hcount. rewrite Hcount.
    destruct (find_or_create_link_count fb2 d db2 (Developer.id d')) as (_ & Hstep).
    rewrite Hid, Hsame in Hstep. fold db3 in Hstep. lia.
  - destruct Hin as [<-|Hin]; [|contradiction].
    destruct (find_or_create_developer_found _ _ _ _ _ Hdev) as (Hfirst & Hinv).
    exists d. repeat split; [|exact Hinv|].
    + apply share_loop_developer_stable; [|exact Hinv].
      unfold db3. rewrite (proj1 (find_or_create_link_frame fb2 d db2)), Hd2.
      exact Hfirst.
    + destruct (find_or_create_link_count fb2 d db2 (Developer.id d)) as (Hhere & _).
      specialize (Hhere eq_refl). rewrite Hid, Hsame in Hhere. fold db3 in Hhere.
      pose proof (share_loop_count rest (S idx) fb2 now db3 (Developer.id d)) as Hlater.
      cbv zeta in Hlater. rewrite Hid in Hlater. lia.
Qed.

(** Once [developer_email] is set, later rounds leave the feedback table
    alone. *)
Lemma share_loop_feedbacks_later emails : forall idx fb now db,
  Feedback.developer_email fb <> None ->
  Feedbacks (snd (share_loop (S idx) emails fb now db)) = Feedbacks db.
Proof.
  induction emails as [|e rest IH]; intros idx fb now db Hset; [reflexivity|].
  rewrite share_loop_cons; cbv zeta.
  rewrite save_developer_email_later by exact Hset. cbn [fst snd].
  rewrite IH by exact Hset.
  rewrite (proj2 (find_or_create_link_frame _ _ _)).
  destruct (find_or_create_developer e fb db) as [d db1] eqn:Hdev. cbn [fst snd].
  exact (proj1 (find_or_create_developer_frame _ _ _ _ _ Hdev)).
Qed.

(** The row of the feedback after a whole call: it keeps its id, creator
    and status, and [developer_email] holds the first address. *)
Lemma share_loop_feedback_row emails fb now db :
  first (feedback_by_id (Feedback.id fb)) (Feedbacks db) = Some fb ->
  exists fb',
    first (feedback_by_id (Feedback.id fb))
          (Feedbacks (snd (share_loop 0 emails fb now db))) = Some fb' /\
    Feedback.id fb' = Feedback.id fb /\
    Feedback.status fb' = Feedback.status fb /\
    Feedback.created_by fb' = Feedback.created_by fb /\
    match emails with
    | [] => fb' = fb
    | e :: _ => Feedback.developer_email fb' = Some e
    end.
Proof.
  intros Hrow. destruct emails as [|e rest]; [exists fb; auto|].
  share_round e fb db.
  destruct (find_or_create_developer_frame _ _ _ _ _ Hdev) as (Hf1 & _).
  destruct (save_developer_email_frame _ _ _ _ _ _ Hsave) as (_ & _ & Hid & Hst & Hcr & Hset).
  rewrite <- Hf1 in Hrow.
  pose proof (save_developer_email_row _ _ _ _ _ _ Hsave Hrow) as Hrow2.
  pose proof (save_developer_email_first e fb db1) as Hfst.
  rewrite Hsave in Hfst. cbn [fst] in Hfst.
  exists fb2. rewrite share_loop_feedbacks_later by exact Hset.
  rewrite (proj2 (find_or_create_link_frame _ _ _)).
  repeat split; try assumption. now rewrite Hfst.
Qed.

(** A database in which the feedback already names the first address, and
    every address has its complete developer row and its link, is a fixed
    point of the loop. *)
Lemma share_loop_fixed emails : forall idx fb now db,
  first (feedback_by_id (Feedback.id fb)) (Feedbacks db) = Some fb ->
  (forall e, In e emails ->
     exists d, first (developer_by_email e) (Developers db) = Some d /\
               Developer.invited_by_workspace_id d <> None /\
               count_links (Feedback.id fb) (Developer.id d) db <> 0%nat) ->
  Feedback.developer_email fb <> None ->
  (idx = 0%nat -> Feedback.developer_email fb = head emails \/ emails = []) ->
  snd (share_loop idx emails fb now db) = db.
Proof.
  induction emails as [|e rest IH]; intros idx fb now db Hrow Hall Hset H0;
    [reflexivity|].
  rewrite share_loop_cons; cbv zeta.
  destruct (Hall e (or_introl eq_refl)) as (d & Hd & Hinv & Hcount).
  assert (Hdev : find_or_create_developer e fb db = (d, db)).
  { unfold find_or_create_developer. rewrite Hd.
    destruct (Developer.invited_by_workspace_id d); [reflexivity|congruence]. }
  rewrite Hdev. cbn [fst snd].
  assert (Hsave : save_developer_email idx e fb db = (fb, db)).
  { destruct idx as [|idx].
    - destruct (H0 eq_refl) as [He|]; [|discriminate].
      now apply save_developer_email_again.
    - now apply save_developer_email_later. }
  rewrite Hsave. cbn [fst snd].
  assert (Hlink : find_or_create_link fb d db = db).
  { unfold find_or_create_link.
    destruct (first _ (FeedbackDevelopers db)) eqn:Hl; [reflexivity|].
    apply first_none_count in Hl. contradiction. }
  rewrite Hlink. apply IH; try assumption.
  - intros e' He'. apply Hall. now right.
  - discriminate.
Qed.

(** *** The whole call *)

Lemma set_Feedbacks_same db : set_Feedbacks db (Feedbacks db) = db.
Proof. now destruct db. Qed.

(** What a successful call leaves behind. *)
Lemma share_feedback_with_developers_ok db feedback_id emails user_id now urls db1 :
  share_feedback_with_developers db feedback_id emails user_id now = (Ok urls, db1) ->
  exists fb fb1,
    first (feedback_by_id feedback_id) (Feedbacks db) = Some fb /\
    Feedback.created_by fb = user_id /\
    first (feedback_by_id feedback_id) (Feedbacks db1) = Some fb1 /\
    Feedback.id fb1 = feedback_id /\
    Feedback.status fb1 = sent /\
    Feedback.created_by fb1 = user_id /\
    match emails with
    | [] => True
    | e :: _ => Feedback.developer_email fb1 = Some e
    end /\
    (exists added,
       FeedbackDevelopers db1 = FeedbackDevelopers db ++ added /\
       Forall (fun l => FeedbackDeveloper.feedback_id l = feedback_id /\
                        FeedbackDeveloper.status l = pending) added) /\
    (forall e, In e emails ->
       exists d,
         first (developer_by_email e) (Developers db1) = Some d /\
         Developer.invited_by_workspace_id d <> None /\
         count_links feedback_id (Developer.id d) db1
           = Nat.max 1 (count_links feedback_id (Developer.id d) db)).
Proof.
  unfold share_feedback_with_developers.
  destruct (first (feedback_by_id feedback_id) (Feedbacks db)) as [fb|] eqn:Hfb;
    [|discriminate].
  destruct (Z.eqb_spec (Feedback.created_by fb) user_id) as [Hcr|]; [|discriminate].
  simpl negb. cbv iota.
  set (fb_s := Feedback.set_status fb sent).
  set (db_s := set_Feedbacks db _).
  destruct (share_loop 0 emails fb_s now db_s) as [urls' dbx] eqn:Hloop.
  intros [= <- <-].
  assert (Hdbx : dbx = snd (share_loop 0 emails fb_s now db_s)) by now rewrite Hloop.
  pose proof (first_holds _ _ _ Hfb) as Hid. unfold feedback_by_id in Hid.
  apply Z.eqb_eq in Hid.
  assert (Hid_s : Feedback.id fb_s = feedback_id) by exact Hid.
  assert (Hrow : first (feedback_by_id (Feedback.id fb_s)) (Feedbacks db_s) = Some fb_s).
  { rewrite Hid_s. unfold db_s. simpl Feedbacks.
    rewrite first_update_first, Hfb; [reflexivity|]. intros x Hx; exact Hx. }
  destruct (share_loop_feedback_row emails fb_s now db_s Hrow)
    as (fb1 & Hrow1 & Hid1 & Hst1 & Hcr1 & Hmail).
  rewrite <- Hdbx, Hid_s in Hrow1.
  exists fb, fb1.
  split; [reflexivity|]. split; [exact Hcr|]. split; [exact Hrow1|].
  split; [congruence|]. split; [rewrite Hst1; reflexivity|].
  split; [rewrite Hcr1; exact Hcr|].
  split; [destruct emails; [exact I | exact Hmail]|].
  split.
  - destruct (share_loop_appends emails 0 fb_s now db_s) as (added & Hadd & Hall).
    rewrite <- Hdbx, Hid_s in *. exists added. split; [exact Hadd | exact Hall].
  - intros e He.
    destruct (share_loop_established emails 0 fb_s now db_s e He) as (d & H1 & H2 & H3).
    rewrite <- Hdbx, Hid_s in *. exists d. repeat split; assumption.
Qed.

(** A call on a database that already has what the call would write
    returns without changing it. *)
Lemma share_again db1 feedback_id emails user_id now fb1 :
  first (feedback_by_id feedback_id) (Feedbacks db1) = Some fb1 ->
  Feedback.id fb1 = feedback_id ->
  Feedback.status fb1 = sent ->
  Feedback.created_by fb1 = user_id ->
  match emails with
  | [] => True
  | e :: _ => Feedback.developer_email fb1 = Some e
  end ->
  (forall e, In e emails ->
     exists d, first (developer_by_email e) (Developers db1) = Some d /\
               Developer.invited_by_workspace_id d <> None /\
               count_links feedback_id (Developer.id d) db1 <> 0%nat) ->
  exists urls,
    share_feedback_with_developers db1 feedback_id emails user_id now = (Ok urls, db1).
Proof.
  intros Hrow1 Hid1 Hst1 Hcr1 Hmail Hdevs.
  unfold share_feedback_with_developers. rewrite Hrow1, Hcr1, Z.eqb_refl.
  simpl negb. cbv iota.
  rewrite set_status_same by exact Hst1.
  rewrite update_first_fixed, set_Feedbacks_same.
  2:{ intros r Hr. rewrite Hrow1 in Hr. injection Hr as <-.
      now apply set_status_same. }
  destruct (share_loop 0 emails fb1 now db1) as [urls dbx] eqn:Hloop.
  exists urls. f_equal.
  change dbx with (snd (urls, dbx)). rewrite <- Hloop.
  destruct emails as [|e0 rest]; [reflexivity|].
  apply share_loop_fixed.
  - now rewrite Hid1.
  - rewrite Hid1. exact Hdevs.
  - congruence.
  - intros _. left. exact Hmail.
Qed.

(** C7. Take a database in which the links of the feedback are unique per
    developer (the table's unique constraint). When a call of
    [share_feedback_with_developers] has succeeded on it, a second call with
    the same list succeeds as well and leaves the database exactly as the
    first call left it. The two calls have only appended links, each of them
    pending and for this feedback, to the links that were there, which stay
    as they were; after them every address of the list has a developer with
    exactly one link to the feedback, which is either a link that existed
    before the first call, with the status it had, or a pending one. *)
Theorem sharing_twice_never_duplicates db feedback_id emails user_id now1 now2 urls1 db1 :
  share_feedback_with_developers db feedback_id emails user_id now1 = (Ok urls1, db1) ->
  (forall k, (count_links feedback_id k db <= 1)%nat) ->
  exists urls2 db2 added,
    share_feedback_with_developers db1 feedback_id emails user_id now2 = (Ok urls2, db2) /\
    db2 = db1 /\
    FeedbackDevelopers db2 = FeedbackDevelopers db ++ added /\
    Forall (fun l => FeedbackDeveloper.feedback_id l = feedback_id /\
                     FeedbackDeveloper.status l = pending) added /\
    forall e, In e emails ->
      exists d,
        first (developer_by_email e) (Developers db2) = Some d /\
        count_links feedback_id (Developer.id d) db2 = 1%nat /\
        forall l, In l (FeedbackDevelopers db2) ->
                  link_of feedback_id (Developer.id d) l = true ->
                  In l (FeedbackDevelopers db) \/ FeedbackDeveloper.status l = pending.
Proof.
  intros Hfirst Huniq.
  destruct (share_feedback_with_developers_ok _ _ _ _ _ _ _ Hfirst)
    as (_ & fb1 & _ & _ & Hrow1 & Hid1 & Hst1 & Hcr1 & Hmail & Hadded & Hdevs).
  destruct (share_again db1 feedback_id emails user_id now2 fb1)
    as (urls2 & Hagain); try assumption.
  { intros e He. destruct (Hdevs e He) as (d & H1 & H2 & H3).
    exists d. repeat split; try assumption. rewrite H3. lia. }
  destruct Hadded as (added & Hadd & Hall).
  exists urls2, db1, added.
  split; [exact Hagain|]. split; [reflexivity|]. split; [exact Hadd|].
  split; [exact Hall|].
  intros e He. destruct (Hdevs e He) as (d & H1 & _ & H3).
  exists d. split; [exact H1|]. split.
  - rewrite H3. specialize (Huniq (Developer.id d)). lia.
  - intros l Hin _. rewrite Hadd in Hin.
    apply in_app_or in Hin. destruct Hin as [Hin|Hin]; [now left|].
    right. rewrite Forall_forall in Hall. now apply Hall.
Qed.

(** ** Sent feedback *)

Lemma delete_feedback_sent db feedback_id caller f :
  first (feedback_by_id feedback_id) (Feedbacks db) = Some f ->
  Feedback.status f = sent ->
  delete_feedback db feedback_id caller =
    (Raise (if Feedback.created_by f =? caller
            then HTTPException 400 "Cannot delete sent feedback"
            else HTTPException 403 "Only creator can delete feedback"), db).
Proof.
  intros Hf Hs. unfold delete_feedback. rewrite Hf, Hs.
  now destruct (Feedback.created_by f =? caller).
Qed.

Lemma update_feedback_sent db feedback_id data caller f :
  first (feedback_by_id feedback_id) (Feedbacks db) = Some f ->
  Feedback.status f = sent ->
  exists exc,
    update_feedback feedback_id data db caller = (Raise exc, db) /\
    (passes_workspace_check f caller db = true ->
     exc = HTTPException 400 "Cannot update sent feedback") /\
    (passes_workspace_check f caller db = false ->
     exc = HTTPException 403 "No access to feedback" \/
     exc = HTTPException 404 "Workspace not found").
Proof.
  intros Hf Hs. unfold update_feedback, passes_workspace_check. rewrite Hf, Hs.
  destruct (first (workspace_by_id _) (Workspaces db)) as [w|].
  2:{ eexists. split; [reflexivity|]. split; [discriminate|auto]. }
  destruct (Workspace.owner_id w =? caller); simpl.
  { eexists. split; [reflexivity|]. split; [reflexivity|discriminate]. }
  destruct (first (collaborator_in _ _) (Collaborators db)); simpl;
    eexists; (split; [reflexivity|]); split; auto; discriminate.
Qed.

(** C6, as amended. A successful call of [share_feedback_with_developers]
    leaves the feedback in status [sent]. On a feedback in status [sent],
    every call of [update_feedback] and [delete_feedback], by any caller and
    with any data, raises and leaves the database as it is. The exception is
    400 ("Cannot update/delete sent feedback") for a caller who passes the
    check made before the status is looked at (the workspace check for an
    update, being the creator for a delete); any other caller is answered
    403 (404 when the workspace is gone). The two routes behave alike, with
    their own 403 for a caller who is not the creator. *)
Theorem sent_feedback_rejects_changes db feedback_id :
  (forall emails user_id now urls db',
     share_feedback_with_developers db feedback_id emails user_id now = (Ok urls, db') ->
     exists f',
       first (feedback_by_id feedback_id) (Feedbacks db') = Some f' /\
       Feedback.status f' = sent) /\
  (forall f,
     first (feedback_by_id feedback_id) (Feedbacks db) = Some f ->
     Feedback.status f = sent ->
     forall caller data,
       (exists exc,
          update_feedback feedback_id data db caller = (Raise exc, db) /\
          (passes_workspace_check f caller db = true ->
           exc = HTTPException 400 "Cannot update sent feedback") /\
          (passes_workspace_check f caller db = false ->
           exc = HTTPException 403 "No access to feedback" \/
           exc = HTTPException 404 "Workspace not found")) /\
       delete_feedback db feedback_id caller =
         (Raise (if Feedback.created_by f =? caller
                 then HTTPException 400 "Cannot delete sent feedback"
                 else HTTPException 403 "Only creator can delete feedback"), db) /\
       (exists exc,
          update_feedback_route feedback_id data db caller = (Raise exc, db) /\
          (caller = Feedback.created_by f ->
           passes_workspace_check f caller db = true ->
           exc = HTTPException 400 "Cannot update sent feedback") /\
          (caller <> Feedback.created_by f ->
           exc = HTTPException 403 "Not authorized to update this feedback")) /\
       delete_feedback_route feedback_id db caller =
         (Raise (if Feedback.created_by f =? caller
                 then HTTPException 400 "Cannot delete sent feedback"
                 else HTTPException 403 "Not authorized to delete this feedback"), db)).
Proof.
  split.
  { intros emails user_id now urls db' Hshare.
    destruct (share_feedback_with_developers_ok _ _ _ _ _ _ _ Hshare)
      as (_ & f' & _ & _ & Hrow & _ & Hst & _).
    exists f'. now split. }
  intros f Hrow Hst caller data. repeat split.
  - exact (update_feedback_sent db feedback_id data caller f Hrow Hst).
  - exact (delete_feedback_sent db feedback_id caller f Hrow Hst).
  - unfold update_feedback_route. rewrite Hrow.
    destruct (Z.eqb_spec (Feedback.created_by f) caller) as [Heq|Hne]; simpl.
    + destruct (update_feedback_sent db feedback_id data caller f Hrow Hst)
        as (exc & Hexc & Hyes & _).
      exists exc. repeat split; [exact Hexc | intros _; exact Hyes | congruence].
    + eexists. repeat split; congruence.
  - unfold delete_feedback_route. rewrite Hrow.
    destruct (Z.eqb_spec (Feedback.created_by f) caller) as [Heq|Hne]; simpl;
      [|reflexivity].
    rewrite (delete_feedback_sent db feedback_id caller f Hrow Hst).
    apply Z.eqb_eq in Heq. now rewrite Heq.
Qed.

End Sharing.

Example shared_state :
  Feedbacks shared
    = [Feedback.mk 11 "Login button" 1 sent None None None None None 900 (Some dev) 7] /\
  Developers shared = [Developer.mk 1 dev None (Some 7); Developer.mk 2 bob None (Some 7)] /\
  FeedbackDevelopers shared
    = [FeedbackDeveloper.mk 11 1 pending None; FeedbackDeveloper.mk 11 2 pending None].
Proof. repeat split. Qed.

(** C6 as stated fails for a caller who is not entitled in the first place:
    on the sent feedback 11, user 2 is answered 403, not 400, by both
    services. *)
Lemma stranger_is_answered_forbidden :
  option_map Feedback.status (first (feedback_by_id 11) (Feedbacks shared)) = Some sent /\
  delete_feedback shared 11 2
    = (Raise (HTTPException 403 "Only creator can delete feedback"), shared) /\
  update_feedback 11 rename shared 2
    = (Raise (HTTPException 403 "No access to feedback"), shared).
Proof. repeat split. Qed.

Lemma sent_feedback_rejects_changes_witness :
  (exists f', first (feedback_by_id 11) (Feedbacks shared) = Some f' /\
              Feedback.status f' = sent) /\
  delete_feedback shared 11 1
    = (Raise (HTTPException 400 "Cannot delete sent feedback"), shared) /\
  delete_feedback_route 11 shared 2
    = (Raise (HTTPException 403 "Not authorized to delete this feedback"), shared) /\
  exists exc,
    update_feedback 11 rename shared 1 = (Raise exc, shared) /\
    exc = HTTPException 400 "Cannot update sent feedback".
Proof.
  pose proof (sent_feedback_rejects_changes drafted 11) as [Hshare _].
  pose proof (sent_feedback_rejects_changes shared 11) as [_ Hsent].
  specialize (Hshare [dev; bob; dev] 1 2000 _ shared eq_refl).
  specialize (Hsent _ eq_refl eq_refl).
  split; [exact Hshare|].
  split; [exact (proj1 (proj2 (Hsent 1 rename)))|].
  split; [exact (proj2 (proj2 (proj2 (Hsent 2 rename))))|].
  destruct (proj1 (Hsent 1 rename)) as (exc & Hexc & Hyes & _).
  exists exc. split; [exact Hexc | exact (Hyes eq_refl)].
Defined.

Lemma sharing_twice_never_duplicates_witness :
  exists urls2 db2 added,
    share_feedback_with_developers shared 11 [dev; bob; dev] 1 3000 = (Ok urls2, db2) /\
    db2 = shared /\
    FeedbackDevelopers db2 = FeedbackDevelopers drafted ++ added /\
    Forall (fun l => FeedbackDeveloper.feedback_id l = 11 /\
                     FeedbackDeveloper.status l = pending) added /\
    forall e, In e [dev; bob; dev] ->
      exists d,
        first (developer_by_email e) (Developers db2) = Some d /\
        count_links 11 (Developer.id d) db2 = 1%nat /\
        forall l, In l (FeedbackDevelopers db2) ->
                  link_of 11 (Developer.id d) l = true ->
                  In l (FeedbackDevelopers drafted) \/ FeedbackDeveloper.status l = pending.
Proof.
  apply (sharing_twice_never_duplicates drafted 11 [dev; bob; dev] 1 2000 3000
           [(dev, send_feedback_email dev 11 2000);
            (bob, send_feedback_email bob 11 2000);
            (dev, send_feedback_email dev 11 2000)]).
  - reflexivity.
  - intros k. apply Nat.le_0_l.
Defined.

(** C7 on a link that is no longer pending: sharing does not reset it.
    The developer has acknowledged feedback 11; sharing it twice again with
    the same list succeeds both times and leaves one link per developer, but
    the developer's link is still acknowledged, with its time. *)
Lemma reshared_link_stays_acknowledged :
  FeedbackDevelopers acknowledged_by_dev
    = [FeedbackDeveloper.mk 11 1 acknowledged (Some (5000 + 19800));
       FeedbackDeveloper.mk 11 2 pending None] /\
  is_ok (fst (share_feedback_with_developers acknowledged_by_dev 11 [dev; bob; dev] 1 7000))
    = true /\
  is_ok (fst (share_feedback_with_developers
                (snd (share_feedback_with_developers acknowledged_by_dev 11
                        [dev; bob; dev] 1 7000))
                11 [dev; bob; dev] 1 8000)) = true /\
  FeedbackDevelopers
    (snd (share_feedback_with_developers
            (snd (share_feedback_with_developers acknowledged_by_dev 11
                    [dev; bob; dev] 1 7000))
            11 [dev; bob; dev] 1 8000))
    = [FeedbackDeveloper.mk 11 1 acknowledged (Some (5000 + 19800));
       FeedbackDeveloper.mk 11 2 pending None].
Proof. repeat split. Qed.

(** * Properties of the rest of the code *)

(** ** The sign-in functions of the service layer *)

(** X1. The sign-in functions of the service layer never complete. For a
    registered address whose record, if any, is below the resend limit,
    [request_signin_otp] raises the error of the commit that refuses the
    plaintext code and leaves the database as it was. [verify_signin_otp]
    never returns a user: on a record that is neither locked nor expired
    every code, the stored one included, is answered 400 "Incorrect OTP" and
    counted as a failed attempt, exactly as the routes count a wrong code. *)
Theorem signin_services_never_complete :
  (forall email rnd now db u,
     first (user_by_email email) (Users db) = Some u ->
     (forall r, first (otp_by_email email) (OTPs db) = Some r ->
                OTP_Tbl.resend_count r < 3) ->
     request_signin_otp email rnd now db = (Raise StatementError, db)) /\
  (forall email otp now db,
     exists exc, fst (verify_signin_otp email otp now db) = Raise exc) /\
  (forall email otp now db r,
     first (otp_by_email email) (OTPs db) = Some r ->
     not_locked now r -> within_validity now r ->
     verify_signin_otp email otp now db
     = (Raise (HTTPException 400 "Incorrect OTP"),
        set_OTPs db (update_first (otp_by_email email) (count_failed_attempt now)
                       (OTPs db)))).
Proof.
  split; [|split].
  - intros email rnd now db u Hu Hr. unfold request_signin_otp. rewrite Hu.
    destruct (first (otp_by_email email) (OTPs db)) as [r|]; [|reflexivity].
    specialize (Hr r eq_refl).
    destruct (OTP_Tbl.resend_count r >=? 3) eqn:E; [|reflexivity].
    rewrite Z.geb_le in E. lia.
  - intros email otp now db. unfold verify_signin_otp, bytes_ne_str.
    destruct (first (otp_by_email email) (OTPs db)) as [r|]; [|eexists; reflexivity].
    destruct (match OTP_Tbl.locked_until r with Some _ => _ | None => _ end);
      [eexists; reflexivity|].
    destruct (now >? OTP_Tbl.created_at r + minutes 5); eexists; reflexivity.
  - intros email otp now db r Hr Hl Hv. unfold verify_signin_otp, bytes_ne_str.
    rewrite Hr.
    assert (Hl' : match OTP_Tbl.locked_until r with
                  | Some l => now <? l
                  | None => false
                  end = false).
    { unfold not_locked in Hl. destruct (OTP_Tbl.locked_until r) as [l|]; [|reflexivity].
      apply Z.ltb_ge. exact Hl. }
    rewrite Hl'. unfold within_validity in Hv.
    apply gtb_false_le in Hv. rewrite Hv. reflexivity.
Qed.

(** On Ann's address: the request raises, and the stored code itself is
    answered as a wrong one. *)
Example signin_services_on_ann :
  request_signin_otp ann 481516 1000 ann_registered = (Raise StatementError, ann_registered) /\
  verify_signin_otp ann "salt481516" 1060
      (set_OTPs ann_registered [OTP_Tbl.mk ann "salt481516" None 1000 0 1 None])
  = (Raise (HTTPException 400 "Incorrect OTP"),
     set_OTPs ann_registered [OTP_Tbl.mk ann "salt481516" None 1000 1 1 None]).
Proof. split; reflexivity. Qed.

(** ** Sign-in requests *)

Section SigninRequests.
Context {bc : Bcrypt}.
Implicit Types (db : DB) (data : SigninRequest.t) (u : User.t) (r : OTP_Tbl.t).

Lemma signin_request_creates data rnd salt now db u :
  first (user_by_email (SigninRequest.email data)) (Users db) = Some u ->
  first (otp_by_email (SigninRequest.email data)) (OTPs db) = None ->
  signin_request data rnd salt now db =
    (Ok (mkOtpSent "OTP sent to your email" (SigninRequest.email data) (generate_otp rnd)),
     set_OTPs db (OTPs db ++
                  [OTP_Tbl.mk (SigninRequest.email data) (hashpw (generate_otp rnd) salt)
                              None now 0 1 None])).
Proof. intros Hu Hr. unfold signin_request. now rewrite Hu, Hr. Qed.

Lemma signin_request_refreshes data rnd salt now db u r :
  first (user_by_email (SigninRequest.email data)) (Users db) = Some u ->
  first (otp_by_email (SigninRequest.email data)) (OTPs db) = Some r ->
  OTP_Tbl.resend_count r < MAX_OTP_RESEND ->
  signin_request data rnd salt now db =
    (Ok (mkOtpSent "OTP sent to your email" (SigninRequest.email data) (generate_otp rnd)),
     set_OTPs db (update_first (otp_by_email (SigninRequest.email data))
                    (refreshed rnd salt now) (OTPs db))) /\
  first (otp_by_email (SigninRequest.email data))
        (update_first (otp_by_email (SigninRequest.email data))
           (refreshed rnd salt now) (OTPs db))
    = Some (refreshed rnd salt now r).
Proof.
  intros Hu Hr Hn. split.
  - unfold signin_request. rewrite Hu, Hr.
    destruct (OTP_Tbl.resend_count r >=? MAX_OTP_RESEND) eqn:E; [|reflexivity].
    rewrite Z.geb_le in E. lia.
  - rewrite first_update_first, Hr; [reflexivity|]. intros x Hx; exact Hx.
Qed.

Lemma signin_request_each_cons data rnd salt now draws db o db1 :
  signin_request data rnd salt now db = (o, db1) ->
  signin_request_each data ((rnd, salt, now) :: draws) db
  = (o :: fst (signin_request_each data draws db1),
     snd (signin_request_each data draws db1)).
Proof.
  intros H. cbn [signin_request_each]. rewrite H.
  now destruct (signin_request_each data draws db1).
Qed.

Lemma signin_request_each_refused data more : forall db u r,
  first (user_by_email (SigninRequest.email data)) (Users db) = Some u ->
  first (otp_by_email (SigninRequest.email data)) (OTPs db) = Some r ->
  MAX_OTP_RESEND <= OTP_Tbl.resend_count r ->
  signin_request_each data more db =
    (map (fun _ => Raise (HTTPException 429 "OTP resend limit reached.")) more, db).
Proof.
  induction more as [|[[rnd salt] now] more IH]; intros db u r Hu Hr Hn; [reflexivity|].
  simpl. rewrite (signin_request_rate_limited data rnd salt now db u r Hu Hr Hn).
  now rewrite (IH db u r Hu Hr Hn).
Qed.

(** X2. For a registered address without a pending code, three sign-in
    requests in a row are served, the record then has [resend_count = 3],
    and every further request is answered 429 and changes nothing. *)
Theorem signin_request_fourth_refused data db u rnd1 salt1 now1 rnd2 salt2 now2
    rnd3 salt3 now3 :
  first (user_by_email (SigninRequest.email data)) (Users db) = Some u ->
  first (otp_by_email (SigninRequest.email data)) (OTPs db) = None ->
  exists db3,
    signin_request_each data
      [(rnd1, salt1, now1); (rnd2, salt2, now2); (rnd3, salt3, now3)] db
    = (map (fun rnd => Ok (mkOtpSent "OTP sent to your email"
                             (SigninRequest.email data) (generate_otp rnd)))
           [rnd1; rnd2; rnd3], db3) /\
    first (otp_by_email (SigninRequest.email data)) (OTPs db3)
      = Some (OTP_Tbl.mk (SigninRequest.email data) (hashpw (generate_otp rnd3) salt3)
                         None now3 0 3 None) /\
    forall more,
      signin_request_each data more db3 =
        (map (fun _ => Raise (HTTPException 429 "OTP resend limit reached.")) more, db3).
Proof.
  intros Hu Hr. set (email := SigninRequest.email data) in *.
  set (r1 := OTP_Tbl.mk email (hashpw (generate_otp rnd1) salt1) None now1 0 1 None).
  set (db1 := set_OTPs db (OTPs db ++ [r1])).
  assert (Hr1 : first (otp_by_email email) (OTPs db1) = Some r1).
  { simpl. rewrite first_app_r by exact Hr. unfold first; simpl.
    unfold otp_by_email; simpl. now rewrite String.eqb_refl. }
  destruct (signin_request_refreshes data rnd2 salt2 now2 db1 u r1 Hu Hr1)
    as [Hstep2 Hr2]; [unfold MAX_OTP_RESEND; simpl; lia|].
  set (db2 := set_OTPs db1 (update_first (otp_by_email email)
                              (refreshed rnd2 salt2 now2) (OTPs db1))) in *.
  change (first (otp_by_email email) (OTPs db2) = Some (refreshed rnd2 salt2 now2 r1))
    in Hr2.
  destruct (signin_request_refreshes data rnd3 salt3 now3 db2 u _ Hu Hr2)
    as [Hstep3 Hr3]; [unfold MAX_OTP_RESEND; simpl; lia|].
  set (db3 := set_OTPs db2 (update_first (otp_by_email email)
                              (refreshed rnd3 salt3 now3) (OTPs db2))) in *.
  change (first (otp_by_email email) (OTPs db3)
          = Some (refreshed rnd3 salt3 now3 (refreshed rnd2 salt2 now2 r1))) in Hr3.
  exists db3. split; [|split].
  - rewrite (signin_request_each_cons _ _ _ _ _ _ _ _
               (signin_request_creates data rnd1 salt1 now1 db u Hu Hr)).
    fold email r1 db1.
    rewrite (signin_request_each_cons _ _ _ _ _ _ _ _ Hstep2).
    rewrite (signin_request_each_cons _ _ _ _ _ _ _ _ Hstep3).
    reflexivity.
  - exact Hr3.
  - intros more. apply (signin_request_each_refused data more db3 u _ Hu Hr3).
    unfold MAX_OTP_RESEND. simpl. lia.
Qed.

(** X3. A sign-in request that refreshes a record keeps its failure counter
    and its lock: while the old lock lasts, verification on either route
    is answered 403 for every code, the freshly mailed one included. *)
Theorem lock_survives_signin_resend data rnd salt now db u r :
  first (user_by_email (SigninRequest.email data)) (Users db) = Some u ->
  first (otp_by_email (SigninRequest.email data)) (OTPs db) = Some r ->
  OTP_Tbl.resend_count r < MAX_OTP_RESEND ->
  exists db',
    signin_request data rnd salt now db =
      (Ok (mkOtpSent "OTP sent to your email" (SigninRequest.email data)
             (generate_otp rnd)), db') /\
    first (otp_by_email (SigninRequest.email data)) (OTPs db')
      = Some (refreshed rnd salt now r) /\
    OTP_Tbl.attempts (refreshed rnd salt now r) = OTP_Tbl.attempts r /\
    OTP_Tbl.locked_until (refreshed rnd salt now r) = OTP_Tbl.locked_until r /\
    forall a,
      OTP_Tbl.is_locked r (at_time a) = true ->
      verify (SigninRequest.email data) a db' = (Raise too_many_attempts, db').
Proof.
  intros Hu Hr Hn.
  destruct (signin_request_refreshes data rnd salt now db u r Hu Hr Hn) as [Hstep Hr'].
  eexists. split; [exact Hstep|]. split; [exact Hr'|].
  split; [reflexivity|]. split; [reflexivity|].
  intros a Hl. eapply verify_locked; [exact Hr'|exact Hl].
Qed.

(** X4. A sign-in request for an address without a user: without an
    invitation it is answered 404 and changes nothing; with one, a user
    "Invited User" is inserted, already onboarded, and the first invitation
    of the address is linked to it - also when the request itself is then
    refused with 429. *)
Theorem signin_request_provisions data rnd salt now db :
  first (user_by_email (SigninRequest.email data)) (Users db) = None ->
  match first (collaborator_by_email (SigninRequest.email data)) (Collaborators db) with
  | None =>
      signin_request data rnd salt now db =
        (Raise (HTTPException 404 "User not found or not invited."), db)
  | Some invitation =>
      let user := User.mk (fresh_id (map User.id (Users db)))
                          (SigninRequest.email data) "Invited User" true in
      let db' := snd (signin_request data rnd salt now db) in
      Users db' = Users db ++ [user] /\
      first (collaborator_by_email (SigninRequest.email data)) (Collaborators db')
        = Some (Collaborator.set_user_id invitation (Some (User.id user))) /\
      status_code_of (fst (signin_request data rnd salt now db))
        = match first (otp_by_email (SigninRequest.email data)) (OTPs db) with
          | Some r => if OTP_Tbl.resend_count r >=? MAX_OTP_RESEND then 429 else 200
          | None => 200
          end
  end.
Proof.
  intros Hu. unfold signin_request, add_user. rewrite Hu.
  destruct (first (collaborator_by_email _) (Collaborators db)) as [c|] eqn:Hc;
    [|reflexivity].
  cbv zeta. simpl OTPs.
  destruct (first (otp_by_email _) (OTPs db)) as [r|];
    [destruct (OTP_Tbl.resend_count r >=? MAX_OTP_RESEND)|]; simpl;
    (split; [reflexivity|]); (split; [|reflexivity]);
    (rewrite first_update_first, Hc; [reflexivity|]; intros x Hx; exact Hx).
Qed.

End SigninRequests.

Lemma signin_request_fourth_refused_witness :
  exists db3,
    @signin_request_each demo_bcrypt (SigninRequest.mk ann)
      [(111111, "s1", 1000); (222222, "s2", 1010); (333333, "s3", 1020)] ann_registered
    = (map (fun rnd => Ok (mkOtpSent "OTP sent to your email" ann (generate_otp rnd)))
           [111111; 222222; 333333], db3) /\
    first (otp_by_email ann) (OTPs db3)
      = Some (OTP_Tbl.mk ann (@hashpw demo_bcrypt (generate_otp 333333) "s3")
                         None 1020 0 3 None) /\
    forall more,
      @signin_request_each demo_bcrypt (SigninRequest.mk ann) more db3 =
        (map (fun _ => Raise (HTTPException 429 "OTP resend limit reached.")) more, db3).
Proof.
  apply (@signin_request_fourth_refused demo_bcrypt (SigninRequest.mk ann)
           ann_registered (User.mk 1 ann "Ann" false)
           111111 "s1" 1000 222222 "s2" 1010 333333 "s3" 1020).
  - reflexivity.
  - reflexivity.
Defined.

Lemma lock_survives_signin_resend_witness :
  exists db',
    @signin_request demo_bcrypt (SigninRequest.mk ann) 654321 "pepper" 1100 ann_locked_out =
      (Ok (mkOtpSent "OTP sent to your email" ann (generate_otp 654321)), db') /\
    first (otp_by_email ann) (OTPs db')
      = Some (@refreshed demo_bcrypt 654321 "pepper" 1100
                (OTP_Tbl.mk ann "salt481516" None 1000 5 1 (Some (1050 + minutes 30)))) /\
    OTP_Tbl.attempts
      (@refreshed demo_bcrypt 654321 "pepper" 1100
         (OTP_Tbl.mk ann "salt481516" None 1000 5 1 (Some (1050 + minutes 30)))) = 5 /\
    OTP_Tbl.locked_until
      (@refreshed demo_bcrypt 654321 "pepper" 1100
         (OTP_Tbl.mk ann "salt481516" None 1000 5 1 (Some (1050 + minutes 30))))
      = Some (1050 + minutes 30) /\
    forall a,
      OTP_Tbl.is_locked
        (OTP_Tbl.mk ann "salt481516" None 1000 5 1 (Some (1050 + minutes 30)))
        (at_time a) = true ->
      @verify demo_bcrypt ann a db' = (Raise too_many_attempts, db').
Proof.
  apply (@lock_survives_signin_resend demo_bcrypt (SigninRequest.mk ann) 654321 "pepper"
           1100 ann_locked_out (User.mk 1 ann "Ann" false)
           (OTP_Tbl.mk ann "salt481516" None 1000 5 1 (Some (1050 + minutes 30)))).
  - reflexivity.
  - reflexivity.
  - unfold MAX_OTP_RESEND. simpl. lia.
Defined.

Lemma signin_request_provisions_witness :
  let db' := snd (@signin_request demo_bcrypt (SigninRequest.mk ann) 222222 "salt" 1010
                    ann_invited) in
  Users db' = [User.mk 1 ann "Invited User" true] /\
  first (collaborator_by_email ann) (Collaborators db')
    = Some (Collaborator.mk (Some 1) ann "comment" 7 (Some 1)) /\
  status_code_of (fst (@signin_request demo_bcrypt (SigninRequest.mk ann) 222222 "salt"
                         1010 ann_invited)) = 200.
Proof.
  apply (@signin_request_provisions demo_bcrypt (SigninRequest.mk ann) 222222 "salt" 1010
           ann_invited).
  reflexivity.
Defined.

(** ** Text *)

Lemma append_length (a b : string) :
  String.length (a ++ b) = (String.length a + String.length b)%nat.
Proof. induction a as [|c a IH]; simpl; [reflexivity|now rewrite IH]. Qed.

Lemma append_inj_l (a b c : string) : (a ++ b)%string = (a ++ c)%string -> b = c.
Proof. induction a as [|x a IH]; simpl; [auto|]. intros [= H]. auto. Qed.

Lemma append_inj_same_length (a b c d : string) :
  String.length a = String.length b ->
  (a ++ c)%string = (b ++ d)%string -> a = b /\ c = d.
Proof.
  revert b. induction a as [|x a IH]; intros [|y b]; simpl; try discriminate.
  - auto.
  - intros [= Hl] [= -> H]. destruct (IH b Hl H) as [-> ->]. auto.
Qed.

Lemma append_inj_r (a b c : string) : (a ++ c)%string = (b ++ c)%string -> a = b.
Proof.
  intros H. apply (append_inj_same_length a b c c); [|exact H].
  apply (f_equal String.length) in H. rewrite !append_length in H. lia.
Qed.

Lemma decimal_int_str z : decimal_int (str z) = Some z.
Proof.
  unfold decimal_int, str. rewrite NilZero.isi.
  - simpl. now rewrite DecimalZ.of_to.
  - destruct z; simpl; try discriminate.
    intros [= H]. now apply DecimalPos.Unsigned.to_uint_nonnil in H.
  - destruct z; simpl; try discriminate.
    intros [= H]. now apply DecimalPos.Unsigned.to_uint_nonnil in H.
Qed.

Lemma str_inj a b : str a = str b -> a = b.
Proof.
  intros H. apply (f_equal decimal_int) in H.
  rewrite !decimal_int_str in H. now injection H.
Qed.

Lemma str_nonempty z : str z <> EmptyString.
Proof.
  intros H. apply (f_equal decimal_int) in H.
  rewrite decimal_int_str in H. discriminate.
Qed.

Lemma first_exists {A} (p : A -> bool) rows x :
  In x rows -> p x = true -> exists y, first p rows = Some y.
Proof.
  intros Hin Hp. unfold first. destruct (find p rows) eqn:E; [eauto|].
  now rewrite (find_none _ _ E x Hin) in Hp.
Qed.

Lemma first_In {A} (p : A -> bool) rows x : first p rows = Some x -> In x rows.
Proof. unfold first. intros H. now apply find_some in H. Qed.

Lemma delete_first_app_new {A} (p : A -> bool) rows x :
  first p rows = None -> p x = true -> delete_first p (rows ++ [x]) = rows.
Proof.
  unfold first. induction rows as [|r rs IH]; simpl; intros Hn Hp.
  - now rewrite Hp.
  - destruct (p r); [discriminate|]. now rewrite IH.
Qed.

(** ** Bearer tokens *)

Section TokenFacts.
Variable int : string -> option Z.
Hypothesis int_str : forall z, int (str z) = Some z.

Lemma token_of_known_user db (u : User.t) expires_delta issued now :
  In u (Users db) ->
  get_current_user int (create_access_token (str (User.id u)) expires_delta issued) now db
  = if exp (create_access_token (str (User.id u)) expires_delta issued) <? now
    then Refused (HTTPException 401 "Token error")
    else Resolved (User.id u).
Proof.
  intros Hin. unfold get_current_user, jwt_decode.
  destruct (exp _ <? now); [reflexivity|].
  cbn [sub create_access_token]. rewrite int_str.
  destruct (first_exists (user_by_id (User.id u)) (Users db) u Hin) as (y & Hy);
    [apply Z.eqb_refl|].
  rewrite Hy. apply first_holds in Hy. unfold user_by_id in Hy.
  apply Z.eqb_eq in Hy. now rewrite Hy.
Qed.

(** X5. A token issued for the id of a user is resolved by
    [get_current_user] to that id up to and including its expiry time, and
    refused with 401 "Token error" afterwards; for an id without a user the
    answer is 401 "User not found". The expiry time is the one
    [create_access_token] has set: the time of issue plus the given delta,
    or plus 360 minutes when none or a zero one is given. *)
Theorem user_token_round_trip db i expires_delta issued now :
  get_current_user int (create_access_token (str i) expires_delta issued) now db
  = if exp (create_access_token (str i) expires_delta issued) <? now
    then Refused (HTTPException 401 "Token error")
    else match first (user_by_id i) (Users db) with
         | Some _ => Resolved i
         | None => Refused (HTTPException 401 "User not found")
         end.
Proof.
  unfold get_current_user, jwt_decode.
  destruct (exp _ <? now); [reflexivity|].
  cbn [sub create_access_token]. rewrite int_str.
  destruct (first (user_by_id i) (Users db)) as [u|] eqn:Hu; [|reflexivity].
  apply first_holds in Hu. unfold user_by_id in Hu. apply Z.eqb_eq in Hu.
  now rewrite Hu.
Qed.

(** X6. The token in the answer of a successful verification, on either
    route, authenticates its bearer as the user of the verified address, for
    360 minutes from the verification. *)
Theorem verified_token_authenticates {bc : Bcrypt} email a db response db' :
  verify email a db = (Ok response, db') ->
  exists u,
    first (user_by_email email) (Users db') = Some u /\
    forall now,
      get_current_user int (access_token response) now db'
      = if at_time a + minutes 360 <? now
        then Refused (HTTPException 401 "Token error")
        else Resolved (User.id u).
Proof.
  assert (Hres : forall (u : User.t) (db1 : DB) now,
            In u (Users db1) ->
            get_current_user int (create_access_token (str (User.id u)) None (at_time a))
                             now db1
            = if at_time a + minutes 360 <? now
              then Refused (HTTPException 401 "Token error")
              else Resolved (User.id u)).
  { intros u db1 now Hin. rewrite (token_of_known_user db1 u None (at_time a) now Hin).
    reflexivity. }
  unfold verify, signup_verify, signin_verify.
  cbn [OTPVerifyRequest.email OTPVerifyRequest.otp].
  destruct (flow a);
    (destruct (first (otp_by_email email) (OTPs db)) as [r|]; [|discriminate]);
    (destruct (match OTP_Tbl.locked_until r with Some _ => _ | None => _ end);
       [discriminate|]);
    (destruct (_ >? _); [discriminate|]);
    (destruct (negb _); [discriminate|]);
    destruct (first (user_by_email email) (Users db)) as [u|] eqn:Hu;
    try discriminate.
  - intros [= <- <-]. exists u. split; [exact Hu|]. intros now.
    apply Hres. simpl. exact (first_In _ _ _ Hu).
  - unfold add_user. rewrite Hu.
    destruct (OTP_Tbl.full_name r) as [n|]; [|discriminate].
    intros [= <- <-].
    exists (User.mk (fresh_id (map User.id (Users db))) email n false). split.
    + simpl. rewrite first_app_r by exact Hu. unfold first; simpl.
      unfold user_by_email; simpl. rewrite String.eqb_refl. reflexivity.
    + intros now.
      refine (Hres (User.mk (fresh_id (map User.id (Users db))) email n false)
                   _ now _).
      simpl. apply in_or_app. right. now left.
  - intros [= <- <-]. exists u. split; [exact Hu|]. intros now.
    apply Hres. simpl. exact (first_In _ _ _ Hu).
Qed.

(** X7. [get_current_developer] reads a numeric subject as a developer id:
    the token a user receives at sign-in (subject: the user's id) is resolved
    to the developer row with the same id, whatever its address. *)
Theorem user_token_resolves_developer_by_id db i d issued now :
  first (developer_by_id i) (Developers db) = Some d ->
  now <= issued + minutes ACCESS_TOKEN_EXPIRE_MINUTES ->
  get_current_developer int (create_access_token (str i) None issued) now db
  = Resolved d.
Proof.
  intros Hd Hnow. unfold get_current_developer, jwt_decode.
  cbn [exp sub create_access_token].
  destruct (_ <? now) eqn:E; [apply Z.ltb_lt in E; lia|].
  change (sub (create_access_token (str i) None issued)) with (str i).
  destruct (String.eqb_spec (str i) "") as [H|_]; [now apply str_nonempty in H|].
  now rewrite int_str, Hd.
Qed.

End TokenFacts.

Lemma user_token_round_trip_witness :
  get_current_user decimal_int (create_access_token (str 1) None 1000) 22600
                   ann_registered = Resolved 1 /\
  get_current_user decimal_int (create_access_token (str 1) None 1000) 22601
                   ann_registered = Refused (HTTPException 401 "Token error") /\
  get_current_user decimal_int (create_access_token (str 1) (Some 0) 1000) 22600
                   ann_registered = Resolved 1 /\
  get_current_user decimal_int (create_access_token (str 1) (Some 60) 1000) 1061
                   ann_registered = Refused (HTTPException 401 "Token error").
Proof.
  split; [|split; [|split]].
  - rewrite (user_token_round_trip decimal_int decimal_int_str). reflexivity.
  - rewrite (user_token_round_trip decimal_int decimal_int_str). reflexivity.
  - rewrite (user_token_round_trip decimal_int decimal_int_str). reflexivity.
  - rewrite (user_token_round_trip decimal_int decimal_int_str). reflexivity.
Defined.

Lemma verified_token_authenticates_witness :
  exists u,
    first (user_by_email ann)
          (Users (snd (@verify demo_bcrypt ann (mkAttempt Signup "481516" 1060)
                         ann_pending))) = Some u /\
    forall now,
      get_current_user decimal_int
        (mkToken "1" (1060 + minutes 360)) now
        (snd (@verify demo_bcrypt ann (mkAttempt Signup "481516" 1060) ann_pending))
      = if 1060 + minutes 360 <? now
        then Refused (HTTPException 401 "Token error")
        else Resolved (User.id u).
Proof.
  exact (@verified_token_authenticates decimal_int decimal_int_str demo_bcrypt ann
           (mkAttempt Signup "481516" 1060) ann_pending _ _ eq_refl).
Defined.

Lemma user_token_resolves_developer_by_id_witness :
  get_current_developer decimal_int (create_access_token (str 1) None 1000) 2000 shared
  = Resolved (Developer.mk 1 dev None (Some 7)).
Proof.
  apply (user_token_resolves_developer_by_id decimal_int decimal_int_str shared 1).
  - reflexivity.
  - unfold minutes, ACCESS_TOKEN_EXPIRE_MINUTES. lia.
Defined.

(** ** Request, then verify *)

Section RoundTrips.
Context {bc : Bcrypt}.

Lemma signup_verify_new_user data now db r n :
  first (otp_by_email (OTPVerifyRequest.email data)) (OTPs db) = Some r ->
  code_matches data r -> within_validity now r -> not_locked now r ->
  first (user_by_email (OTPVerifyRequest.email data)) (Users db) = None ->
  OTP_Tbl.full_name r = Some n ->
  signup_verify data now db =
    (Ok (mkTokenResponse "Signup successful"
           (create_access_token (str (fresh_id (map User.id (Users db)))) None now)
           "bearer"),
     set_OTPs
       (set_Users db
          (Users db ++ [User.mk (fresh_id (map User.id (Users db)))
                                (OTPVerifyRequest.email data) n false]))
       (delete_first (otp_by_email (OTPVerifyRequest.email data)) (OTPs db))).
Proof.
  intros Hr Hc Hv Hl Hu Hn.
  apply not_locked_iff in Hl. unfold OTP_Tbl.is_locked in Hl.
  apply gtb_false_le in Hv. unfold code_matches in Hc.
  unfold signup_verify, OTP_VALIDITY_MINUTES, add_user.
  now rewrite Hr, Hl, Hv, Hc, Hu, Hn.
Qed.

Lemma signin_verify_known_user data now db r u :
  first (otp_by_email (OTPVerifyRequest.email data)) (OTPs db) = Some r ->
  code_matches data r -> within_validity now r -> not_locked now r ->
  first (user_by_email (OTPVerifyRequest.email data)) (Users db) = Some u ->
  signin_verify data now db =
    (Ok (mkTokenResponse "Login successful"
           (create_access_token (str (User.id u)) None now) "bearer"),
     set_OTPs db (delete_first (otp_by_email (OTPVerifyRequest.email data)) (OTPs db))).
Proof.
  intros Hr Hc Hv Hl Hu.
  apply not_locked_iff in Hl. unfold OTP_Tbl.is_locked in Hl.
  apply gtb_false_le in Hv. unfold code_matches in Hc.
  unfold signin_verify, OTP_VALIDITY_MINUTES. now rewrite Hr, Hl, Hv, Hc, Hu.
Qed.

Lemma first_otp_appended email rows r :
  first (otp_by_email email) rows = None ->
  OTP_Tbl.email r = email ->
  first (otp_by_email email) (rows ++ [r]) = Some r /\
  delete_first (otp_by_email email) (rows ++ [r]) = rows.
Proof.
  intros Hn He.
  assert (Hp : otp_by_email email r = true)
    by (unfold otp_by_email; rewrite He; apply String.eqb_refl).
  split.
  - rewrite first_app_r by exact Hn. unfold first; simpl. now rewrite Hp.
  - now apply delete_first_app_new.
Qed.

(** X8. Sign-up round trip. For an address without a user, a sign-up
    request followed, within five minutes, by a verification with the mailed
    code inserts the user with the name given in the request, not yet
    onboarded, answers with a token for the new id and leaves no OTP record
    for the address. The only assumption on bcrypt is that it accepts the
    hash it has made of this code. *)
Theorem signup_round_trip data rnd salt now1 now2 db :
  first (user_by_email (SignupRequest.email data)) (Users db) = None ->
  checkpw (generate_otp rnd) (hashpw (generate_otp rnd) salt) = true ->
  now2 <= now1 + minutes OTP_VALIDITY_MINUTES ->
  exists sent db1,
    signup_request data rnd salt now1 db = (Ok sent, db1) /\
    let user := User.mk (fresh_id (map User.id (Users db))) (SignupRequest.email data)
                        (SignupRequest.full_name data) false in
    signup_verify (OTPVerifyRequest.mk (SignupRequest.email data) (mailed_otp sent))
                  now2 db1
    = (Ok (mkTokenResponse "Signup successful"
             (mkToken (str (User.id user)) (now2 + minutes 360)) "bearer"),
       set_Users
         (set_OTPs db (delete_all (otp_by_email (SignupRequest.email data)) (OTPs db)))
         (Users db ++ [user])).
Proof.
  intros Hu Hc Hnow. set (email := SignupRequest.email data) in *.
  unfold signup_request. fold email. rewrite Hu.
  do 2 eexists. split; [reflexivity|]. cbv zeta.
  set (fresh := OTP_Tbl.mk email (hashpw (generate_otp rnd) salt)
                  (Some (SignupRequest.full_name data)) now1 0 1 None).
  destruct (first_otp_appended email (delete_all (otp_by_email email) (OTPs db)) fresh)
    as [Hfirst Hdel]; [apply first_delete_all | reflexivity |].
  erewrite (signup_verify_new_user _ now2 _ fresh (SignupRequest.full_name data));
    [| exact Hfirst | exact Hc | exact Hnow | exact I | exact Hu | reflexivity ].
  cbn [OTPVerifyRequest.email OTPs set_OTPs Users]. rewrite Hdel. reflexivity.
Qed.

(** X9. Sign-in round trip. For a registered address without a pending
    code, a sign-in request followed, within five minutes, by a verification
    with the mailed code answers with a token for the user and leaves the
    database exactly as it was before the request. *)
Theorem signin_round_trip data rnd salt now1 now2 db u :
  first (user_by_email (SigninRequest.email data)) (Users db) = Some u ->
  first (otp_by_email (SigninRequest.email data)) (OTPs db) = None ->
  checkpw (generate_otp rnd) (hashpw (generate_otp rnd) salt) = true ->
  now2 <= now1 + minutes OTP_VALIDITY_MINUTES ->
  exists sent db1,
    signin_request data rnd salt now1 db = (Ok sent, db1) /\
    signin_verify (OTPVerifyRequest.mk (SigninRequest.email data) (mailed_otp sent))
                  now2 db1
    = (Ok (mkTokenResponse "Login successful"
             (mkToken (str (User.id u)) (now2 + minutes 360)) "bearer"),
       db).
Proof.
  intros Hu Hr Hc Hnow. set (email := SigninRequest.email data) in *.
  rewrite (signin_request_creates data rnd salt now1 db u Hu Hr). fold email.
  do 2 eexists. split; [reflexivity|].
  set (fresh := OTP_Tbl.mk email (hashpw (generate_otp rnd) salt) None now1 0 1 None).
  destruct (first_otp_appended email (OTPs db) fresh) as [Hfirst Hdel];
    [exact Hr | reflexivity |].
  erewrite (signin_verify_known_user _ now2 _ fresh u);
    [| exact Hfirst | exact Hc | exact Hnow | exact I | exact Hu ].
  cbn [OTPVerifyRequest.email OTPs set_OTPs]. rewrite Hdel. now destruct db.
Qed.

End RoundTrips.

Lemma signup_round_trip_witness :
  exists sent db1,
    @signup_request demo_bcrypt ann_signs_up 481516 "salt" 1000 empty_db
      = (Ok sent, db1) /\
    @signup_verify demo_bcrypt (OTPVerifyRequest.mk ann (mailed_otp sent)) 1300 db1
    = (Ok (mkTokenResponse "Signup successful" (mkToken "1" (1300 + minutes 360))
             "bearer"),
       set_Users empty_db [User.mk 1 ann "Ann" false]).
Proof.
  apply (@signup_round_trip demo_bcrypt ann_signs_up 481516 "salt" 1000 1300 empty_db).
  - reflexivity.
  - reflexivity.
  - unfold minutes, OTP_VALIDITY_MINUTES. lia.
Defined.

Lemma signin_round_trip_witness :
  exists sent db1,
    @signin_request demo_bcrypt (SigninRequest.mk ann) 481516 "salt" 1000 ann_registered
      = (Ok sent, db1) /\
    @signin_verify demo_bcrypt (OTPVerifyRequest.mk ann (mailed_otp sent)) 1300 db1
    = (Ok (mkTokenResponse "Login successful" (mkToken "1" (1300 + minutes 360))
             "bearer"),
       ann_registered).
Proof.
  apply (@signin_round_trip demo_bcrypt (SigninRequest.mk ann) 481516 "salt" 1000 1300
           ann_registered (User.mk 1 ann "Ann" false)).
  - reflexivity.
  - reflexivity.
  - reflexivity.
  - unfold minutes, OTP_VALIDITY_MINUTES. lia.
Defined.

(** ** Subdomains *)

Section Subdomains.
Variable lower : string -> string.
Implicit Types (db : DB) (base : string) (k j : Z).

Lemma subdomain_candidate_inj base j k :
  0 <= j -> 0 <= k ->
  subdomain_candidate base j = subdomain_candidate base k -> j = k.
Proof.
  assert (Hzero : forall n, (base ++ ".feedback.com")%string
                            <> (base ++ str n ++ ".feedback.com")%string).
  { intros n H. apply append_inj_l in H.
    apply (f_equal String.length) in H. rewrite append_length in H.
    assert (String.length (str n) = 0%nat) by lia.
    destruct (str n) eqn:E; [now apply str_nonempty in E | discriminate]. }
  intros Hj Hk. unfold subdomain_candidate.
  destruct (Z.eqb_spec j 0) as [->|Hj0]; destruct (Z.eqb_spec k 0) as [->|Hk0].
  - reflexivity.
  - intros H. now apply Hzero in H.
  - intros H. symmetry in H. now apply Hzero in H.
  - intros H. apply append_inj_l, append_inj_r in H. now apply str_inj.
Qed.

Lemma subdomain_candidate_next base k :
  0 <= k ->
  (base ++ str (k + 1) ++ ".feedback.com")%string = subdomain_candidate base (k + 1).
Proof.
  intros Hk. unfold subdomain_candidate.
  destruct (Z.eqb_spec (k + 1) 0); [lia|reflexivity].
Qed.

Lemma next_free_subdomain_ext base fuel : forall k db db',
  0 <= k ->
  (forall j, k <= j ->
     subdomain_taken (subdomain_candidate base j) db
     = subdomain_taken (subdomain_candidate base j) db') ->
  next_free_subdomain fuel base (subdomain_candidate base k) (k + 1) db
  = next_free_subdomain fuel base (subdomain_candidate base k) (k + 1) db'.
Proof.
  induction fuel as [|fuel IH]; intros k db db' Hk Hsame; [reflexivity|].
  simpl. pose proof (Hsame k (Z.le_refl k)) as Hhere.
  unfold subdomain_taken in Hhere.
  destruct (first _ (Workspaces db)); destruct (first _ (Workspaces db'));
    try discriminate; [|reflexivity].
  rewrite subdomain_candidate_next by exact Hk.
  apply IH; [lia|]. intros j Hj. apply Hsame. lia.
Qed.

Lemma filter_out_shorter {A} (q : A -> bool) rows x :
  first q rows = Some x ->
  (List.length (filter (fun r => negb (q r)) rows) < List.length rows)%nat.
Proof.
  unfold first. induction rows as [|r rs IH]; simpl; [discriminate|].
  destruct (q r) eqn:E; simpl.
  - intros _. pose proof (filter_length_le (fun r => negb (q r)) rs). lia.
  - intros H. apply IH in H. lia.
Qed.

Lemma first_filter_out {A} (p q : A -> bool) rows :
  (forall r, p r = true -> q r = false) ->
  first p (filter (fun r => negb (q r)) rows) = first p rows.
Proof.
  intros H. unfold first. induction rows as [|r rs IH]; simpl; [reflexivity|].
  destruct (p r) eqn:Hp.
  - rewrite (H r Hp). simpl. now rewrite Hp.
  - destruct (q r); simpl; [exact IH|]. now rewrite Hp.
Qed.

Lemma next_free_subdomain_found base fuel : forall db k,
  0 <= k ->
  (List.length (Workspaces db) < fuel)%nat ->
  exists j,
    k <= j /\
    next_free_subdomain fuel base (subdomain_candidate base k) (k + 1) db
      = Some (subdomain_candidate base j) /\
    subdomain_taken (subdomain_candidate base j) db = false /\
    forall i, k <= i < j -> subdomain_taken (subdomain_candidate base i) db = true.
Proof.
  induction fuel as [|fuel IH]; intros db k Hk Hlen; [lia|].
  simpl. unfold subdomain_taken.
  destruct (first (workspace_by_subdomain (subdomain_candidate base k)) (Workspaces db))
    as [w|] eqn:Hw.
  2:{ exists k. repeat split; [lia | now rewrite Hw | intros i Hi; lia]. }
  set (db' := set_Workspaces db
                (filter (fun r => negb (workspace_by_subdomain
                                          (subdomain_candidate base k) r))
                        (Workspaces db))).
  assert (Hsame : forall j, k + 1 <= j ->
            subdomain_taken (subdomain_candidate base j) db
            = subdomain_taken (subdomain_candidate base j) db').
  { intros j Hj. unfold subdomain_taken, db'. simpl Workspaces.
    rewrite first_filter_out; [reflexivity|].
    intros r Hr. unfold workspace_by_subdomain in *.
    apply String.eqb_eq in Hr. apply String.eqb_neq. rewrite Hr.
    intros H. apply subdomain_candidate_inj in H; lia. }
  destruct (IH db' (k + 1)) as (j & Hj & Hrun & Hfree & Hmin); [lia| |].
  { unfold db'. simpl Workspaces. pose proof (filter_out_shorter _ _ _ Hw). lia. }
  exists j. rewrite subdomain_candidate_next by exact Hk.
  rewrite (next_free_subdomain_ext base fuel (k + 1) db db') by (auto; lia).
  split; [lia|]. split; [exact Hrun|]. split.
  - fold (subdomain_taken (subdomain_candidate base j) db).
    rewrite Hsame by lia. exact Hfree.
  - intros i Hi. fold (subdomain_taken (subdomain_candidate base i) db).
    destruct (Z.eq_dec i k) as [->|Hne].
    + unfold subdomain_taken. now rewrite Hw.
    + rewrite Hsame by lia. apply Hmin. lia.
Qed.

Lemma generate_subdomain_candidate name db :
  let base := remove_spaces (lower name) in
  exists k,
    0 <= k /\
    generate_subdomain lower name db = subdomain_candidate base k /\
    subdomain_taken (subdomain_candidate base k) db = false /\
    forall i, 0 <= i < k -> subdomain_taken (subdomain_candidate base i) db = true.
Proof.
  intros base.
  destruct (next_free_subdomain_found base (S (List.length (Workspaces db))) db 0)
    as (k & Hk & Hrun & Hfree & Hmin); [lia | lia |].
  exists k. split; [exact Hk|]. split; [|split; [exact Hfree|exact Hmin]].
  unfold generate_subdomain, generate_subdomain_within. fold base.
  change (base ++ ".feedback.com")%string with (subdomain_candidate base 0).
  change 1 with (0 + 1). now rewrite Hrun.
Qed.

(** X10. The loop of [generate_subdomain] ends after at most one test more
    than there are workspaces, whatever the name: it returns the first of
    the candidates "base.feedback.com", "base1.feedback.com",
    "base2.feedback.com", ... that no workspace has, where base is the
    lower-cased name without its spaces. *)
Theorem generate_subdomain_terminates name db :
  let base := remove_spaces (lower name) in
  exists k,
    0 <= k /\
    generate_subdomain lower name db = subdomain_candidate base k /\
    subdomain_taken (subdomain_candidate base k) db = false /\
    (forall i, 0 <= i < k -> subdomain_taken (subdomain_candidate base i) db = true) /\
    forall fuel,
      (List.length (Workspaces db) < fuel)%nat ->
      generate_subdomain_within lower fuel name db = Some (subdomain_candidate base k).
Proof.
  intros base.
  destruct (generate_subdomain_candidate name db) as (k & Hk & Hrun & Hfree & Hmin).
  fold base in Hrun, Hfree, Hmin.
  exists k. split; [exact Hk|]. split; [exact Hrun|split; [exact Hfree|split; [exact Hmin|]]].
  - intros fuel Hfuel.
    destruct (next_free_subdomain_found base fuel db 0)
      as (k' & Hk' & Hrun' & Hfree' & Hmin'); [lia | exact Hfuel |].
    unfold generate_subdomain_within. fold base.
    change (base ++ ".feedback.com")%string with (subdomain_candidate base 0).
    change 1 with (0 + 1). rewrite Hrun'. do 2 f_equal.
    destruct (Z.lt_trichotomy k k') as [Hlt|[Heq|Hgt]]; [|exact (eq_sym Heq)|].
    + rewrite (Hmin' k) in Hfree by lia. discriminate.
    + rewrite (Hmin k') in Hfree' by lia. discriminate.
Qed.

End Subdomains.

(** ** Suggestions for a taken name *)

Lemma mem_In x l : mem x l = true <-> In x l.
Proof.
  unfold mem. rewrite existsb_exists. split.
  - intros (y & Hy & He). apply String.eqb_eq in He. now subst.
  - intros H. exists x. split; [exact H | apply String.eqb_refl].
Qed.

Lemma good_suggestions_add name db l suffix :
  good_suggestions name db l ->
  ~ In (name ++ "_" ++ suffix)%string l ->
  name_taken (name ++ "_" ++ suffix)%string db = false ->
  good_suggestions name db (l ++ [(name ++ "_" ++ suffix)%string]).
Proof.
  intros [Hnd Hall] Hnew Hfree. split.
  - apply NoDup_app; [exact Hnd | repeat constructor; intros [] |].
    intros x Hx [<-|[]]. contradiction.
  - intros s Hs. apply in_app_or in Hs. destruct Hs as [Hs|[<-|[]]]; [auto|].
    split; [exact Hfree | eauto].
Qed.

Lemma suffix_suggestions_good name db count suffixes : forall suggestions used,
  NoDup suffixes ->
  good_suggestions name db suggestions ->
  (forall s, In s suggestions ->
     exists suffix, s = (name ++ "_" ++ suffix)%string /\ ~ In suffix suffixes) ->
  (List.length suggestions < count)%nat ->
  let result := fst (suffix_suggestions suffixes name db count suggestions used) in
  good_suggestions name db result /\ (List.length result <= count)%nat.
Proof.
  induction suffixes as [|suffix rest IH]; intros suggestions used Hnd Hgood Hold Hlen.
  { cbv zeta. simpl. split; [exact Hgood | lia]. }
  cbv zeta. cbn [suffix_suggestions].
  inversion Hnd as [|? ? Hnotin Hnd']; subst.
  assert (Hfresh : ~ In (name ++ "_" ++ suffix)%string suggestions).
  { intros Hin. destruct (Hold _ Hin) as (s' & Heq & Hs').
    apply append_inj_l in Heq. injection Heq as Heq. subst s'.
    apply Hs'. now left. }
  destruct (negb (mem _ used) && negb (name_taken _ db)) eqn:Hadd.
  - apply andb_true_iff in Hadd. destruct Hadd as [_ Hfree].
    apply negb_true_iff in Hfree.
    pose proof (good_suggestions_add name db suggestions suffix Hgood Hfresh Hfree)
      as Hgood'.
    destruct (Nat.leb_spec count (List.length (suggestions ++ [(name ++ "_" ++ suffix)%string])))
      as [Hge|Hlt].
    + cbn [fst]. split; [exact Hgood'|]. rewrite length_app in *. simpl in *. lia.
    + apply IH; try assumption.
      intros s Hs. apply in_app_or in Hs. destruct Hs as [Hs|[<-|[]]].
      * destruct (Hold _ Hs) as (s' & Heq & Hs'). exists s'. split; [exact Heq|].
        intros Hin. apply Hs'. now right.
      * exists suffix. split; [reflexivity | exact Hnotin].
  - destruct (Nat.leb_spec count (List.length suggestions)) as [Hge|Hlt]; [lia|].
    apply IH; try assumption.
    intros s Hs. destruct (Hold _ Hs) as (s' & Heq & Hs'). exists s'.
    split; [exact Heq|]. intros Hin. apply Hs'. now right.
Qed.

Lemma random_suggestions_good name db count draws : forall suggestions result,
  good_suggestions name db suggestions ->
  (List.length suggestions <= count)%nat ->
  random_suggestions draws name db count suggestions = Some result ->
  good_suggestions name db result /\ List.length result = count.
Proof.
  induction draws as [|draw draws IH]; intros suggestions result Hgood Hlen;
    cbn [random_suggestions];
    destruct (Nat.leb_spec count (List.length suggestions)) as [Hge|Hlt].
  - intros [= <-]. split; [exact Hgood | lia].
  - discriminate.
  - intros [= <-]. split; [exact Hgood | lia].
  - destruct (negb (mem _ suggestions) && negb (name_taken _ db)) eqn:Hadd.
    + apply andb_true_iff in Hadd. destruct Hadd as [Hnew Hfree].
      apply negb_true_iff in Hnew, Hfree.
      apply IH.
      * apply good_suggestions_add; [exact Hgood | | exact Hfree].
        intros Hin. apply mem_In in Hin. congruence.
      * rewrite length_app. simpl. lia.
    + now apply IH.
Qed.

(** X11. Whenever [suggest_alternate_names] returns, for a count of at least
    one, it returns exactly [count] alternatives of the form name_suffix,
    all different, none of which is the name of a workspace. *)
Theorem suggest_alternate_names_good name db count draws result :
  (1 <= count)%nat ->
  suggest_alternate_names name db count draws = Some result ->
  List.length result = count /\ good_suggestions name db result.
Proof.
  intros Hcount. unfold suggest_alternate_names.
  destruct (suffix_suggestions FRIENDLY_SUFFIXES name db count [] []) as [l used] eqn:Hfor.
  destruct (suffix_suggestions_good name db count FRIENDLY_SUFFIXES [] [])
    as [Hgood Hlen].
  - unfold FRIENDLY_SUFFIXES.
    repeat (constructor; [simpl; intuition discriminate|]). constructor.
  - split; [constructor | intros s []].
  - intros s [].
  - simpl. lia.
  - rewrite Hfor in Hgood, Hlen. cbn [fst] in Hgood, Hlen.
    intros H. destruct (random_suggestions_good _ _ _ _ _ _ Hgood Hlen H). auto.
Qed.

Lemma suggest_alternate_names_good_witness :
  List.length ["Acme_hub"; "Acme_space"; "Acme_team"; "Acme_studio"; "Acme_hq"] = 5%nat /\
  good_suggestions "Acme" drafted
    ["Acme_hub"; "Acme_space"; "Acme_team"; "Acme_studio"; "Acme_hq"].
Proof.
  apply (suggest_alternate_names_good "Acme" drafted 5 []).
  - lia.
  - reflexivity.
Defined.

(** ** Workspaces and onboarding *)

Section WorkspaceFacts.
Variable lower : string -> string.

Lemma append_assoc (a b c : string) : ((a ++ b) ++ c)%string = (a ++ b ++ c)%string.
Proof. induction a as [|x a IH]; simpl; [reflexivity|now rewrite IH]. Qed.

Lemma NoDup_map_app_new {A B} (f : A -> B) rows x :
  NoDup (map f rows) -> (forall r, In r rows -> f r <> f x) ->
  NoDup (map f (rows ++ [x])).
Proof.
  intros Hnd Hnew. rewrite map_app. apply NoDup_app; [exact Hnd | |].
  - simpl. repeat constructor. intros [].
  - intros y Hy [<-|[]]. apply in_map_iff in Hy. destruct Hy as (r & Hr & Hin).
    now apply (Hnew r Hin).
Qed.

Lemma first_none_all {A} (p : A -> bool) rows :
  first p rows = None -> forall r, In r rows -> p r = false.
Proof. unfold first. intros H r Hr. exact (find_none _ _ H r Hr). Qed.

Lemma create_workspace_created data user draws db w subdomain invites db' :
  create_workspace lower data user draws db = Some (Created w subdomain invites, db') ->
  let name := WorkspaceCreate.workspace_name data in
  let emails := match WorkspaceCreate.collaborators data with
                | Some l => l | None => [] end in
  first (workspace_by_name name) (Workspaces db) = None /\
  subdomain = generate_subdomain lower name db /\
  w = Workspace.mk (fresh_id (map Workspace.id (Workspaces db))) name subdomain
                   (User.id user) /\
  invites = map (fun email => mkInviteMail email name (User.full_name user) subdomain)
                emails /\
  db' = set_Collaborators (set_Workspaces db (Workspaces db ++ [w]))
          (Collaborators db ++
           map (fun email =>
                  Collaborator.mk
                    (option_map User.id (first (user_by_email email) (Users db)))
                    email "comment" (Workspace.id w) (Some (User.id user)))
               emails).
Proof.
  unfold create_workspace.
  destruct (first (workspace_by_name _) (Workspaces db)) eqn:Hname.
  - destruct (suggest_alternate_names _ db 5 draws); discriminate.
  - cbv zeta. intros [= <- <- <- <-]. repeat split.
Qed.

(** X12. [create_workspace], case by case. For a name that a workspace
    already has, it changes nothing and answers with the suggestions (or is
    still drawing them). Otherwise it appends one workspace with that name,
    owned by the user, under a subdomain no workspace had; names and
    subdomains that were unique stay unique; one collaborator row with
    access "comment" is appended per invited address, and one invitation is
    returned for each. *)
Theorem create_workspace_cases data user draws db :
  let name := WorkspaceCreate.workspace_name data in
  let emails := match WorkspaceCreate.collaborators data with
                | Some l => l | None => [] end in
  match create_workspace lower data user draws db with
  | None => name_taken name db = true /\ suggest_alternate_names name db 5 draws = None
  | Some (NameTaken _ suggestions, db') =>
      name_taken name db = true /\ db' = db /\
      suggest_alternate_names name db 5 draws = Some suggestions
  | Some (Created w subdomain invites, db') =>
      name_taken name db = false /\
      w = Workspace.mk (fresh_id (map Workspace.id (Workspaces db))) name subdomain
                       (User.id user) /\
      subdomain_taken subdomain db = false /\
      Workspaces db' = Workspaces db ++ [w] /\
      (NoDup (map Workspace.name (Workspaces db)) ->
       NoDup (map Workspace.name (Workspaces db'))) /\
      (NoDup (map Workspace.subdomain (Workspaces db)) ->
       NoDup (map Workspace.subdomain (Workspaces db'))) /\
      (exists added,
         Collaborators db' = Collaborators db ++ added /\
         map Collaborator.user_email added = emails /\
         Forall (fun c => Collaborator.access_type c = "comment" /\
                          Collaborator.workspace_id c = Workspace.id w) added) /\
      map invite_to invites = emails
  end.
Proof.
  intros name emails.
  destruct (create_workspace lower data user draws db) as [[[w s inv|m l] db']|] eqn:Hrun.
  - apply create_workspace_created in Hrun. cbv zeta in Hrun. fold name emails in Hrun.
    destruct Hrun as (Hname & Hs & Hw & Hinv & Hdb).
    destruct (generate_subdomain_candidate lower name db) as (k & _ & Hsub & Hfree & _).
    rewrite <- Hsub, <- Hs in Hfree.
    split; [unfold name_taken; now rewrite Hname|]. split; [exact Hw|].
    split; [exact Hfree|]. rewrite Hdb. simpl Workspaces. simpl Collaborators.
    split; [reflexivity|]. split; [|split; [|split]].
    + intros Hnd. apply NoDup_map_app_new; [exact Hnd|].
      intros r Hr. rewrite Hw. simpl. pose proof (first_none_all _ _ Hname r Hr) as H.
      unfold workspace_by_name in H. now apply String.eqb_neq in H.
    + intros Hnd. apply NoDup_map_app_new; [exact Hnd|].
      intros r Hr. rewrite Hw. simpl. unfold subdomain_taken in Hfree.
      destruct (first (workspace_by_subdomain s) (Workspaces db)) eqn:Hf; [discriminate|].
      pose proof (first_none_all _ _ Hf r Hr) as H.
      unfold workspace_by_subdomain in H. now apply String.eqb_neq in H.
    + eexists. split; [reflexivity|]. split.
      * rewrite map_map. simpl. apply map_id.
      * apply Forall_map, Forall_forall. intros e _. split; reflexivity.
    + rewrite Hinv, map_map. simpl. apply map_id.
  - unfold create_workspace in Hrun. fold name in Hrun. unfold name_taken.
    destruct (first (workspace_by_name name) (Workspaces db)); [|discriminate].
    destruct (suggest_alternate_names name db 5 draws); [|discriminate].
    injection Hrun as _ <- <-. repeat split.
  - unfold create_workspace in Hrun. fold name in Hrun. unfold name_taken.
    destruct (first (workspace_by_name name) (Workspaces db)); [|discriminate].
    destruct (suggest_alternate_names name db 5 draws); [discriminate|].
    split; reflexivity.
Qed.

(** X13. After a successful onboarding the user is marked onboarded, so a
    second onboarding of the same user, whatever the name, is answered 400
    and changes nothing; the workspace of the first one is in the table,
    owned by that user. *)
Theorem onboard_user_once data draws db current_user_id id name subdomain db' :
  onboard_user lower data draws db current_user_id
    = Some (Onboarded id name subdomain, db') ->
  In (Workspace.mk id name subdomain current_user_id) (Workspaces db') /\
  forall data' draws',
    onboard_user lower data' draws' db' current_user_id
    = Some (OnboardRefused (HTTPException 400 "User already onboarded"), db').
Proof.
  unfold onboard_user at 1.
  destruct (first (user_by_id current_user_id) (Users db)) as [u|] eqn:Hu;
    [|discriminate].
  destruct (User.onboarded u) eqn:Hon; [discriminate|].
  destruct (create_workspace lower data u draws db) as [[[w s inv|m l] db1]|] eqn:Hrun;
    try discriminate.
  apply create_workspace_created in Hrun. cbv zeta in Hrun.
  destruct Hrun as (_ & _ & Hw & _ & Hdb).
  pose proof (first_holds _ _ _ Hu) as Hid. unfold user_by_id in Hid.
  apply Z.eqb_eq in Hid.
  intros [= <- <- <- <-]. split.
  - rewrite Hdb. simpl. apply in_or_app. right. left.
    rewrite <- Hid. destruct w. simpl in *. congruence.
  - intros data' draws'. unfold onboard_user. rewrite Hdb. simpl Users.
    rewrite first_update_first by (intros r Hr; exact Hr).
    rewrite Hu. reflexivity.
Qed.

(** X14. A workspace that [create_workspace] has just made is the one
    [dashboard] shows under its subdomain: the subdomain handed out is
    host.feedback.com for some host, and a request under that host is
    answered with the new workspace, unless the host is empty (a name of
    spaces only), which [dashboard] answers 400. *)
Theorem dashboard_shows_created data user draws db w subdomain invites db' :
  create_workspace lower data user draws db = Some (Created w subdomain invites, db') ->
  exists host,
    subdomain = (host ++ ".feedback.com")%string /\
    dashboard (Some host) db'
    = if String.eqb host ""
      then Raise (HTTPException 400 "Subdomain not found in request")
      else Ok (Workspace.id w, WorkspaceCreate.workspace_name data, host).
Proof.
  intros Hrun. apply create_workspace_created in Hrun. cbv zeta in Hrun.
  destruct Hrun as (_ & Hs & Hw & _ & Hdb).
  destruct (generate_subdomain_candidate lower (WorkspaceCreate.workspace_name data) db)
    as (k & _ & Hsub & Hfree & _). cbv zeta in Hsub, Hfree.
  rewrite <- Hs in Hsub. rewrite <- Hsub in Hfree.
  set (base := remove_spaces (lower (WorkspaceCreate.workspace_name data))) in *.
  exists (if Z.eqb k 0 then base else (base ++ str k)%string).
  assert (Hhost : subdomain
            = ((if Z.eqb k 0 then base else (base ++ str k)%string) ++ ".feedback.com")%string).
  { rewrite Hsub. unfold subdomain_candidate.
    destruct (k =? 0); [reflexivity | now rewrite append_assoc]. }
  split; [exact Hhost|].
  unfold dashboard. rewrite <- Hhost.
  assert (Hfind : first (workspace_by_subdomain subdomain) (Workspaces db') = Some w).
  { rewrite Hdb. simpl Workspaces. unfold subdomain_taken in Hfree.
    destruct (first (workspace_by_subdomain subdomain) (Workspaces db)) eqn:Hf;
      [discriminate|].
    rewrite (first_app_r _ _ _ Hf). unfold first. simpl.
    unfold workspace_by_subdomain. rewrite Hw at 1. simpl.
    now rewrite String.eqb_refl. }
  rewrite Hfind.
  destruct (if Z.eqb k 0 then base else (base ++ str k)%string) eqn:Hh; simpl.
  - reflexivity.
  - rewrite Hw. reflexivity.
Qed.

End WorkspaceFacts.

Lemma onboard_user_once_witness :
  In (Workspace.mk 1 "Ann Co" "annco.feedback.com" 1)
     (Workspaces (set_Users
        (set_Workspaces ann_registered [Workspace.mk 1 "Ann Co" "annco.feedback.com" 1])
        [User.mk 1 ann "Ann" true])) /\
  forall data' draws',
    onboard_user ascii_lower data' draws'
      (set_Users
        (set_Workspaces ann_registered [Workspace.mk 1 "Ann Co" "annco.feedback.com" 1])
        [User.mk 1 ann "Ann" true]) 1
    = Some (OnboardRefused (HTTPException 400 "User already onboarded"),
            set_Users
              (set_Workspaces ann_registered
                 [Workspace.mk 1 "Ann Co" "annco.feedback.com" 1])
              [User.mk 1 ann "Ann" true]).
Proof.
  apply (onboard_user_once ascii_lower (WorkspaceCreate.mk "Ann Co" None) []
           ann_registered 1).
  reflexivity.
Defined.

Lemma dashboard_shows_created_witness :
  exists host,
    "acme1.feedback.com" = (host ++ ".feedback.com")%string /\
    dashboard (Some host)
      (set_Workspaces drafted
         (Workspaces drafted ++ [Workspace.mk 8 "ac ME" "acme1.feedback.com" 2]))
    = if String.eqb host ""
      then Raise (HTTPException 400 "Subdomain not found in request")
      else Ok (8, "ac ME", host).
Proof.
  apply (dashboard_shows_created ascii_lower (WorkspaceCreate.mk "ac ME" None)
           (User.mk 2 "cat@example.com" "Cat" true) [] drafted
           (Workspace.mk 8 "ac ME" "acme1.feedback.com" 2) "acme1.feedback.com" []).
  reflexivity.
Defined.

(** ** Developers after a share *)

Lemma filter_update_first_length {A} (p q : A -> bool) f rows :
  (forall x, q (f x) = q x) ->
  List.length (filter q (update_first p f rows)) = List.length (filter q rows).
Proof.
  intros Hq. induction rows as [|r rs IH]; simpl; [reflexivity|].
  destruct (p r); simpl.
  - rewrite Hq. now destruct (q r).
  - destruct (q r); simpl; now rewrite IH.
Qed.

Lemma share_loop_urls emails : forall idx fb now db,
  fst (share_loop idx emails fb now db)
  = map (fun e => (e, send_feedback_email e (Feedback.id fb) now)) emails.
Proof.
  induction emails as [|e rest IH]; intros idx fb now db; [reflexivity|].
  rewrite share_loop_cons. cbv zeta. cbn [fst map].
  destruct (find_or_create_developer e fb db) as [d db1]. cbn [fst snd].
  destruct (save_developer_email idx e fb db1) as [fb2 db2] eqn:Hsave. cbn [fst snd].
  destruct (save_developer_email_frame _ _ _ _ _ _ Hsave) as (_ & _ & Hid & _).
  rewrite IH, Hid. reflexivity.
Qed.

Lemma share_feedback_with_developers_urls db feedback_id emails user_id now urls db1 :
  share_feedback_with_developers db feedback_id emails user_id now = (Ok urls, db1) ->
  urls = map (fun e => (e, send_feedback_email e feedback_id now)) emails.
Proof.
  unfold share_feedback_with_developers.
  destruct (first (feedback_by_id feedback_id) (Feedbacks db)) as [fb|] eqn:Hfb;
    [|discriminate].
  destruct (negb _); [discriminate|].
  pose proof (share_loop_urls emails 0 (Feedback.set_status fb sent) now
                (set_Feedbacks db
                   (update_first (feedback_by_id feedback_id)
                      (fun f => Feedback.set_status f sent) (Feedbacks db)))) as Hurls.
  destruct (share_loop 0 emails _ now _) as [urls' dbx].
  intros [= <- <-]. cbn [fst] in Hurls. rewrite Hurls.
  apply first_holds in Hfb. unfold feedback_by_id in Hfb. apply Z.eqb_eq in Hfb.
  simpl. now rewrite Hfb.
Qed.

Lemma linked_after_share db feedback_id emails user_id now urls db1 e :
  share_feedback_with_developers db feedback_id emails user_id now = (Ok urls, db1) ->
  In e emails ->
  exists d l fb1,
    first (developer_by_email e) (Developers db1) = Some d /\
    first (link_of feedback_id (Developer.id d)) (FeedbackDevelopers db1) = Some l /\
    first (feedback_by_id feedback_id) (Feedbacks db1) = Some fb1 /\
    Feedback.id fb1 = feedback_id /\ Feedback.status fb1 = sent /\
    In fb1 (get_assigned_feedbacks db1 d).
Proof.
  intros Hshare He.
  destruct (share_feedback_with_developers_ok _ _ _ _ _ _ _ Hshare)
    as (fb & fb1 & _ & _ & Hrow & Hid & Hst & _ & _ & _ & Hdevs).
  destruct (Hdevs e He) as (d & Hd & _ & Hcount).
  destruct (first (link_of feedback_id (Developer.id d)) (FeedbackDevelopers db1))
    as [l|] eqn:Hl.
  - exists d, l, fb1. repeat split; try assumption.
    unfold get_assigned_feedbacks. apply in_flat_map. exists l.
    pose proof (first_holds _ _ _ Hl) as Hp. unfold link_of in Hp.
    apply andb_true_iff in Hp. destruct Hp as [Hf Hk].
    split.
    + unfold all. apply filter_In. split; [exact (first_In _ _ _ Hl) | exact Hk].
    + apply Z.eqb_eq in Hf. rewrite Hf, Hrow. now left.
  - apply first_none_count in Hl. unfold count_links, all in Hcount. lia.
Qed.

(** X15. Once a feedback has been shared, every developer named in the
    share can act on it: any of the three status values is accepted, the
    developer's link then carries that status and the time of the action
    (at UTC+05:30), and neither the feedback rows nor the number of links of
    any pair change. *)
Theorem shared_developer_can_act db feedback_id emails user_id now urls db1 e action s
    now' :
  share_feedback_with_developers db feedback_id emails user_id now = (Ok urls, db1) ->
  In e emails ->
  FeedbackDeveloperStatus_of_value action = Some s ->
  exists d l db2,
    handle_developer_action db1 feedback_id e action now'
      = (Ok ("Feedback marked as '" ++ action ++ "' by " ++ e)%string, db2) /\
    first (developer_by_email e) (Developers db2) = Some d /\
    first (link_of feedback_id (Developer.id d)) (FeedbackDevelopers db2) = Some l /\
    FeedbackDeveloper.status l = s /\
    FeedbackDeveloper.action_time l = Some (now' + minutes 330) /\
    Feedbacks db2 = Feedbacks db1 /\
    forall f k, count_links f k db2 = count_links f k db1.
Proof.
  intros Hshare He Hs.
  destruct (linked_after_share _ _ _ _ _ _ _ e Hshare He)
    as (d & l & _ & Hd & Hl & _).
  unfold handle_developer_action. rewrite Hd, Hl, Hs.
  exists d. eexists. eexists. split; [reflexivity|]. simpl.
  split; [exact Hd|]. split.
  - rewrite first_update_first, Hl; [reflexivity|]. intros r Hr; exact Hr.
  - split; [reflexivity|]. split; [reflexivity|]. split; [reflexivity|].
    intros f k. unfold count_links, all. simpl.
    apply filter_update_first_length. intros x. reflexivity.
Qed.

Lemma shared_developer_can_act_witness :
  exists d l db2,
    handle_developer_action shared 11 bob "unclear" 5000
      = (Ok "Feedback marked as 'unclear' by bob@example.com", db2) /\
    first (developer_by_email bob) (Developers db2) = Some d /\
    first (link_of 11 (Developer.id d)) (FeedbackDevelopers db2) = Some l /\
    FeedbackDeveloper.status l = unclear /\
    FeedbackDeveloper.action_time l = Some (5000 + minutes 330) /\
    Feedbacks db2 = Feedbacks shared /\
    forall f k, count_links f k db2 = count_links f k shared.
Proof.
  eapply (shared_developer_can_act drafted 11 [dev; bob; dev] 1 2000 _
            shared bob "unclear" unclear 5000).
  - reflexivity.
  - right. left. reflexivity.
  - reflexivity.
Defined.

Section SharedLinks.
Variable int : string -> option Z.

(** X16. The link mailed by a share opens the feedback. For an address that
    [int] does not read as a number, the token in the link authenticates its
    bearer as the developer with that address for 360 minutes from the
    share and no longer, and the feedbacks assigned to that developer
    include the shared one, marked as sent. On a route for users the same
    token is not refused: [int] fails in [get_current_user] and nothing
    catches the ValueError. *)
Theorem shared_link_opens_feedback db feedback_id emails user_id now urls db1 e url :
  share_feedback_with_developers db feedback_id emails user_id now = (Ok urls, db1) ->
  In (e, url) urls ->
  int e = None ->
  e <> "" ->
  view_feedback url = feedback_id /\
  developer url = e /\
  (exists d fb1,
     Developer.email d = e /\
     (forall now',
        get_current_developer int (token url) now' db1
        = if now + minutes 360 <? now'
          then Refused credentials_exception
          else Resolved d) /\
     In fb1 (get_assigned_feedbacks db1 d) /\
     Feedback.id fb1 = feedback_id /\
     Feedback.status fb1 = sent) /\
  forall now' anydb,
    get_current_user int (token url) now' anydb
    = if now + minutes 360 <? now'
      then Refused (HTTPException 401 "Token error")
      else Uncaught_ValueError.
Proof.
  intros Hshare Hin Hint Hne.
  rewrite (share_feedback_with_developers_urls _ _ _ _ _ _ _ Hshare) in Hin.
  apply in_map_iff in Hin. destruct Hin as (e' & [= -> <-] & He).
  split; [reflexivity|]. split; [reflexivity|].
  destruct (linked_after_share _ _ _ _ _ _ _ e Hshare He)
    as (d & l & fb1 & Hd & Hl & Hrow & Hid & Hst & Hassigned).
  split.
  - exists d, fb1.
    split; [apply first_holds in Hd; now apply String.eqb_eq in Hd|].
    split; [|split; [exact Hassigned | split; [exact Hid | exact Hst]]].
    intros now'.
    unfold get_current_developer, jwt_decode, send_feedback_email, create_access_token,
      ACCESS_TOKEN_EXPIRE_MINUTES.
    cbn [token exp sub].
    change (if minutes 360 =? 0 then minutes 360 else minutes 360) with (minutes 360).
    destruct (now + minutes 360 <? now'); [reflexivity|].
    change (sub {| sub := e; exp := now + minutes 360 |}) with e.
    destruct (String.eqb_spec e "") as [E|_]; [contradiction|].
    now rewrite Hint, Hd.
  - intros now' anydb.
    unfold get_current_user, jwt_decode, send_feedback_email, create_access_token,
      ACCESS_TOKEN_EXPIRE_MINUTES.
    cbn [token exp sub].
    change (if minutes 360 =? 0 then minutes 360 else minutes 360) with (minutes 360).
    destruct (now + minutes 360 <? now'); [reflexivity|].
    change (sub {| sub := e; exp := now + minutes 360 |}) with e.
    now rewrite Hint.
Qed.

End SharedLinks.

Lemma shared_link_opens_feedback_witness :
  view_feedback (send_feedback_email bob 11 2000) = 11 /\
  developer (send_feedback_email bob 11 2000) = bob /\
  (exists d fb1,
     Developer.email d = bob /\
     (forall now',
        get_current_developer decimal_int (token (send_feedback_email bob 11 2000)) now'
                              shared
        = if 2000 + minutes 360 <? now'
          then Refused credentials_exception
          else Resolved d) /\
     In fb1 (get_assigned_feedbacks shared d) /\
     Feedback.id fb1 = 11 /\
     Feedback.status fb1 = sent) /\
  forall now' anydb,
    get_current_user decimal_int (token (send_feedback_email bob 11 2000)) now' anydb
    = if 2000 + minutes 360 <? now'
      then Refused (HTTPException 401 "Token error")
      else Uncaught_ValueError.
Proof.
  eapply (shared_link_opens_feedback decimal_int drafted 11 [dev; bob; dev] 1 2000 _
            shared bob (send_feedback_email bob 11 2000)).
  - reflexivity.
  - right. left. reflexivity.
  - reflexivity.
  - discriminate.
Defined.

(** ** Creating feedback *)

Section CreationFacts.
Variable strip : string -> string.

Lemma create_feedback_ok db data user_id workspace_id now f db' :
  create_feedback strip db data user_id workspace_id now = (Ok f, db') ->
  exists w,
    first (workspace_by_id workspace_id) (Workspaces db) = Some w /\
    (Workspace.owner_id w = user_id \/
     exists c, first (collaborator_in workspace_id user_id) (Collaborators db) = Some c) /\
    f = Feedback.mk (fresh_id (map Feedback.id (Feedbacks db)))
          (strip (FeedbackCreate.name data)) user_id draft
          (FeedbackCreate.url data) (FeedbackCreate.screenshot_url data)
          (FeedbackCreate.recording_url data) None
          (FeedbackCreate.message data) now None workspace_id /\
    Users db' = Users db /\ Workspaces db' = Workspaces db /\
    Feedbacks db' = Feedbacks db ++ [f] /\
    Collaborators db'
      = Collaborators db ++
        map (fun c => Collaborator.mk None (FeedbackCollaborator.email c)
                        (AccessLevel_value (FeedbackCollaborator.access c))
                        workspace_id (Some user_id))
            (filter (fun c =>
                       match first (collaborator_invited workspace_id
                                      (FeedbackCollaborator.email c))
                                   (Collaborators db) with
                       | Some _ => false
                       | None => true
                       end)
                    (FeedbackCreate.collaborators data)) /\
    FeedbackAccesses db'
      = FeedbackAccesses db ++
        map (fun c => FeedbackAccess.mk (Feedback.id f) (FeedbackCollaborator.user_id c)
                        (FeedbackCollaborator.email c)
                        (AccessLevel_value (FeedbackCollaborator.access c)))
            (FeedbackCreate.collaborators data).
Proof.
  unfold create_feedback.
  destruct (first (workspace_by_id workspace_id) (Workspaces db)) as [w|] eqn:Hw;
    [|discriminate].
  destruct (Z.eqb_spec (Workspace.owner_id w) user_id) as [Hown|Hown]; simpl negb;
    cbv iota; simpl andb.
  - intros [= <- <-]. exists w. split; [reflexivity|]. split; [now left|].
    split; [reflexivity|]. simpl. repeat split.
    f_equal. induction (FeedbackCreate.collaborators data) as [|c cs IH];
      [reflexivity|]. simpl.
    destruct (first (collaborator_invited workspace_id _) (Collaborators db));
      simpl; now rewrite IH.
  - destruct (first (collaborator_in workspace_id user_id) (Collaborators db))
      as [c0|] eqn:Hc; [|discriminate].
    intros [= <- <-]. exists w. split; [reflexivity|]. split; [right; eauto|].
    split; [reflexivity|]. simpl. repeat split.
    f_equal. induction (FeedbackCreate.collaborators data) as [|c cs IH];
      [reflexivity|]. simpl.
    destruct (first (collaborator_invited workspace_id _) (Collaborators db));
      simpl; now rewrite IH.
Qed.

(** X17. A feedback created through the route is a draft of the caller in
    the workspace of the request, appended to the feedback table; the route
    returns what [create_feedback] returns; one access row is written per
    collaborator of the request; and the new draft is in the caller's list
    of drafts of the workspace and in the list of all its feedbacks. *)
Theorem created_feedback_is_listed data db current_user now f db' :
  create_feedback_route strip data db current_user now = (Ok f, db') ->
  let workspace_id := FeedbackCreate.workspace_id data in
  create_feedback strip db data current_user workspace_id now = (Ok f, db') /\
  Feedback.status f = draft /\
  Feedback.created_by f = current_user /\
  Feedback.workspace_id f = workspace_id /\
  Feedback.name f = strip (FeedbackCreate.name data) /\
  Feedbacks db' = Feedbacks db ++ [f] /\
  (exists accesses,
     FeedbackAccesses db' = FeedbackAccesses db ++ accesses /\
     map FeedbackAccess.user_email accesses
       = map FeedbackCollaborator.email (FeedbackCreate.collaborators data) /\
     Forall (fun a => FeedbackAccess.feedback_id a = Feedback.id f) accesses) /\
  (exists drafts,
     get_draft_feedbacks_by_workspace db' workspace_id (Some current_user) = Ok drafts /\
     In f drafts) /\
  (exists feedbacks,
     list_all_feedbacks_by_workspace workspace_id db' = Ok feedbacks /\
     In f feedbacks).
Proof.
  intros Hroute workspace_id.
  assert (Hrun : create_feedback strip db data current_user workspace_id now = (Ok f, db')).
  { revert Hroute. unfold create_feedback_route. fold workspace_id.
    destruct (first (workspace_by_id workspace_id) (Workspaces db)); [|discriminate].
    destruct (negb _ && _); [discriminate|]. auto. }
  split; [exact Hrun|].
  destruct (create_feedback_ok _ _ _ _ _ _ _ Hrun)
    as (w & Hw & Haccess & Hf & _ & Hws & Hfs & Hcs & Has).
  split; [now rewrite Hf|]. split; [now rewrite Hf|]. split; [now rewrite Hf|].
  split; [now rewrite Hf|]. split; [exact Hfs|].
  assert (Hin : In f (filter (fun x => Feedback.workspace_id x =? workspace_id)
                             (Feedbacks db'))).
  { apply filter_In. split; [rewrite Hfs; apply in_or_app; right; now left|].
    rewrite Hf. simpl. apply Z.eqb_refl. }
  assert (Hdraft : In f (filter (fun x => (Feedback.workspace_id x =? workspace_id)
                                          && FeedbackStatus_eqb (Feedback.status x) draft)
                                (Feedbacks db'))).
  { apply filter_In. split; [rewrite Hfs; apply in_or_app; right; now left|].
    rewrite Hf. simpl. now rewrite Z.eqb_refl. }
  split; [|split].
  - eexists. split; [exact Has|]. split.
    + rewrite map_map. reflexivity.
    + apply Forall_map, Forall_forall. intros c _. reflexivity.
  - unfold get_draft_feedbacks_by_workspace, all. rewrite Hws, Hw.
    destruct (Z.eqb_spec (Workspace.owner_id w) current_user) as [Hown|Hown]; simpl negb;
      cbv iota.
    + eexists. split; [reflexivity | exact Hdraft].
    + destruct Haccess as [Hown'|(c & Hc)]; [contradiction|].
      rewrite Hcs, (first_app_l _ _ _ _ Hc).
      eexists. split; [reflexivity|].
      apply filter_In. split; [exact Hdraft|]. rewrite Hf. simpl. apply Z.eqb_refl.
  - unfold list_all_feedbacks_by_workspace, get_all_feedbacks_by_workspace, all.
    rewrite Hws, Hw. eexists. split; [reflexivity | exact Hin].
Qed.

(** X18. The loop of [create_feedback] tests each address against the
    collaborators as they were when the feedback was stored (the session
    does not flush before a query): it appends one collaborator row for
    every entry of the request whose address had none in the workspace, so
    an address new to the workspace that the request names [n] times has
    [n] rows afterwards, and an address already invited gets none. *)
Theorem create_feedback_invites_per_mention db data user_id workspace_id now f db' email :
  create_feedback strip db data user_id workspace_id now = (Ok f, db') ->
  List.length (all (collaborator_invited workspace_id email) (Collaborators db'))
  = match first (collaborator_invited workspace_id email) (Collaborators db) with
    | Some _ =>
        List.length (all (collaborator_invited workspace_id email) (Collaborators db))
    | None =>
        List.length (filter (fun c => String.eqb (FeedbackCollaborator.email c) email)
                            (FeedbackCreate.collaborators data))
    end.
Proof.
  intros Hrun.
  destruct (create_feedback_ok _ _ _ _ _ _ _ Hrun) as (_ & _ & _ & _ & _ & _ & _ & Hcs & _).
  rewrite Hcs. unfold all. rewrite filter_app, length_app.
  set (mentions := FeedbackCreate.collaborators data).
  destruct (first (collaborator_invited workspace_id email) (Collaborators db))
    as [c0|] eqn:Hc.
  - assert (Hnone : forall l, List.length
              (filter (collaborator_invited workspace_id email)
                 (map (fun c => Collaborator.mk None (FeedbackCollaborator.email c)
                                  (AccessLevel_value (FeedbackCollaborator.access c))
                                  workspace_id (Some user_id))
                    (filter (fun c =>
                               match first (collaborator_invited workspace_id
                                              (FeedbackCollaborator.email c))
                                           (Collaborators db) with
                               | Some _ => false
                               | None => true
                               end) l))) = 0%nat).
    { induction l as [|c cs IH]; [reflexivity|]. simpl.
      destruct (first (collaborator_invited workspace_id (FeedbackCollaborator.email c))
                      (Collaborators db)) eqn:Hf; [exact IH|].
      simpl. unfold collaborator_invited at 1. simpl.
      destruct (String.eqb_spec (FeedbackCollaborator.email c) email) as [E|E].
      - rewrite E in Hf. congruence.
      - simpl. exact IH. }
    rewrite Hnone. lia.
  - rewrite (proj1 (first_none_count _ _) Hc). simpl.
    induction mentions as [|c cs IH]; [reflexivity|]. simpl.
    destruct (String.eqb_spec (FeedbackCollaborator.email c) email) as [E|E].
    + rewrite E, Hc. simpl. unfold collaborator_invited at 1. simpl.
      rewrite E, String.eqb_refl, Z.eqb_refl. simpl. f_equal. exact IH.
    + destruct (first (collaborator_invited workspace_id (FeedbackCollaborator.email c))
                      (Collaborators db)); [exact IH|].
      simpl. unfold collaborator_invited at 1. simpl.
      apply String.eqb_neq in E. rewrite E. simpl. exact IH.
Qed.

End CreationFacts.

Lemma created_feedback_is_listed_witness :
  create_feedback (fun name => name) drafted report 1 7 3000 = (Ok report_row, reported) /\
  Feedback.status report_row = draft /\
  Feedback.created_by report_row = 1 /\
  Feedback.workspace_id report_row = 7 /\
  Feedback.name report_row = "Crash" /\
  Feedbacks reported = Feedbacks drafted ++ [report_row] /\
  (exists accesses,
     FeedbackAccesses reported = FeedbackAccesses drafted ++ accesses /\
     map FeedbackAccess.user_email accesses = [bob; bob] /\
     Forall (fun a => FeedbackAccess.feedback_id a = 12) accesses) /\
  (exists drafts,
     get_draft_feedbacks_by_workspace reported 7 (Some 1) = Ok drafts /\
     In report_row drafts) /\
  (exists feedbacks,
     list_all_feedbacks_by_workspace 7 reported = Ok feedbacks /\
     In report_row feedbacks).
Proof.
  apply (created_feedback_is_listed (fun name => name) report drafted 1 3000
           report_row reported).
  reflexivity.
Defined.

Lemma create_feedback_invites_per_mention_witness :
  List.length (all (collaborator_invited 7 bob) (Collaborators reported)) = 2%nat.
Proof.
  apply (create_feedback_invites_per_mention (fun name => name) drafted report 1 7 3000
           report_row reported bob).
  reflexivity.
Defined.

(** ** Listing, updating and deleting feedback *)


Lemma first_update_first_other {A} (p q : A -> bool) f rows :
  (forall x, q (f x) = q x) ->
  (forall x, p x = true -> q x = false) ->
  first q (update_first p f rows) = first q rows.
Proof.
  intros Hf Hpq. unfold first. induction rows as [|r rs IH]; simpl; [reflexivity|].
  destruct (p r) eqn:Hp; simpl.
  - now rewrite Hf, (Hpq r Hp).
  - now rewrite IH.
Qed.

(** X20. A successful update changes the one row it found and nothing of
    its identity: id, creator, creation time, workspace and developer
    address stay, the row was not sent, and looking up any other id gives
    what it gave before. An update that sets the status to sent is the last
    one: every later update of the feedback, by anyone, is refused, and so
    is its deletion. *)
Theorem update_feedback_keeps_identity feedback_id data db user_id f' db' :
  update_feedback feedback_id data db user_id = (Ok f', db') ->
  exists f,
    first (feedback_by_id feedback_id) (Feedbacks db) = Some f /\
    Feedback.status f <> sent /\
    first (feedback_by_id feedback_id) (Feedbacks db') = Some f' /\
    Feedback.id f' = Feedback.id f /\
    Feedback.created_by f' = Feedback.created_by f /\
    Feedback.created_at f' = Feedback.created_at f /\
    Feedback.workspace_id f' = Feedback.workspace_id f /\
    Feedback.developer_email f' = Feedback.developer_email f /\
    List.length (Feedbacks db') = List.length (Feedbacks db) /\
    (forall other, other <> feedback_id ->
       first (feedback_by_id other) (Feedbacks db')
       = first (feedback_by_id other) (Feedbacks db)) /\
    (FeedbackUpdate.status data = Some sent ->
     forall data' caller,
       (exists exc, update_feedback feedback_id data' db' caller = (Raise exc, db')) /\
       (exists exc, delete_feedback db' feedback_id caller = (Raise exc, db'))).
Proof.
  unfold update_feedback at 1.
  destruct (first (feedback_by_id feedback_id) (Feedbacks db)) as [f|] eqn:Hf;
    [|discriminate].
  destruct (first (workspace_by_id _) (Workspaces db)); [|discriminate].
  destruct (negb _ && _); [discriminate|].
  destruct (FeedbackStatus_eqb (Feedback.status f) sent) eqn:Hst; [discriminate|].
  intros [= <- <-]. exists f. split; [reflexivity|].
  split; [intros H; rewrite H in Hst; discriminate|].
  assert (Hrow : first (feedback_by_id feedback_id)
                   (update_first (feedback_by_id feedback_id) (setattrs data) (Feedbacks db))
                 = Some (setattrs data f)).
  { rewrite first_update_first, Hf; [reflexivity|]. intros r Hr; exact Hr. }
  split; [exact Hrow|]. do 5 (split; [reflexivity|]).
  split; [|split].
  - simpl. clear. induction (Feedbacks db) as [|r rs IH]; simpl; [reflexivity|].
    destruct (feedback_by_id feedback_id r); simpl; [reflexivity | now rewrite IH].
  - intros other Hne. simpl. apply first_update_first_other.
    + intros x. reflexivity.
    + intros x Hx. unfold feedback_by_id in *. apply Z.eqb_eq in Hx.
      apply Z.eqb_neq. lia.
  - intros Hsent data' caller.
    set (dbn := set_Feedbacks db
                  (update_first (feedback_by_id feedback_id) (setattrs data)
                     (Feedbacks db))).
    change (first (feedback_by_id feedback_id) (Feedbacks dbn) = Some (setattrs data f))
      in Hrow.
    assert (Hs : Feedback.status (setattrs data f) = sent) by (simpl; now rewrite Hsent).
    split.
    + destruct (update_feedback_sent dbn feedback_id data' caller _ Hrow Hs)
        as (exc & H & _).
      exists exc. exact H.
    + eexists. exact (delete_feedback_sent dbn feedback_id caller _ Hrow Hs).
Qed.

Lemma first_delete_first_unique rows i :
  NoDup (map Feedback.id rows) ->
  first (feedback_by_id i) (delete_first (feedback_by_id i) rows) = None /\
  forall other, other <> i ->
    first (feedback_by_id other) (delete_first (feedback_by_id i) rows)
    = first (feedback_by_id other) rows.
Proof.
  unfold first. induction rows as [|r rs IH]; simpl; intros Hnd; [auto|].
  inversion Hnd as [|? ? Hnotin Hnd']; subst.
  destruct (feedback_by_id i r) eqn:Hr.
  - unfold feedback_by_id in Hr. apply Z.eqb_eq in Hr. split.
    + destruct (find (feedback_by_id i) rs) as [x|] eqn:Hx; [|reflexivity].
      apply find_some in Hx. destruct Hx as [Hin Hx].
      unfold feedback_by_id in Hx. apply Z.eqb_eq in Hx.
      exfalso. apply Hnotin. apply in_map_iff. exists x. split; [congruence|exact Hin].
    + intros other Hne. unfold feedback_by_id at 2.
      destruct (Z.eqb_spec (Feedback.id r) other); [lia | reflexivity].
  - destruct (IH Hnd') as [Hgone Hrest]. simpl. rewrite Hr. split; [exact Hgone|].
    intros other Hne. now rewrite (Hrest other Hne).
Qed.

(** X21. With feedback ids unique (the primary key), a deleted feedback is
    gone with everything that hung on it: no row, no developer link and no
    access row carries its id, no developer finds it among the assigned
    feedbacks, deleting it again is answered 404, and every other feedback is
    found as before. *)
Theorem deleted_feedback_is_gone feedback_id db current_user message db' :
  NoDup (map Feedback.id (Feedbacks db)) ->
  delete_feedback_route feedback_id db current_user = (Ok message, db') ->
  first (feedback_by_id feedback_id) (Feedbacks db') = None /\
  (forall l, In l (FeedbackDevelopers db') ->
     FeedbackDeveloper.feedback_id l <> feedback_id) /\
  (forall a, In a (FeedbackAccesses db') -> FeedbackAccess.feedback_id a <> feedback_id) /\
  (forall d f, In f (get_assigned_feedbacks db' d) -> Feedback.id f <> feedback_id) /\
  delete_feedback_route feedback_id db' current_user
    = (Raise (HTTPException 404 "Feedback not found"), db') /\
  (forall other, other <> feedback_id ->
     first (feedback_by_id other) (Feedbacks db')
     = first (feedback_by_id other) (Feedbacks db)).
Proof.
  intros Hnd. unfold delete_feedback_route at 1, delete_feedback.
  destruct (first (feedback_by_id feedback_id) (Feedbacks db)) as [f|] eqn:Hf;
    [|discriminate].
  destruct (negb _); [discriminate|].
  destruct (FeedbackStatus_eqb _ sent); [discriminate|].
  intros [= <- <-]. simpl.
  pose proof (first_holds _ _ _ Hf) as Hid. unfold feedback_by_id in Hid.
  apply Z.eqb_eq in Hid.
  destruct (first_delete_first_unique (Feedbacks db) feedback_id Hnd) as [Hgone Hrest].
  split; [exact Hgone|]. split; [|split; [|split; [|split; [|exact Hrest]]]].
  - intros l Hl. unfold delete_all in Hl. apply filter_In in Hl.
    destruct Hl as [_ Hl]. apply negb_true_iff, Z.eqb_neq in Hl. congruence.
  - intros a Ha. unfold delete_all in Ha. apply filter_In in Ha.
    destruct Ha as [_ Ha]. apply negb_true_iff, Z.eqb_neq in Ha. congruence.
  - intros d x Hx. unfold get_assigned_feedbacks in Hx. simpl in Hx.
    apply in_flat_map in Hx. destruct Hx as (l & _ & Hx).
    destruct (first (feedback_by_id (FeedbackDeveloper.feedback_id l)) _) as [y|] eqn:Hy;
      [|destruct Hx].
    destruct Hx as [<-|[]]. intros Heq.
    apply first_In in Hy. apply (first_none_all _ _ Hgone) in Hy.
    unfold feedback_by_id in Hy. apply Z.eqb_neq in Hy. contradiction.
  - unfold delete_feedback_route. simpl. now rewrite Hgone.
Qed.

Lemma update_feedback_keeps_identity_witness :
  exists f,
    first (feedback_by_id 11) (Feedbacks drafted) = Some f /\
    Feedback.status f <> sent /\
    first (feedback_by_id 11) (Feedbacks frozen) = Some frozen_row /\
    Feedback.id frozen_row = Feedback.id f /\
    Feedback.created_by frozen_row = Feedback.created_by f /\
    Feedback.created_at frozen_row = Feedback.created_at f /\
    Feedback.workspace_id frozen_row = Feedback.workspace_id f /\
    Feedback.developer_email frozen_row = Feedback.developer_email f /\
    List.length (Feedbacks frozen) = List.length (Feedbacks drafted) /\
    (forall other, other <> 11 ->
       first (feedback_by_id other) (Feedbacks frozen)
       = first (feedback_by_id other) (Feedbacks drafted)) /\
    (FeedbackUpdate.status freeze = Some sent ->
     forall data' caller,
       (exists exc, update_feedback 11 data' frozen caller = (Raise exc, frozen)) /\
       (exists exc, delete_feedback frozen 11 caller = (Raise exc, frozen))).
Proof.
  apply (update_feedback_keeps_identity 11 freeze drafted 1 frozen_row frozen).
  reflexivity.
Defined.

Lemma deleted_feedback_is_gone_witness :
  first (feedback_by_id 11) (Feedbacks emptied) = None /\
  (forall l, In l (FeedbackDevelopers emptied) -> FeedbackDeveloper.feedback_id l <> 11) /\
  (forall a, In a (FeedbackAccesses emptied) -> FeedbackAccess.feedback_id a <> 11) /\
  (forall d f, In f (get_assigned_feedbacks emptied d) -> Feedback.id f <> 11) /\
  delete_feedback_route 11 emptied 1
    = (Raise (HTTPException 404 "Feedback not found"), emptied) /\
  (forall other, other <> 11 ->
     first (feedback_by_id other) (Feedbacks emptied)
     = first (feedback_by_id other) (Feedbacks drafted)).
Proof.
  apply (deleted_feedback_is_gone 11 drafted 1 "Feedback deleted successfully" emptied).
  - repeat constructor. intros [].
  - reflexivity.
Defined.

(** ** Invitations *)

Lemma update_first_app_new {A} (p : A -> bool) f rows x :
  first p rows = None -> p x = true ->
  update_first p f (rows ++ [x]) = rows ++ [f x].
Proof.
  unfold first. induction rows as [|r rs IH]; simpl; intros Hn Hp.
  - now rewrite Hp.
  - destruct (p r); [discriminate|]. now rewrite IH.
Qed.

Section InvitationFacts.
Context {bc : Bcrypt}.

Lemma signin_request_invited data rnd salt now db c :
  first (user_by_email (SigninRequest.email data)) (Users db) = None ->
  first (collaborator_by_email (SigninRequest.email data)) (Collaborators db) = Some c ->
  let user := User.mk (fresh_id (map User.id (Users db)))
                      (SigninRequest.email data) "Invited User" true in
  let db' := snd (signin_request data rnd salt now db) in
  Users db' = Users db ++ [user] /\
  Collaborators db'
    = update_first (collaborator_by_email (SigninRequest.email data))
        (fun c => Collaborator.set_user_id c (Some (User.id user))) (Collaborators db) /\
  Workspaces db' = Workspaces db /\ Developers db' = Developers db.
Proof.
  intros Hu Hc. unfold signin_request, add_user. rewrite Hu, Hc. cbv zeta. simpl OTPs.
  destruct (first (otp_by_email _) (OTPs db)) as [r|];
    [destruct (OTP_Tbl.resend_count r >=? MAX_OTP_RESEND)|]; simpl; repeat split.
Qed.

(** X22. Invitation, then sign-in without sign-up. After the owner has
    invited an address that has neither an account nor an earlier
    invitation, the address is listed among the members as an inactive
    collaborator under its address, and a second invitation to the same
    workspace is refused. A sign-in request for the address then creates
    the user "Invited User", already onboarded, who passes the collaborator
    test of the workspace and is listed as an active collaborator. *)
Theorem invited_address_signs_in workspace_id email access_type db current_user_id
    message mail db1 rnd salt now :
  invite_collaborator_api workspace_id email access_type db current_user_id
    = (Ok (message, mail), db1) ->
  first (user_by_email email) (Users db) = None ->
  first (collaborator_by_email email) (Collaborators db) = None ->
  (exists members,
     list_workspace_members workspace_id db1 current_user_id = Ok members /\
     In (mkMember email "collaborator" "inactive") members) /\
  (forall access_type',
     invite_collaborator_api workspace_id email access_type' db1 current_user_id
     = (Raise (HTTPException 400 "Collaborator already invited"), db1)) /\
  let db2 := snd (signin_request (SigninRequest.mk email) rnd salt now db1) in
  exists u,
    first (user_by_email email) (Users db2) = Some u /\
    User.full_name u = "Invited User" /\
    User.onboarded u = true /\
    (exists c, first (collaborator_in workspace_id (User.id u)) (Collaborators db2)
               = Some c) /\
    exists members,
      list_workspace_members workspace_id db2 current_user_id = Ok members /\
      In (mkMember "Invited User" "collaborator" "active") members.
Proof.
  unfold invite_collaborator_api, invite_collaborator at 1.
  destruct (first (workspace_by_id workspace_id) (Workspaces db)) as [w|] eqn:Hw;
    [|discriminate].
  destruct (Z.eqb_spec (Workspace.owner_id w) current_user_id) as [Hown|];
    [|discriminate].
  simpl negb. cbv iota.
  destruct (first (fun c => (Collaborator.workspace_id c =? workspace_id)
                            && String.eqb (Collaborator.user_email c) email)
                  (Collaborators db)) eqn:Hfree; [discriminate|].
  intros [= _ _ <-] Hu Hc.
  set (c0 := Collaborator.mk None email access_type workspace_id (Some current_user_id)).
  set (db1 := set_Collaborators db (Collaborators db ++ [c0])).
  assert (Hby : collaborator_by_email email c0 = true) by apply String.eqb_refl.
  assert (Hc1 : first (collaborator_by_email email) (Collaborators db1) = Some c0).
  { simpl. rewrite first_app_r by exact Hc. unfold first. simpl. now rewrite Hby. }
  assert (Hmembers : forall (dbx : DB) (cx : Collaborator.t) (ux : option User.t),
            Workspaces dbx = Workspaces db ->
            In cx (Collaborators dbx) ->
            Collaborator.workspace_id cx = workspace_id ->
            Collaborator.user_email cx = email ->
            first (user_by_email email) (Users dbx) = ux ->
            exists members,
              list_workspace_members workspace_id dbx current_user_id = Ok members /\
              In (mkMember (match ux with Some u => User.full_name u | None => email end)
                           "collaborator" (member_status_of ux)) members).
  { intros dbx cx ux Hws Hin Hcw Hce Hux.
    unfold list_workspace_members, get_workspace_members. rewrite Hws, Hw.
    destruct (Z.eqb_spec (Workspace.owner_id w) current_user_id) as [_|]; [|contradiction].
    simpl negb. cbv iota. eexists. split; [reflexivity|].
    apply in_or_app. right. apply in_or_app. left.
    apply in_map_iff. exists cx. split.
    - rewrite Hce, Hux. reflexivity.
    - unfold all. apply filter_In. split; [exact Hin|]. rewrite Hcw. apply Z.eqb_refl. }
  split; [|split].
  - apply (Hmembers db1 c0 None); try reflexivity; [|exact Hu].
    simpl. apply in_or_app. right. now left.
  - intros access_type'. unfold invite_collaborator. simpl Workspaces. rewrite Hw.
    destruct (Z.eqb_spec (Workspace.owner_id w) current_user_id) as [_|]; [|contradiction].
    simpl negb. cbv iota. simpl Collaborators.
    rewrite (first_app_r _ _ _ Hfree). unfold first. simpl.
    now rewrite Z.eqb_refl, String.eqb_refl.
  - cbv zeta.
    destruct (signin_request_invited (SigninRequest.mk email) rnd salt now db1 c0)
      as (Husers & Hcs & Hws & _); [exact Hu | exact Hc1 |].
    cbn [SigninRequest.email] in Husers, Hcs.
    set (db2 := snd (signin_request (SigninRequest.mk email) rnd salt now db1)) in *.
    set (u := User.mk (fresh_id (map User.id (Users db1))) email "Invited User" true) in *.
    assert (Hfirst : first (user_by_email email) (Users db2) = Some u).
    { rewrite Husers. rewrite first_app_r by exact Hu. unfold first. simpl.
      unfold user_by_email. simpl. now rewrite String.eqb_refl. }
    assert (Hin : In (Collaborator.set_user_id c0 (Some (User.id u))) (Collaborators db2)).
    { rewrite Hcs. simpl Collaborators.
      rewrite (update_first_app_new _ _ _ _ Hc Hby). apply in_or_app. right. now left. }
    exists u. split; [exact Hfirst|]. split; [reflexivity|]. split; [reflexivity|].
    split.
    + apply (first_exists _ _ _ Hin). unfold collaborator_in. simpl.
      now rewrite !Z.eqb_refl.
    + apply (Hmembers db2 _ (Some u) Hws Hin); [reflexivity | reflexivity | exact Hfirst].
Qed.

End InvitationFacts.

Lemma invited_address_signs_in_witness :
  (exists members,
     list_workspace_members 7 bob_invited 1 = Ok members /\
     In (mkMember bob "collaborator" "inactive") members) /\
  (forall access_type',
     invite_collaborator_api 7 bob access_type' bob_invited 1
     = (Raise (HTTPException 400 "Collaborator already invited"), bob_invited)) /\
  let db2 := snd (@signin_request demo_bcrypt (SigninRequest.mk bob) 135790 "salt" 4000
                    bob_invited) in
  exists u,
    first (user_by_email bob) (Users db2) = Some u /\
    User.full_name u = "Invited User" /\
    User.onboarded u = true /\
    (exists c, first (collaborator_in 7 (User.id u)) (Collaborators db2) = Some c) /\
    exists members,
      list_workspace_members 7 db2 1 = Ok members /\
      In (mkMember "Invited User" "collaborator" "active") members.
Proof.
  eapply (@invited_address_signs_in demo_bcrypt 7 bob "edit" drafted 1 _ _ bob_invited
            135790 "salt" 4000).
  - reflexivity.
  - reflexivity.
  - reflexivity.
Defined.

(** ** Pending feedback of a developer *)

Lemma filter_none {A} (p : A -> bool) rows :
  (forall x, In x rows -> p x = false) -> filter p rows = [].
Proof.
  induction rows as [|r rs IH]; simpl; intros H; [reflexivity|].
  rewrite (H r) by now left. apply IH. intros x Hx. apply H. now right.
Qed.

Lemma map_fixed {A} (h : A -> A) rows :
  (forall x, In x rows -> h x = x) -> map h rows = rows.
Proof.
  induction rows as [|r rs IH]; simpl; intros H; [reflexivity|].
  rewrite (H r) by now left. f_equal. apply IH. intros x Hx. apply H. now right.
Qed.

Lemma assigned_after_take_over developer email f :
  assigned_by_email email
    (if assigned_by_email email f then take_over developer f else f) = false.
Proof. destruct (assigned_by_email email f) eqn:E; [reflexivity | exact E]. Qed.

(** X23. [assign_pending_feedbacks_to_developer] takes over every feedback
    whose [developer_email] is the developer's address: afterwards no
    feedback carries that address, each of them has a link to the developer
    and is found among the developer's assigned feedbacks, all other
    feedback rows are as they were, and running it again changes nothing. *)
Theorem assign_pending_takes_over db developer :
  let email := Developer.email developer in
  let db' := assign_pending_feedbacks_to_developer db developer in
  (forall f, In f (Feedbacks db') -> Feedback.developer_email f <> Some email) /\
  (forall f, In f (Feedbacks db) -> Feedback.developer_email f = Some email ->
     In (take_over developer f) (Feedbacks db') /\
     (exists l, first (link_of (Feedback.id f) (Developer.id developer))
                      (FeedbackDevelopers db') = Some l) /\
     exists g, In g (get_assigned_feedbacks db' developer) /\
               Feedback.id g = Feedback.id f) /\
  (forall f, In f (Feedbacks db) -> Feedback.developer_email f <> Some email ->
     In f (Feedbacks db')) /\
  List.length (Feedbacks db') = List.length (Feedbacks db) /\
  assign_pending_feedbacks_to_developer db' developer = db'.
Proof.
  intros email db'.
  assert (Hassigned : forall f, assigned_by_email email f = true <->
                                Feedback.developer_email f = Some email).
  { intros f. unfold assigned_by_email. destruct (Feedback.developer_email f) as [e|].
    - rewrite String.eqb_eq. split; congruence.
    - split; discriminate. }
  assert (Hclear : forall f, In f (Feedbacks db') -> assigned_by_email email f = false).
  { intros f Hf. unfold db', assign_pending_feedbacks_to_developer in Hf. simpl in Hf.
    apply in_map_iff in Hf. destruct Hf as (x & <- & _).
    apply assigned_after_take_over. }
  split; [|split; [|split; [|split]]].
  - intros f Hf Heq. apply Hassigned in Heq. rewrite (Hclear f Hf) in Heq. discriminate.
  - intros f Hf Heq. apply Hassigned in Heq.
    assert (Hrow : In (take_over developer f) (Feedbacks db')).
    { unfold db', assign_pending_feedbacks_to_developer. simpl.
      apply in_map_iff. exists f. fold email. now rewrite Heq. }
    assert (Hlink : exists l, first (link_of (Feedback.id f) (Developer.id developer))
                                    (FeedbackDevelopers db') = Some l).
    { unfold db', assign_pending_feedbacks_to_developer. simpl. fold email.
      destruct (first (link_of (Feedback.id f) (Developer.id developer))
                      (FeedbackDevelopers db)) as [l|] eqn:Hl.
      - exists l. now apply first_app_l.
      - apply (first_exists _ _
                 (FeedbackDeveloper.mk (Feedback.id f) (Developer.id developer)
                                       pending None)).
        + apply in_or_app. right. apply in_flat_map. exists f. split.
          * unfold all. apply filter_In. auto.
          * rewrite Hl. now left.
        + unfold link_of. simpl. now rewrite !Z.eqb_refl. }
    split; [exact Hrow|]. split; [exact Hlink|].
    destruct Hlink as (l & Hl).
    destruct (first_exists (feedback_by_id (Feedback.id f)) (Feedbacks db')
                (take_over developer f) Hrow) as (g & Hg);
      [unfold feedback_by_id; simpl; apply Z.eqb_refl|].
    exists g. split.
    + unfold get_assigned_feedbacks. apply in_flat_map. exists l.
      pose proof (first_holds _ _ _ Hl) as Hp. unfold link_of in Hp.
      apply andb_true_iff in Hp. destruct Hp as [Hf' Hk]. split.
      * unfold all. apply filter_In. split; [exact (first_In _ _ _ Hl) | exact Hk].
      * apply Z.eqb_eq in Hf'. rewrite Hf', Hg. now left.
    + apply first_holds in Hg. unfold feedback_by_id in Hg. now apply Z.eqb_eq in Hg.
  - intros f Hf Hne. unfold db', assign_pending_feedbacks_to_developer. simpl.
    apply in_map_iff. exists f. split; [|exact Hf]. fold email.
    destruct (assigned_by_email email f) eqn:E; [|reflexivity].
    apply Hassigned in E. contradiction.
  - unfold db', assign_pending_feedbacks_to_developer. simpl. apply length_map.
  - unfold assign_pending_feedbacks_to_developer at 1, all. fold email.
    rewrite (filter_none (assigned_by_email email) (Feedbacks db')) by exact Hclear.
    simpl flat_map. rewrite app_nil_r.
    rewrite (map_fixed _ (Feedbacks db')).
    + now destruct db'.
    + intros x Hx. now rewrite (Hclear x Hx).
Qed.

Lemma NoDup_map_filter {A B} (f : A -> B) (p : A -> bool) rows :
  NoDup (map f rows) -> NoDup (map f (filter p rows)).
Proof.
  induction rows as [|r rs IH]; simpl; intros Hnd; [constructor|].
  inversion Hnd as [|? ? Hnotin Hnd']; subst.
  destruct (p r); simpl; [|auto]. constructor; [|auto].
  intros Hin. apply Hnotin. apply in_map_iff in Hin. destruct Hin as (x & Hx & Hin).
  apply filter_In in Hin. apply in_map_iff. exists x. tauto.
Qed.

Lemma new_links_once links developer_id feedback_id k fs :
  NoDup (map Feedback.id fs) ->
  let added :=
    flat_map
      (fun feedback =>
         match first (link_of (Feedback.id feedback) developer_id) links with
         | Some _ => []
         | None => [FeedbackDeveloper.mk (Feedback.id feedback) developer_id pending None]
         end) fs in
  (List.length (filter (link_of feedback_id k) added) <= 1)%nat /\
  (first (link_of feedback_id k) links <> None ->
   List.length (filter (link_of feedback_id k) added) = 0%nat).
Proof.
  cbv zeta. induction fs as [|f rest IH]; simpl; intros Hnd; [split; auto|].
  inversion Hnd as [|? ? Hnotin Hnd']; subst.
  destruct (IH Hnd') as [Hle Hzero]. clear IH.
  destruct (first (link_of (Feedback.id f) developer_id) links) eqn:Hl;
    cbn [app filter]; [split; assumption|].
  destruct (link_of feedback_id k
              (FeedbackDeveloper.mk (Feedback.id f) developer_id pending None)) eqn:Hnew;
    [|split; [exact Hle | exact Hzero]].
  unfold link_of in Hnew. simpl in Hnew. apply andb_true_iff in Hnew.
  destruct Hnew as [Hid Hk]. apply Z.eqb_eq in Hid, Hk.
  assert (Hrest : filter (link_of feedback_id k)
            (flat_map
               (fun feedback =>
                  match first (link_of (Feedback.id feedback) developer_id) links with
                  | Some _ => []
                  | None => [FeedbackDeveloper.mk (Feedback.id feedback) developer_id
                                                  pending None]
                  end) rest) = []).
  { apply filter_none. intros x Hx. apply in_flat_map in Hx.
    destruct Hx as (g & Hg & Hx).
    destruct (first (link_of (Feedback.id g) developer_id) links); [destruct Hx|].
    destruct Hx as [<-|[]]. unfold link_of. simpl.
    destruct (Z.eqb_spec (Feedback.id g) feedback_id) as [E|]; [|reflexivity].
    exfalso. apply Hnotin. apply in_map_iff. exists g. split; [congruence | exact Hg]. }
  rewrite Hrest. simpl. split; [lia|].
  intros Hsome. subst. contradiction.
Qed.

(** X24. With feedback ids unique (the primary key),
    [assign_pending_feedbacks_to_developer] never writes a second link for
    a pair: a (feedback, developer) pair with at most one link before has at
    most one afterwards, which is what the unique constraint of the link
    table demands of the commit. *)
Theorem assign_pending_links_once db developer feedback_id k :
  NoDup (map Feedback.id (Feedbacks db)) ->
  (count_links feedback_id k db <= 1)%nat ->
  (count_links feedback_id k (assign_pending_feedbacks_to_developer db developer) <= 1)%nat.
Proof.
  intros Hnd Hone. unfold count_links, assign_pending_feedbacks_to_developer, all in *.
  simpl FeedbackDevelopers. rewrite filter_app, length_app.
  destruct (new_links_once (FeedbackDevelopers db) (Developer.id developer) feedback_id k
              (filter (assigned_by_email (Developer.email developer)) (Feedbacks db)))
    as [Hle Hzero]; [now apply NoDup_map_filter|].
  destruct (first (link_of feedback_id k) (FeedbackDevelopers db)) eqn:Hl.
  - rewrite Hzero by discriminate. lia.
  - apply first_none_count in Hl. rewrite Hl. exact Hle.
Qed.

Lemma assign_pending_links_once_witness :
  Nat.le
    (count_links 11 1
       (assign_pending_feedbacks_to_developer shared (Developer.mk 1 dev None (Some 7))))
    1.
Proof.
  apply (assign_pending_links_once shared (Developer.mk 1 dev None (Some 7)) 11 1).
  - repeat constructor. intros [].
  - vm_compute. lia.
Defined.

(** ** Suggestions without a draw *)

Lemma underscore_in_suggestion name suffix :
  In (Ascii.ascii_of_nat 95) (list_ascii_of_string (name ++ "_" ++ suffix)).
Proof. induction name as [|c name IH]; simpl; [now left | now right]. Qed.

Lemma suffix_suggestions_free name db count suffixes : forall suggestions used n,
  (forall u, In u used -> ~ In (Ascii.ascii_of_nat 95) (list_ascii_of_string u)) ->
  (forall s, In s suffixes -> ~ In (Ascii.ascii_of_nat 95) (list_ascii_of_string s)) ->
  (List.length suggestions + n = count)%nat ->
  (1 <= n <= List.length suffixes)%nat ->
  (forall suffix, In suffix (firstn n suffixes) ->
     name_taken (name ++ "_" ++ suffix) db = false) ->
  fst (suffix_suggestions suffixes name db count suggestions used)
  = suggestions ++ map (fun suffix => (name ++ "_" ++ suffix)%string) (firstn n suffixes).
Proof.
  induction suffixes as [|suffix rest IH]; intros suggestions used n Hused Hplain Hn Hle Hfree;
    [simpl in Hle; lia|].
  destruct n as [|n]; [lia|].
  cbn [suffix_suggestions firstn map].
  assert (Hmem : mem (name ++ "_" ++ suffix) used = false).
  { destruct (mem (name ++ "_" ++ suffix) used) eqn:E; [|reflexivity].
    apply mem_In in E. exfalso.
    exact (Hused _ E (underscore_in_suggestion name suffix)). }
  rewrite Hmem, (Hfree suffix) by now left. cbn [negb andb].
  destruct (Nat.leb_spec count (List.length (suggestions ++ [(name ++ "_" ++ suffix)%string])))
    as [Hge|Hlt]; rewrite length_app in *; simpl in *.
  - assert (n = 0)%nat by lia. subst n. reflexivity.
  - rewrite (IH _ _ n).
    + now rewrite <- app_assoc.
    + intros u [<-|Hu]; [apply Hplain; now left | now apply Hused].
    + intros s Hs. apply Hplain. now right.
    + rewrite length_app. simpl. lia.
    + lia.
    + intros s Hs. apply Hfree. now right.
Qed.

(** X25. When the first [count] of the ten friendly suffixes give names
    that no workspace has, [suggest_alternate_names] returns exactly these
    names, in the order of the suffixes, without drawing a random one. *)
Theorem suggest_alternate_names_from_suffixes name db count draws :
  (1 <= count <= 10)%nat ->
  (forall suffix, In suffix (firstn count FRIENDLY_SUFFIXES) ->
     name_taken (name ++ "_" ++ suffix) db = false) ->
  suggest_alternate_names name db count draws
  = Some (map (fun suffix => (name ++ "_" ++ suffix)%string)
              (firstn count FRIENDLY_SUFFIXES)).
Proof.
  intros Hcount Hfree. unfold suggest_alternate_names.
  pose proof (suffix_suggestions_free name db count FRIENDLY_SUFFIXES [] [] count) as H.
  destruct (suffix_suggestions FRIENDLY_SUFFIXES name db count [] []) as [l used].
  cbn [fst] in H. rewrite H.
  - rewrite app_nil_l.
    assert (Hlen : Nat.leb count
              (List.length (map (fun suffix => (name ++ "_" ++ suffix)%string)
                              (firstn count FRIENDLY_SUFFIXES))) = true).
    { apply Nat.leb_le. rewrite length_map, length_firstn. simpl. lia. }
    destruct draws; cbn [random_suggestions]; now rewrite Hlen.
  - intros u [].
  - unfold FRIENDLY_SUFFIXES. intros s Hs. simpl in Hs.
    repeat (destruct Hs as [<-|Hs]; [simpl; intuition discriminate|]). destruct Hs.
  - reflexivity.
  - simpl. lia.
  - exact Hfree.
Qed.

Lemma suggest_alternate_names_from_suffixes_witness :
  suggest_alternate_names "Acme" drafted 3 []
  = Some ["Acme_hub"; "Acme_space"; "Acme_team"].
Proof.
  apply (suggest_alternate_names_from_suffixes "Acme" drafted 3 []).
  - lia.
  - intros suffix Hs. simpl in Hs.
    repeat (destruct Hs as [<-|Hs]; [reflexivity|]). destruct Hs.
Defined.

(** ** A user who is also a developer *)

Section UserAsDeveloper.
Variable int : string -> option Z.
Hypothesis int_str : forall z, int (str z) = Some z.

(** X26. [resolve_logged_in_user_as_developer] goes from the user to the
    developer by the address: for a user whose address a share has named,
    the user's own sign-in token resolves, until it expires, to the developer
    row with that address, whose assigned feedbacks include the shared one;
    for a user whose address no developer has, the answer is 403. *)
Theorem user_resolves_to_own_developer db feedback_id emails user_id now urls db1 i u
    issued now' :
  share_feedback_with_developers db feedback_id emails user_id now = (Ok urls, db1) ->
  first (user_by_id i) (Users db1) = Some u ->
  now' <= issued + minutes ACCESS_TOKEN_EXPIRE_MINUTES ->
  (In (User.email u) emails ->
   exists d fb1,
     resolve_logged_in_user_as_developer int (create_access_token (str i) None issued)
                                         now' db1 = Ok d /\
     Developer.email d = User.email u /\
     In fb1 (get_assigned_feedbacks db1 d) /\
     Feedback.id fb1 = feedback_id) /\
  (first (developer_by_email (User.email u)) (Developers db1) = None ->
   resolve_logged_in_user_as_developer int (create_access_token (str i) None issued)
                                       now' db1
   = Raise (HTTPException 403 "You are not a developer with shared feedback")).
Proof.
  intros Hshare Hu Hnow.
  assert (Hstep : resolve_logged_in_user_as_developer int
                    (create_access_token (str i) None issued) now' db1
                  = match first (developer_by_email (User.email u)) (Developers db1) with
                    | None => Raise (HTTPException 403
                                       "You are not a developer with shared feedback")
                    | Some developer => Ok developer
                    end).
  { unfold resolve_logged_in_user_as_developer, jwt_decode, create_access_token.
    cbn [exp].
    destruct (_ <? now') eqn:E; [apply Z.ltb_lt in E; lia|].
    change (sub {| sub := str i; exp := issued + minutes ACCESS_TOKEN_EXPIRE_MINUTES |})
      with (str i).
    now rewrite int_str, Hu. }
  split.
  - intros He.
    destruct (linked_after_share _ _ _ _ _ _ _ _ Hshare He)
      as (d & l & fb1 & Hd & _ & _ & Hid & _ & Hassigned).
    exists d, fb1. rewrite Hstep, Hd. split; [reflexivity|].
    split; [apply first_holds in Hd; now apply String.eqb_eq in Hd|].
    split; [exact Hassigned | exact Hid].
  - intros Hnone. now rewrite Hstep, Hnone.
Qed.

End UserAsDeveloper.

Lemma user_resolves_to_own_developer_witness :
  (In ann [ann; dev] ->
   exists d fb1,
     resolve_logged_in_user_as_developer decimal_int
       (create_access_token (str 1) None 3000) 4000 shared_with_self = Ok d /\
     Developer.email d = ann /\
     In fb1 (get_assigned_feedbacks shared_with_self d) /\
     Feedback.id fb1 = 11) /\
  (first (developer_by_email ann) (Developers shared_with_self) = None ->
   resolve_logged_in_user_as_developer decimal_int
     (create_access_token (str 1) None 3000) 4000 shared_with_self
   = Raise (HTTPException 403 "You are not a developer with shared feedback")).
Proof.
  eapply (user_resolves_to_own_developer decimal_int decimal_int_str drafted 11
            [ann; dev] 1 2000 _ shared_with_self 1 (User.mk 1 ann "Ann" true) 3000 4000).
  - reflexivity.
  - reflexivity.
  - unfold minutes, ACCESS_TOKEN_EXPIRE_MINUTES. lia.
Defined.
